(** * Threshold EdDSA wallet demos of cb-mpc: the orchestration layer

    A shallow embedding of the Go programs that drive the cb-mpc
    library for a 2-of-3 Solana wallet:

    - [Generator]: the wallet generator ([main], [createThresholdAccessStructure]);
    - [CompleteDemo]: the complete demo ([performMPCSigning],
      [createThresholdAccessStructure]);
    - [RealTransfer]: the real-transfer program ([signWithMPC]);
    - [TransactionSigner]: solana-transaction-signer.go ([performMPCSigning]);
    - [CompleteDemoMain], [RealTransferSteps], [TransactionSignerMain]: what
      the programs do around the signing ([main]'s use of the signature,
      [applyMPCSignature], [waitForConfirmation], [main] of the signer).

    Go values are modelled as follows: [[]byte] is [list byte] (a nil
    slice is the empty list), a Go [string] is a [string], an [int] is a
    [Z] where it is a quantity and a [nat] where it is a position in a
    slice, a pair [(T, error)] is a [result T], an [error] that may be
    [nil] is an [option error], and [log.Fatal] ends [main] with [Fatal].

    What the programs call in the cb-mpc library, in the Go standard
    library and in the Solana client is not part of these programs: the
    programs take it from an environment [Env], and what is proved of a
    program holds for every environment. *)

From Stdlib Require Import ZArith List String Ascii Bool Lia Permutation Sorted.
From Stdlib.Strings Require Import Byte.
Import ListNotations.

Set Warnings "-register-all".

Local Open Scope Z_scope.

(** ** Go values *)

Definition bytes := list byte.

(** The [error] values the programs see: those the library hands back
    (named after the error taxonomy of the design), and those the
    programs build with [fmt.Errorf], with or without a cause. *)
Inductive ErrorKind :=
| InvalidPolicy
| UnknownParty
| InvalidSessionConfig
| UnauthorizedQuorum
| ProtocolMismatch
| KeyConsistencyError
| MalformedSignature
| TransportFailure
| EncodingFailure.

Inductive error :=
| LibraryError (k : ErrorKind)
| Errorf (msg : string)
| ErrorfWrap (msg : string) (cause : error).

Inductive result (A : Type) :=
| Ok (a : A)
| Err (e : error).
Arguments Ok {A} a.
Arguments Err {A} e.

Definition is_ok {A} (r : result A) : bool :=
  match r with Ok _ => true | Err _ => false end.

(** [if err != nil { return nil, fmt.Errorf(msg, err) }] *)
Definition wrap {A} (msg : string) (r : result A) : result A :=
  match r with
  | Ok a => Ok a
  | Err e => Err (ErrorfWrap msg e)
  end.

Definition bind {A B} (r : result A) (k : A -> result B) : result B :=
  match r with
  | Ok a => k a
  | Err e => Err e
  end.

Notation "x <- r ;; k" := (bind r (fun x => k))
  (at level 61, r at next level, right associativity).

(** How a [main] ends: it returns, or [log.Fatal] stops the process. *)
Inductive exit (A : Type) :=
| Returned (a : A)
| Fatal (msg : string) (cause : option error).
Arguments Returned {A} a.
Arguments Fatal {A} msg cause.

(** [len(b)] *)
Definition len {A} (l : list A) : Z := Z.of_nat (List.length l).

(** [s[i] = v] on a slice; the programs only write inside the slice. *)
Fixpoint set_at {A} (l : list A) (i : nat) (v : A) : list A :=
  match l, i with
  | [], _ => []
  | _ :: r, O => v :: r
  | x :: r, S i' => x :: set_at r i' v
  end.

Definition Z_of_byte (b : byte) : Z := Z.of_N (Byte.to_N b).

Definition byte_of_Z (z : Z) : byte :=
  match Byte.of_N (Z.to_N (z mod 256)) with
  | Some b => b
  | None => x00
  end.

(** [[]byte(s)] *)
Definition bytes_of_string (s : string) : bytes := list_byte_of_string s.

(** [binary.BigEndian]: the word held by the first four bytes of [p],
    and the four or eight bytes of a word. *)
Definition be32 (p : bytes) : Z :=
  fold_left (fun acc b => acc * 256 + Z_of_byte b) (firstn 4 p) 0.

Definition put32 (x : Z) : bytes :=
  [byte_of_Z (Z.shiftr x 24); byte_of_Z (Z.shiftr x 16);
   byte_of_Z (Z.shiftr x 8); byte_of_Z x].

Definition put64 (x : Z) : bytes :=
  put32 (Z.shiftr x 32) ++ put32 x.

(** [hex.EncodeToString(b)] *)
Module hex.

Definition digit (n : Z) : ascii :=
  ascii_of_nat (Z.to_nat (if n <? 10 then 48 + n else 87 + n)).

Fixpoint EncodeToString (b : bytes) : string :=
  match b with
  | [] => EmptyString
  | x :: r =>
      String (digit (Z_of_byte x / 16))
        (String (digit (Z_of_byte x mod 16)) (EncodeToString r))
  end.

End hex.

(** ** crypto/sha256, crypto/hmac and golang.org/x/crypto/pbkdf2

    Modelled from the spec: [pbkdf2.Key], [hmac] and [sha256] are not
    under src/ (the programs import them); the PIN/KDF collaborator of
    the design is the call [pbkdf2.Key(pin, salt, 100000, 32, sha256.New)],
    modelled here as the function these packages document: PBKDF2
    (RFC 8018) over HMAC (RFC 2104) over SHA-256 (FIPS 180-4), with 32-bit
    words as [Z] reduced modulo [2^32]. *)

Module sha256.

Definition Size : Z := 32.
Definition BlockSize : Z := 64.

Definition u32 (x : Z) : Z := x mod 2 ^ 32.

(** [bits.RotateLeft32(x, -n)] *)
Definition rotr (n x : Z) : Z :=
  Z.lor (Z.shiftr x n) (u32 (Z.shiftl x (32 - n))).

Definition not32 (x : Z) : Z := Z.lxor x (2 ^ 32 - 1).

(** The round constants of FIPS 180-4 (the first 32 bits of the
    fractional parts of the cube roots of the first 64 primes), in
    decimal; the first is 0x428a2f98. *)
Definition _K : list Z := [
  1116352408; 1899447441; 3049323471; 3921009573; 961987163; 1508970993;
  2453635748; 2870763221; 3624381080; 310598401; 607225278; 1426881987;
  1925078388; 2162078206; 2614888103; 3248222580; 3835390401; 4022224774;
  264347078; 604807628; 770255983; 1249150122; 1555081692; 1996064986;
  2554220882; 2821834349; 2952996808; 3210313671; 3336571891; 3584528711;
  113926993; 338241895; 666307205; 773529912; 1294757372; 1396182291;
  1695183700; 1986661051; 2177026350; 2456956037; 2730485921; 2820302411;
  3259730800; 3345764771; 3516065817; 3600352804; 4094571909; 275423344;
  430227734; 506948616; 659060556; 883997877; 958139571; 1322822218;
  1537002063; 1747873779; 1955562222; 2024104815; 2227730452; 2361852424;
  2428436474; 2756734187; 3204031479; 3329325298 ].

Record digest := {
  h0 : Z; h1 : Z; h2 : Z; h3 : Z; h4 : Z; h5 : Z; h6 : Z; h7 : Z
}.

Definition init : digest :=
  {| h0 := 0x6a09e667; h1 := 0xbb67ae85; h2 := 0x3c6ef372; h3 := 0xa54ff53a;
     h4 := 0x510e527f; h5 := 0x9b05688c; h6 := 0x1f83d9ab; h7 := 0x5be0cd19 |}.

Definition at_ (w : list Z) (i : nat) : Z := nth i w 0.

(** One more word of the message schedule: [w[i]] for [i = len(w)]. *)
Definition extend (w : list Z) : list Z :=
  let i := List.length w in
  let v1 := at_ w (i - 2) in
  let t1 := Z.lxor (Z.lxor (rotr 17 v1) (rotr 19 v1)) (Z.shiftr v1 10) in
  let v2 := at_ w (i - 15) in
  let t2 := Z.lxor (Z.lxor (rotr 7 v2) (rotr 18 v2)) (Z.shiftr v2 3) in
  w ++ [u32 (t1 + at_ w (i - 7) + t2 + at_ w (i - 16))].

Definition schedule (p : bytes) : list Z :=
  let w16 := map (fun i => be32 (skipn (i * 4) p)) (seq 0 16) in
  Nat.iter 48 extend w16.

Definition round (s : digest) (kw : Z * Z) : digest :=
  let '(k, w) := kw in
  let a := h0 s in let b := h1 s in let c := h2 s in let d := h3 s in
  let e := h4 s in let f := h5 s in let g := h6 s in let h := h7 s in
  let t1 := h + Z.lxor (Z.lxor (rotr 6 e) (rotr 11 e)) (rotr 25 e)
              + Z.lxor (Z.land e f) (Z.land (not32 e) g) + k + w in
  let t2 := Z.lxor (Z.lxor (rotr 2 a) (rotr 13 a)) (rotr 22 a)
            + Z.lxor (Z.lxor (Z.land a b) (Z.land a c)) (Z.land b c) in
  {| h0 := u32 (t1 + t2); h1 := a; h2 := b; h3 := c;
     h4 := u32 (d + t1); h5 := e; h6 := f; h7 := g |}.

Definition block (s : digest) (p : bytes) : digest :=
  let r := fold_left round (combine _K (schedule p)) s in
  {| h0 := u32 (h0 s + h0 r); h1 := u32 (h1 s + h1 r);
     h2 := u32 (h2 s + h2 r); h3 := u32 (h3 s + h3 r);
     h4 := u32 (h4 s + h4 r); h5 := u32 (h5 s + h5 r);
     h6 := u32 (h6 s + h6 r); h7 := u32 (h7 s + h7 r) |}.

(** The message, then 0x80, zeros up to 56 modulo 64, and the bit length. *)
Definition pad (msg : bytes) : bytes :=
  let n := len msg in
  let zeros := (55 - n) mod 64 in
  msg ++ [x80] ++ repeat x00 (Z.to_nat zeros) ++ put64 (n * 8).

Fixpoint blocks (count : nat) (s : digest) (p : bytes) : digest :=
  match count with
  | O => s
  | S count' => blocks count' (block s (firstn 64 p)) (skipn 64 p)
  end.

Definition checkSum (s : digest) : bytes :=
  put32 (h0 s) ++ put32 (h1 s) ++ put32 (h2 s) ++ put32 (h3 s) ++
  put32 (h4 s) ++ put32 (h5 s) ++ put32 (h6 s) ++ put32 (h7 s).

(** Modelled from the spec: [sha256.Sum256], not under src/ (FIPS 180-4). *)
Definition Sum256 (msg : bytes) : bytes :=
  let p := pad msg in
  checkSum (blocks (List.length p / 64)%nat init p).

End sha256.

Module hmac.

Definition xor_byte (a b : byte) : byte :=
  byte_of_Z (Z.lxor (Z_of_byte a) (Z_of_byte b)).

(** The key hashed when longer than a block, then filled with zeros. *)
Definition block_key (key : bytes) : bytes :=
  let k := if sha256.BlockSize <? len key then sha256.Sum256 key else key in
  k ++ repeat x00 (Z.to_nat sha256.BlockSize - List.length k)%nat.

(** Modelled from the spec: the sum of [hmac.New(sha256.New, key)] over
    [msg], not under src/ (RFC 2104). *)
Definition Sum (key msg : bytes) : bytes :=
  let k := block_key key in
  let ipad := map (xor_byte x36) k in
  let opad := map (xor_byte x5c) k in
  sha256.Sum256 (opad ++ sha256.Sum256 (ipad ++ msg)).

End hmac.

Module pbkdf2.

(** [for x := range U { T[x] ^= U[x] }] *)
Definition xor_into (T U : bytes) : bytes :=
  map (fun tu => hmac.xor_byte (fst tu) (snd tu)) (combine T U).

(** One turn of the inner loop on [(T, U)]: [U = prf(U); T ^= U]. *)
Definition step (password : bytes) (TU : bytes * bytes) : bytes * bytes :=
  let U := hmac.Sum password (snd TU) in
  (xor_into (fst TU) U, U).

(** The block [T] of index [block]: the loop [for n := 2; n <= iter; n++]
    turns [iter - 1] times (never when [iter < 2]). *)
Definition block_T (password salt : bytes) (iter : Z) (block : nat) : bytes :=
  let U1 := hmac.Sum password (salt ++ put32 (Z.of_nat block)) in
  fst (N.iter (Z.to_N (iter - 1)) (step password) (U1, U1)).

(** Modelled from the spec: [pbkdf2.Key(password, salt, iter, keyLen,
    sha256.New)], not under src/ (RFC 8018): the PIN/KDF derivation of the
    design. *)
Definition Key (password salt : bytes) (iter keyLen : Z) : bytes :=
  let hashLen := sha256.Size in
  let numBlocks := (keyLen + hashLen - 1) / hashLen in
  let dk := flat_map (block_T password salt iter) (seq 1 (Z.to_nat numBlocks)) in
  firstn (Z.to_nat keyLen) dk.

End pbkdf2.

(** ** The packages the programs import from cb-mpc

    The Go types of [curve], [mpc] and [mocknet] the programs hold
    values of. The library keeps a key share behind an opaque handle;
    the record below lists what the data model says a share carries. *)

Module curve.

(** The curve handle; the four programs only ever ask for Ed25519. *)
Inductive Curve := Ed25519 | Secp256k1 | P256.

Record Point := {
  X : bytes;
  Y : bytes
}.

End curve.

Module mocknet.

(** One endpoint of [mocknet.NewMockNetwork(n)]. *)
Record Messenger := {
  net_parties : Z;
  net_index : nat
}.

Definition zero_Messenger : Messenger :=
  {| net_parties := 0; net_index := O |}.

Definition NewMockNetwork (n : Z) : list Messenger :=
  map (fun i => {| net_parties := n; net_index := i |}) (seq 0 (Z.to_nat n)).

End mocknet.

Module mpc.

(** [mpc.AccessNode]: a closed tagged variant, as the two constructors
    [mpc.Leaf(name)] and [mpc.Threshold(label, k, children...)] build it. *)
Inductive AccessNode :=
| Leaf (name : string)
| Threshold (label : string) (k : Z) (children : list AccessNode).

Record AccessStructure := {
  Root : AccessNode;
  Curve : curve.Curve
}.

(** Modelled from the spec: no function under src/ evaluates a policy;
    this is the recursive evaluation the data model states: a Leaf is
    satisfied iff its party is in the subset, and a Threshold node is
    satisfied when at least [k] of its children are satisfied. *)
Fixpoint satisfies_node (S : list string) (n : AccessNode) : bool :=
  match n with
  | Leaf name => existsb (String.eqb name) S
  | Threshold _ k children =>
      k <=? len (filter (satisfies_node S) children)
  end.

Definition satisfies (A : AccessStructure) (S : list string) : bool :=
  satisfies_node S (Root A).

(** Modelled from the spec: the declaration of the share type is not
    under src/. A share is held for a threshold policy, or was converted
    for one quorum. *)
Inductive ShareKind :=
| ThresholdShare
| AdditiveShare (quorum : list string).

(** Modelled from the spec: [mpc.EDDSAMPCKey], the Go type of a key share
    and of the additive share [ToAdditiveShare] returns, is declared in
    the library and not under src/, where it is an opaque handle. The
    fields are what the data model says a share carries: the party that
    owns it, the curve, the shared public key [Q], the private material,
    and whether it was converted for a quorum. *)
Record EDDSAMPCKey := {
  key_party : string;
  key_curve : curve.Curve;
  key_Q : curve.Point;
  key_secret : bytes;
  key_kind : ShareKind
}.

(** [var k mpc.EDDSAMPCKey] *)
Definition zero_EDDSAMPCKey : EDDSAMPCKey :=
  {| key_party := ""; key_curve := curve.Ed25519;
     key_Q := {| curve.X := []; curve.Y := [] |};
     key_secret := []; key_kind := ThresholdShare |}.

(** [mpc.JobMP]: what [mpc.NewJobMP(messenger, nParties, index, names)]
    binds together. *)
Record JobMP := {
  job_messenger : mocknet.Messenger;
  job_parties : Z;
  job_index : nat;
  job_names : list string
}.

Record EDDSAMPCThresholdDKGRequest := {
  dkg_Curve : curve.Curve;
  dkg_AccessStructure : AccessStructure
}.

Record EDDSAMPCThresholdDKGResponse := {
  dkg_KeyShare : EDDSAMPCKey
}.

Record EDDSAMPCKeyGenRequest := {
  keygen_Curve : curve.Curve
}.

Record EDDSAMPCKeyGenResponse := {
  keygen_KeyShare : EDDSAMPCKey
}.

Record EDDSAMPCSignRequest := {
  KeyShare : EDDSAMPCKey;
  Message : bytes;
  SignatureReceiver : nat
}.

Record EDDSAMPCSignResponse := {
  Signature : bytes
}.

End mpc.

Module solana.

(** [solana.Transaction], as far as the programs look into it. *)
Record Transaction := {
  tx_Message : bytes;
  tx_Signatures : list bytes
}.

End solana.

(** ** The environment of a run

    Each fan-out of a program (one goroutine per party) is a [Site]. The
    environment answers the calls a program makes outside itself and
    fixes the order in which the goroutines of a site finish. *)

Inductive Site := SiteDKG | SiteKeyGen | SiteSign.

Record Env := {
  curve_NewEd25519 : result curve.Curve;
  (* encoding/base64: [DecodeString] hands back bytes also with an error *)
  base64_DecodeString : string -> bytes * option error;
  base64_EncodeToString : bytes -> string;
  (* methods of mpc.EDDSAMPCKey and curve.Point *)
  key_UnmarshalBinary : bytes -> result mpc.EDDSAMPCKey;
  key_MarshalBinary : mpc.EDDSAMPCKey -> result bytes;
  key_ToAdditiveShare :
    mpc.EDDSAMPCKey -> mpc.AccessStructure -> list string -> result mpc.EDDSAMPCKey;
  key_Q : mpc.EDDSAMPCKey -> result curve.Point;
  point_GetX : curve.Point -> bytes;
  (* the protocol calls of one party *)
  mpc_NewJobMP :
    Site -> mocknet.Messenger -> Z -> nat -> list string -> result mpc.JobMP;
  mpc_EDDSAMPCThresholdDKG :
    mpc.JobMP -> mpc.EDDSAMPCThresholdDKGRequest -> result mpc.EDDSAMPCThresholdDKGResponse;
  mpc_EDDSAMPCKeyGen :
    mpc.JobMP -> mpc.EDDSAMPCKeyGenRequest -> result mpc.EDDSAMPCKeyGenResponse;
  mpc_EDDSAMPCSign :
    mpc.JobMP -> mpc.EDDSAMPCSignRequest -> result mpc.EDDSAMPCSignResponse;
  (* solana-go: [tx.Message.MarshalBinary()] *)
  tx_Message_MarshalBinary : solana.Transaction -> result bytes;
  (* when the goroutine of a party finishes, per site *)
  finish_time : Site -> nat -> nat
}.

(** ** Goroutines

    The goroutines of a site share nothing but the slot each one writes
    when it is done, so a run is fixed by the order in which they
    finish: the parties sorted by [finish_time], ties in spawn order. *)

Fixpoint insert_by (t : nat -> nat) (i : nat) (l : list nat) : list nat :=
  match l with
  | [] => [i]
  | j :: r => if (t j <=? t i)%nat then j :: insert_by t i r else i :: j :: r
  end.

Definition completion_order (t : nat -> nat) (spawned : list nat) : list nat :=
  fold_right (insert_by t) [] (rev spawned).

(** [for i := 0; i < n; i++ { go ... }]: the parties in the order they finish. *)
Definition finished (env : Env) (site : Site) (n : Z) : list nat :=
  completion_order (finish_time env site) (seq 0 (Z.to_nat n)).

(** The clock that makes the parties finish in the order [l]: each
    party's position in [l]. *)
Fixpoint position (l : list nat) (i : nat) : nat :=
  match l with
  | [] => O
  | j :: r => if (j =? i)%nat then O else S (position r i)
  end.

(** The parties of [l] finish one after the other under the clock [t]. *)
Definition in_order (t : nat -> nat) (l : list nat) : Prop :=
  StronglySorted (fun a b => (t a <= t b)%nat) l.

(** A goroutine of an [errgroup.Group]: it may write the state it shares
    and returns an error or [nil]. *)
Definition task (S : Type) := S -> S * option error.

(** [eg.Wait()]: every task runs to its end, and the first error a task
    returned (if any) is the group's. *)
Fixpoint errgroup_Wait {S} (tasks : list (task S)) (st : S) : S * option error :=
  match tasks with
  | [] => (st, None)
  | t :: rest =>
      let '(st1, e1) := t st in
      let '(st2, e2) := errgroup_Wait rest st1 in
      (st2, match e1 with Some e => Some e | None => e2 end)
  end.

Notation "x <- r 'orFatal' msg ;; k" :=
  (match r with
   | Ok x => k
   | Err err => Fatal msg (Some err)
   end)
  (at level 61, r at next level, msg at next level, right associativity).

(** ** The wallet generator *)

Module Generator.

Definition PINSalt : string := "solana-cb-mpc-salt-2024".
Definition PBKDFIterations : Z := 100000.
Definition TestPIN : string := "123456".

(** The loop [for i, name := range partyNames { leaves[i] = mpc.Leaf(name) }]
    fills slot [i] with the leaf of the name at [i]. *)
Definition createThresholdAccessStructure
    (partyNames : list string) (threshold : Z) (cv : curve.Curve)
  : mpc.AccessStructure :=
  let leaves := map mpc.Leaf partyNames in
  let root := mpc.Threshold "" threshold leaves in
  {| mpc.Root := root; mpc.Curve := cv |}.

(** What [main] prints when it reaches its end. *)
Record Printed := {
  solanaAddress : bytes;
  publicKeyBytes : bytes;
  s1Base64 : string;
  s2Base64 : string;
  s3Base64 : string
}.

(** The goroutine of party [partyIdx]; it writes [keyShares[partyIdx]]. *)
Definition dkg_party (env : Env) (messengers : list mocknet.Messenger)
    (nParties : Z) (partyNames : list string) (ed25519Curve : curve.Curve)
    (accessStructure : mpc.AccessStructure) (partyIdx : nat)
  : task (list mpc.EDDSAMPCKey) :=
  fun keyShares =>
    match mpc_NewJobMP env SiteDKG (nth partyIdx messengers mocknet.zero_Messenger)
            nParties partyIdx partyNames with
    | Err err => (keyShares, Some (ErrorfWrap "party %d job creation failed: %w" err))
    | Ok job =>
        let req := {| mpc.dkg_Curve := ed25519Curve;
                      mpc.dkg_AccessStructure := accessStructure |} in
        match mpc_EDDSAMPCThresholdDKG env job req with
        | Err err => (keyShares, Some (ErrorfWrap "party %d DKG failed: %w" err))
        | Ok resp => (set_at keyShares partyIdx (mpc.dkg_KeyShare resp), None)
        end
    end.

(** Steps 1 to 4 of [main]: the key generation across the parties, up to
    [eg.Wait()]. *)
Definition run_dkg (env : Env) (ed25519Curve : curve.Curve)
  : list mpc.EDDSAMPCKey * option error :=
  let nParties := 3 in
  let threshold := 2 in
  let partyNames := ["server"; "kms"; "pin"]%string in
  let messengers := mocknet.NewMockNetwork nParties in
  let accessStructure :=
    createThresholdAccessStructure partyNames threshold ed25519Curve in
  let keyShares := repeat mpc.zero_EDDSAMPCKey (Z.to_nat nParties) in
  errgroup_Wait
    (map (dkg_party env messengers nParties partyNames ed25519Curve accessStructure)
         (finished env SiteDKG nParties))
    keyShares.

(** The protocol handed [resp] to party [partyIdx] of the key
    generation: its job was created and [mpc.EDDSAMPCThresholdDKG]
    returned [resp]. *)
Definition answered (env : Env) (ed25519Curve : curve.Curve) (partyIdx : nat)
    (resp : mpc.EDDSAMPCThresholdDKGResponse) : Prop :=
  let partyNames := ["server"; "kms"; "pin"]%string in
  exists job,
    mpc_NewJobMP env SiteDKG
      (nth partyIdx (mocknet.NewMockNetwork 3) mocknet.zero_Messenger)
      3 partyIdx partyNames = Ok job
    /\ mpc_EDDSAMPCThresholdDKG env job
         {| mpc.dkg_Curve := ed25519Curve;
            mpc.dkg_AccessStructure :=
              createThresholdAccessStructure partyNames 2 ed25519Curve |}
       = Ok resp.

(** Whether the goroutine of party [partyIdx] returns an error (it does
    not look at the slots of the others). *)
Definition dkg_party_failed (env : Env) (ed25519Curve : curve.Curve)
    (partyIdx : nat) : bool :=
  let partyNames := ["server"; "kms"; "pin"]%string in
  match snd (dkg_party env (mocknet.NewMockNetwork 3) 3 partyNames ed25519Curve
               (createThresholdAccessStructure partyNames 2 ed25519Curve)
               partyIdx []) with
  | Some _ => true
  | None => false
  end.

Definition main (env : Env) : exit Printed :=
  ed25519Curve <- curve_NewEd25519 env orFatal "Failed to create Ed25519 curve:" ;;
  let '(keyShares, err) := run_dkg env ed25519Curve in
  match err with
  | Some err => Fatal "DKG protocol failed: %v" (Some err)
  | None =>
      (* All parties have same public key *)
      publicKeyPoint <- key_Q env (nth 0 keyShares mpc.zero_EDDSAMPCKey)
        orFatal "Failed to extract public key:" ;;
      let publicKeyBytes := point_GetX env publicKeyPoint in
      if negb (len publicKeyBytes =? 32) then
        Fatal "Invalid Ed25519 public key length: got %d, expected %d" None
      else
        let solanaAddress := publicKeyBytes in
        s1Data <- key_MarshalBinary env (nth 0 keyShares mpc.zero_EDDSAMPCKey)
          orFatal "Failed to marshal S1 share:" ;;
        s2Data <- key_MarshalBinary env (nth 1 keyShares mpc.zero_EDDSAMPCKey)
          orFatal "Failed to marshal S2 share:" ;;
        s3Data <- key_MarshalBinary env (nth 2 keyShares mpc.zero_EDDSAMPCKey)
          orFatal "Failed to marshal S3 share:" ;;
        Returned {| solanaAddress := solanaAddress;
                    publicKeyBytes := publicKeyBytes;
                    s1Base64 := base64_EncodeToString env s1Data;
                    s2Base64 := base64_EncodeToString env s2Data;
                    s3Base64 := base64_EncodeToString env s3Data |}
  end.

End Generator.

(** ** The complete demo *)

Module CompleteDemo.

Definition createThresholdAccessStructure
    (partyNames : list string) (threshold : Z) (cv : curve.Curve)
  : mpc.AccessStructure :=
  let leaves := map mpc.Leaf partyNames in
  let root := mpc.Threshold "" threshold leaves in
  {| mpc.Root := root; mpc.Curve := cv |}.

Definition s1ShareData : string :=
  "C38CAQL/gAABCgAA/8//gAAFIUAETBk4pw5y7alm+X5UP7hPziJAXIhf8hCftmaQZUyNVCIEP2QwSWMH23FqBDlq1D4TFFqGbsH/XgIk9lLvMszRyNQveQMAA2ttcwQ/GHAvcj73nnFPLMRzCy5Unz/5hi/gOL5uomjzHRVg7PwAA3BpbgQ/NP2vVIR1vMVj2iiaoqN4/11qVHicoUnuINc10l9aS7YABnNlcnZlcgQ/UjqDrXbXxPevCnMV+0n6bLgsOigPjFI/7TOPtmnxsc0CBD8IAAZzZXJ2ZXI=".

Definition s3ShareData : string :=
  "C38CAQL/gAABCgAA/8v/gAAFID6kgSsOwCJxO/JIKThC7euhljaiBhroWu6eeWSf3bbQIgQ/ZDBJYwfbcWoEOWrUPhMUWoZuwf9eAiT2Uu8yzNHI1C95AwADa21zBD8YcC9yPveecU8sxHMLLlSfP/mGL+A4vm6iaPMdFWDs/AADcGluBD80/a9UhHW8xWPaKJqio3j/XWpUeJyhSe4g1zXSX1pLtgAGc2VydmVyBD9SOoOtdtfE968KcxX7SfpsuCw6KA+MUj/tM4+2afGxzQIEPwUAA3Bpbg==".

(** The goroutine of quorum member [partyIdx]; the receiver writes
    [finalSignature]. The job still names all three original parties. *)
Definition sign_party (env : Env) (messengers : list mocknet.Messenger)
    (partyNames : list string) (parties : list mpc.EDDSAMPCKey)
    (message : bytes) (signatureReceiver : nat) (partyIdx : nat)
  : task bytes :=
  fun finalSignature =>
    match mpc_NewJobMP env SiteSign (nth partyIdx messengers mocknet.zero_Messenger)
            3 partyIdx partyNames with
    | Err err => (finalSignature, Some err)
    | Ok job =>
        let req := {| mpc.KeyShare := nth partyIdx parties mpc.zero_EDDSAMPCKey;
                      mpc.Message := message;
                      mpc.SignatureReceiver := signatureReceiver |} in
        match mpc_EDDSAMPCSign env job req with
        | Err err => (finalSignature, Some err)
        | Ok resp =>
            ((if (partyIdx =? signatureReceiver)%nat
              then mpc.Signature resp else finalSignature), None)
        end
    end.

(** Steps 4 and 5 of [performMPCSigning]: the signing run of the quorum,
    up to [eg.Wait()]. *)
Definition run_signing (env : Env) (partyNames : list string)
    (parties : list mpc.EDDSAMPCKey) (message : bytes)
  : bytes * option error :=
  let nQuorumParties := len parties in
  let messengers := mocknet.NewMockNetwork nQuorumParties in
  let signatureReceiver := 0%nat in
  errgroup_Wait
    (map (sign_party env messengers partyNames parties message signatureReceiver)
         (finished env SiteSign nQuorumParties))
    [].

(** The protocol handed [resp] to quorum member [partyIdx]: its job was
    created and [mpc.EDDSAMPCSign] returned [resp] on its request. *)
Definition answered (env : Env) (partyNames : list string)
    (parties : list mpc.EDDSAMPCKey) (message : bytes) (signatureReceiver : nat)
    (partyIdx : nat) (resp : mpc.EDDSAMPCSignResponse) : Prop :=
  exists job,
    mpc_NewJobMP env SiteSign
      (nth partyIdx (mocknet.NewMockNetwork (len parties)) mocknet.zero_Messenger)
      3 partyIdx partyNames = Ok job
    /\ mpc_EDDSAMPCSign env job
         {| mpc.KeyShare := nth partyIdx parties mpc.zero_EDDSAMPCKey;
            mpc.Message := message;
            mpc.SignatureReceiver := signatureReceiver |} = Ok resp.

(** Whether the goroutine of quorum member [partyIdx] returns an error. *)
Definition sign_party_failed (env : Env) (partyNames : list string)
    (parties : list mpc.EDDSAMPCKey) (message : bytes) (partyIdx : nat) : bool :=
  match snd (sign_party env (mocknet.NewMockNetwork (len parties)) partyNames
               parties message 0 partyIdx []) with
  | Some _ => true
  | None => false
  end.

(** Steps 1 to 3 of [performMPCSigning]: the additive shares of the
    quorum, [parties]. *)
Definition quorum_shares (env : Env) : result (list mpc.EDDSAMPCKey) :=
  let s1Bytes := fst (base64_DecodeString env s1ShareData) in
  s1Key <- wrap "failed to unmarshal S1 key: %v" (key_UnmarshalBinary env s1Bytes) ;;
  let s3Bytes := fst (base64_DecodeString env s3ShareData) in
  s3Key <- wrap "failed to unmarshal S3 key: %v" (key_UnmarshalBinary env s3Bytes) ;;
  ed25519Curve <- wrap "failed to create ed25519 curve: %w" (curve_NewEd25519 env) ;;
  let partyNames := ["server"; "kms"; "pin"]%string in
  let ac := createThresholdAccessStructure partyNames 2 ed25519Curve in
  let quorum := ["server"; "pin"]%string in
  s1Add <- wrap "could not convert s1 to additive share: %w"
             (key_ToAdditiveShare env s1Key ac quorum) ;;
  s3Add <- wrap "could not convert s3 to additive share: %w"
             (key_ToAdditiveShare env s3Key ac quorum) ;;
  Ok [s1Add; s3Add].

(** [performMPCSigning] with its local constant [pin] as a parameter. *)
Definition performMPCSigning_with (pin : string) (env : Env) (message : bytes)
  : result bytes :=
  (* For PIN-based derivation *)
  let s3KeyBytes :=
    pbkdf2.Key (bytes_of_string pin) (bytes_of_string "solana-mpc-salt") 100000 32 in
  (* Step 1: Deserialize key shares *)
  let s1Bytes := fst (base64_DecodeString env s1ShareData) in
  s1Key <- wrap "failed to unmarshal S1 key: %v" (key_UnmarshalBinary env s1Bytes) ;;
  let s3Bytes := fst (base64_DecodeString env s3ShareData) in
  s3Key <- wrap "failed to unmarshal S3 key: %v" (key_UnmarshalBinary env s3Bytes) ;;
  let _ := s3KeyBytes in
  (* Step 2: Create access structure *)
  ed25519Curve <- wrap "failed to create ed25519 curve: %w" (curve_NewEd25519 env) ;;
  let partyNames := ["server"; "kms"; "pin"]%string in
  let ac := createThresholdAccessStructure partyNames 2 ed25519Curve in
  (* Step 3: Convert threshold shares to additive shares for signing *)
  let quorum := ["server"; "pin"]%string in
  s1Add <- wrap "could not convert s1 to additive share: %w"
             (key_ToAdditiveShare env s1Key ac quorum) ;;
  s3Add <- wrap "could not convert s3 to additive share: %w"
             (key_ToAdditiveShare env s3Key ac quorum) ;;
  (* Steps 4 and 5 *)
  let parties := [s1Add; s3Add] in
  let '(finalSignature, err) := run_signing env partyNames parties message in
  match err with
  | Some err => Err err
  | None =>
      if len finalSignature =? 0 then
        Err (Errorf "MPC signing did not produce a signature")
      else Ok finalSignature
  end.

Definition performMPCSigning (env : Env) (message : bytes) : result bytes :=
  performMPCSigning_with "123456" env message.

End CompleteDemo.

(** ** The real-transfer program *)

Module RealTransfer.

Definition PINSalt : string := "solana-cb-mpc-salt-2024".
Definition PBKDFIterations : Z := 100000.
Definition TestPIN : string := "123456".
Definition S1Share : string :=
  "C38CAQL/gAABCgAA/8//gAAFIUAF83fys98VwMWbEzX1WGeETVZocYWJZElXGqdRtSCA1CIEP76k1u2BZw/MmMe1OVo82mKrWW/jWbmyWAFBElHCeoQleQMAA2ttcwQ/RclMbbmtJcmblf7ZdR5QM8gFhWqJn9koRCXyUzx6ct8AA3BpbgQ/lQdhUDG/+AGcIjoGxPER16hutJgvXd5jMmCkZMgOFesABnNlcnZlcgQ/rvy6FBdJYJML+EunNqUxFs//bhk4Tc4OU3N1EeZDnEMCBD8IAAZzZXJ2ZXI=".
Definition MyWalletAddress : string := "2Y1Bw3vbdATKey1pDZaMAPXmBFjgswAsREKnsJb8omTZ".

Record SolanaTransfer := {
  FromAddress : bytes;
  ToAddress : bytes;
  Amount : Z;
  Transaction : solana.Transaction;
  MPCSignature : bytes
}.

(** [transfer.MPCSignature = sig] *)
Definition set_MPCSignature (transfer : SolanaTransfer) (sig : bytes)
  : SolanaTransfer :=
  {| FromAddress := FromAddress transfer;
     ToAddress := ToAddress transfer;
     Amount := Amount transfer;
     Transaction := Transaction transfer;
     MPCSignature := sig |}.

Record keygenResult := {
  kg_idx : nat;
  kg_keyShare : mpc.EDDSAMPCKey;
  kg_err : option error
}.

Record signResult := {
  sr_idx : nat;
  sr_signature : bytes;
  sr_err : option error
}.

(** The key generation goroutine of party [partyIdx]: what it sends on
    [keygenCh]. *)
Definition keygen_party (env : Env) (messengers : list mocknet.Messenger)
    (nParties : Z) (partyNames : list string) (ed25519Curve : curve.Curve)
    (partyIdx : nat) : keygenResult :=
  match mpc_NewJobMP env SiteKeyGen (nth partyIdx messengers mocknet.zero_Messenger)
          nParties partyIdx partyNames with
  | Err err =>
      {| kg_idx := partyIdx; kg_keyShare := mpc.zero_EDDSAMPCKey; kg_err := Some err |}
  | Ok job =>
      let req := {| mpc.keygen_Curve := ed25519Curve |} in
      match mpc_EDDSAMPCKeyGen env job req with
      | Err err =>
          {| kg_idx := partyIdx; kg_keyShare := mpc.zero_EDDSAMPCKey;
             kg_err := Some err |}
      | Ok resp =>
          {| kg_idx := partyIdx; kg_keyShare := mpc.keygen_KeyShare resp;
             kg_err := None |}
      end
  end.

(** [for i := 0; i < nParties; i++ { result := <-keygenCh ... }]: one
    result per party, in the order they arrive; the first error returns. *)
Fixpoint collect_keyShares (arrived : list keygenResult)
    (keyShares : list mpc.EDDSAMPCKey) : result (list mpc.EDDSAMPCKey) :=
  match arrived with
  | [] => Ok keyShares
  | result :: rest =>
      match kg_err result with
      | Some err => Err (ErrorfWrap "keygen failed for party %d: %v" err)
      | None =>
          collect_keyShares rest
            (set_at keyShares (kg_idx result) (kg_keyShare result))
      end
  end.

(** The signing goroutine of party [partyIdx]: what it sends on [signCh]. *)
Definition sign_party (env : Env) (messengers : list mocknet.Messenger)
    (nParties : Z) (partyNames : list string) (keyShares : list mpc.EDDSAMPCKey)
    (messageToSign : bytes) (signatureReceiver : nat) (partyIdx : nat)
  : signResult :=
  match mpc_NewJobMP env SiteSign (nth partyIdx messengers mocknet.zero_Messenger)
          nParties partyIdx partyNames with
  | Err err => {| sr_idx := partyIdx; sr_signature := []; sr_err := Some err |}
  | Ok job =>
      let req := {| mpc.KeyShare := nth partyIdx keyShares mpc.zero_EDDSAMPCKey;
                    mpc.Message := messageToSign;
                    mpc.SignatureReceiver := signatureReceiver |} in
      match mpc_EDDSAMPCSign env job req with
      | Err err => {| sr_idx := partyIdx; sr_signature := []; sr_err := Some err |}
      | Ok resp =>
          {| sr_idx := partyIdx; sr_signature := mpc.Signature resp; sr_err := None |}
      end
  end.

(** The loop that collects the signature from [signCh] into
    [transfer.MPCSignature]. *)
Fixpoint collect_signature (arrived : list signResult) (signatureReceiver : nat)
    (transfer : SolanaTransfer) : SolanaTransfer * option error :=
  match arrived with
  | [] => (transfer, None)
  | result :: rest =>
      match sr_err result with
      | Some err =>
          (transfer, Some (ErrorfWrap "signing failed for party %d: %v" err))
      | None =>
          collect_signature rest signatureReceiver
            (if (sr_idx result =? signatureReceiver)%nat
                && (0 <? len (sr_signature result))
             then set_MPCSignature transfer (sr_signature result)
             else transfer)
      end
  end.

(** [signWithMPC(transfer)]: the transfer as the call leaves it, and the
    error it returns. *)
Definition signWithMPC (env : Env) (transfer : SolanaTransfer)
  : SolanaTransfer * option error :=
  match tx_Message_MarshalBinary env (Transaction transfer) with
  | Err err =>
      (transfer, Some (ErrorfWrap "failed to serialize transaction message: %v" err))
  | Ok messageToSign =>
  match curve_NewEd25519 env with
  | Err err =>
      (transfer, Some (ErrorfWrap "failed to create Ed25519 curve: %v" err))
  | Ok ed25519Curve =>
  (* Simulate MPC signing with S1 + S3 *)
  let nParties := 3 in
  let partyNames := ["server"; "pin-device"; "offline-kms"]%string in
  let messengers := mocknet.NewMockNetwork nParties in
  (* Generate demo key shares for MPC *)
  let keygenCh :=
    map (keygen_party env messengers nParties partyNames ed25519Curve)
        (finished env SiteKeyGen nParties) in
  match collect_keyShares keygenCh
          (repeat mpc.zero_EDDSAMPCKey (Z.to_nat nParties)) with
  | Err err => (transfer, Some err)
  | Ok keyShares =>
  (* Perform MPC signing *)
  let signatureReceiver := 0%nat in
  let signCh :=
    map (sign_party env messengers nParties partyNames keyShares messageToSign
           signatureReceiver)
        (finished env SiteSign nParties) in
  let '(transfer, err) := collect_signature signCh signatureReceiver transfer in
  match err with
  | Some err => (transfer, Some err)
  | None =>
      if negb (len (MPCSignature transfer) =? 64) then
        (transfer, Some (Errorf "invalid signature length: got %d, expected 64"))
      else (transfer, None)
  end
  end
  end
  end.

(** The key shares [signWithMPC] signs with: those the key generation
    run inside it produced. *)
Definition keygen_shares (env : Env) (ed25519Curve : curve.Curve)
  : result (list mpc.EDDSAMPCKey) :=
  let nParties := 3 in
  let partyNames := ["server"; "pin-device"; "offline-kms"]%string in
  collect_keyShares
    (map (keygen_party env (mocknet.NewMockNetwork nParties) nParties partyNames
            ed25519Curve)
         (finished env SiteKeyGen nParties))
    (repeat mpc.zero_EDDSAMPCKey (Z.to_nat nParties)).

(** The protocol handed [resp] to party [partyIdx] of the signing run. *)
Definition answered (env : Env) (keyShares : list mpc.EDDSAMPCKey)
    (messageToSign : bytes) (signatureReceiver : nat)
    (partyIdx : nat) (resp : mpc.EDDSAMPCSignResponse) : Prop :=
  exists job,
    mpc_NewJobMP env SiteSign
      (nth partyIdx (mocknet.NewMockNetwork 3) mocknet.zero_Messenger)
      3 partyIdx ["server"; "pin-device"; "offline-kms"]%string = Ok job
    /\ mpc_EDDSAMPCSign env job
         {| mpc.KeyShare := nth partyIdx keyShares mpc.zero_EDDSAMPCKey;
            mpc.Message := messageToSign;
            mpc.SignatureReceiver := signatureReceiver |} = Ok resp.

(** [main] builds the transfer with no signature, then calls [signWithMPC]. *)
Definition new_transfer (fromPubkey toPubkey : bytes) (transferLamports : Z)
    (tx : solana.Transaction) : SolanaTransfer :=
  {| FromAddress := fromPubkey; ToAddress := toPubkey;
     Amount := transferLamports; Transaction := tx; MPCSignature := [] |}.

End RealTransfer.

(** ** solana-transaction-signer.go *)

Module TransactionSigner.

Record keygenResult := {
  kg_idx : nat;
  kg_keyShare : mpc.EDDSAMPCKey;
  kg_err : option error
}.

Record signResult := {
  sr_idx : nat;
  sr_signature : bytes;
  sr_err : option error
}.

Definition keygen_party (env : Env) (messengers : list mocknet.Messenger)
    (nParties : Z) (partyNames : list string) (curve : curve.Curve)
    (partyIdx : nat) : keygenResult :=
  match mpc_NewJobMP env SiteKeyGen (nth partyIdx messengers mocknet.zero_Messenger)
          nParties partyIdx partyNames with
  | Err err =>
      {| kg_idx := partyIdx; kg_keyShare := mpc.zero_EDDSAMPCKey; kg_err := Some err |}
  | Ok job =>
      let req := {| mpc.keygen_Curve := curve |} in
      match mpc_EDDSAMPCKeyGen env job req with
      | Err err =>
          {| kg_idx := partyIdx; kg_keyShare := mpc.zero_EDDSAMPCKey;
             kg_err := Some err |}
      | Ok resp =>
          {| kg_idx := partyIdx; kg_keyShare := mpc.keygen_KeyShare resp;
             kg_err := None |}
      end
  end.

Fixpoint collect_keyShares (arrived : list keygenResult)
    (keyShares : list mpc.EDDSAMPCKey) : result (list mpc.EDDSAMPCKey) :=
  match arrived with
  | [] => Ok keyShares
  | result :: rest =>
      match kg_err result with
      | Some err => Err (ErrorfWrap "keygen failed for party %d: %v" err)
      | None =>
          collect_keyShares rest
            (set_at keyShares (kg_idx result) (kg_keyShare result))
      end
  end.

Definition sign_party (env : Env) (messengers : list mocknet.Messenger)
    (nParties : Z) (partyNames : list string) (keyShares : list mpc.EDDSAMPCKey)
    (message : bytes) (signatureReceiver : nat) (partyIdx : nat)
  : signResult :=
  match mpc_NewJobMP env SiteSign (nth partyIdx messengers mocknet.zero_Messenger)
          nParties partyIdx partyNames with
  | Err err => {| sr_idx := partyIdx; sr_signature := []; sr_err := Some err |}
  | Ok job =>
      let req := {| mpc.KeyShare := nth partyIdx keyShares mpc.zero_EDDSAMPCKey;
                    mpc.Message := message;
                    mpc.SignatureReceiver := signatureReceiver |} in
      match mpc_EDDSAMPCSign env job req with
      | Err err => {| sr_idx := partyIdx; sr_signature := []; sr_err := Some err |}
      | Ok resp =>
          {| sr_idx := partyIdx; sr_signature := mpc.Signature resp; sr_err := None |}
      end
  end.

(** The loop that collects [finalSignature] from [signCh]. *)
Fixpoint collect_signature (arrived : list signResult) (signatureReceiver : nat)
    (finalSignature : bytes) : result bytes :=
  match arrived with
  | [] => Ok finalSignature
  | result :: rest =>
      match sr_err result with
      | Some err => Err (ErrorfWrap "signing failed for party %d: %v" err)
      | None =>
          collect_signature rest signatureReceiver
            (if (sr_idx result =? signatureReceiver)%nat
                && (0 <? len (sr_signature result))
             then sr_signature result
             else finalSignature)
      end
  end.

(** [performMPCSigning(curve, message)] up to its last check: the
    signature it prints and accepts, or the error it returns. *)
Definition signed (env : Env) (curve : curve.Curve) (message : bytes)
  : result bytes :=
  let nParties := 3 in
  let partyNames := ["server"; "pin-device"; "offline-kms"]%string in
  let messengers := mocknet.NewMockNetwork nParties in
  let keygenCh :=
    map (keygen_party env messengers nParties partyNames curve)
        (finished env SiteKeyGen nParties) in
  keyShares <- collect_keyShares keygenCh
                 (repeat mpc.zero_EDDSAMPCKey (Z.to_nat nParties)) ;;
  let signatureReceiver := 0%nat in
  let signCh :=
    map (sign_party env messengers nParties partyNames keyShares message
           signatureReceiver)
        (finished env SiteSign nParties) in
  finalSignature <- collect_signature signCh signatureReceiver [] ;;
  if len finalSignature =? 0 then Err (Errorf "no signature received")
  else if negb (len finalSignature =? 64) then
    Err (Errorf "invalid Ed25519 signature length: got %d, expected 64")
  else Ok finalSignature.

(** [performMPCSigning] returns only the error. *)
Definition performMPCSigning (env : Env) (curve : curve.Curve) (message : bytes)
  : option error :=
  match signed env curve message with
  | Ok _ => None
  | Err err => Some err
  end.

End TransactionSigner.

(** ** The library calls the design describes

    Modelled from the spec: the methods [ToAdditiveShare], [MarshalBinary],
    [UnmarshalBinary] and [Q] of [mpc.EDDSAMPCKey] and [GetX] of
    [curve.Point] are code of the cb-mpc library, which is not under
    src/. What follows is the behaviour the design gives them: share
    conversion first checks that the quorum satisfies the policy and
    fails with [UnauthorizedQuorum] before any cryptographic work, and
    otherwise derives the share of exactly that quorum; the serialized
    share format is a lossless byte encoding, here every field behind
    its length as a big-endian 32-bit word. *)

Module Library.

(** The work a call performs, in order. *)
Inductive Work :=
| ShareConversion (party : string) (quorum : list string).

Definition additive (k : mpc.EDDSAMPCKey) (quorum : list string)
  : mpc.EDDSAMPCKey :=
  {| mpc.key_party := mpc.key_party k;
     mpc.key_curve := mpc.key_curve k;
     mpc.key_Q := mpc.key_Q k;
     mpc.key_secret := mpc.key_secret k;
     mpc.key_kind := mpc.AdditiveShare quorum |}.

(** Modelled from the spec: [k.ToAdditiveShare(ac, quorum)] is not under
    src/. The quorum is checked against the policy first; a quorum that
    does not satisfy it fails with [UnauthorizedQuorum] before any
    cryptographic work, and otherwise the share for exactly that quorum
    is derived. The result comes with the work the call performed. *)
Definition ToAdditiveShare_work (k : mpc.EDDSAMPCKey) (A : mpc.AccessStructure)
    (quorum : list string) : list Work * result mpc.EDDSAMPCKey :=
  if mpc.satisfies A quorum then
    ([ShareConversion (mpc.key_party k) quorum], Ok (additive k quorum))
  else
    ([], Err (LibraryError UnauthorizedQuorum)).

Definition ToAdditiveShare (k : mpc.EDDSAMPCKey) (A : mpc.AccessStructure)
    (quorum : list string) : result mpc.EDDSAMPCKey :=
  snd (ToAdditiveShare_work k A quorum).

(** Modelled from the spec: [k.Q()] and [point.GetX()] are not under
    src/; they read the shared public key of a share and its X
    coordinate. *)
Definition Q (k : mpc.EDDSAMPCKey) : result curve.Point := Ok (mpc.key_Q k).

Definition GetX (p : curve.Point) : bytes := curve.X p.

(** *** The serialized share format

    Modelled from the spec: [MarshalBinary] and [UnmarshalBinary] are not
    under src/, and the design only asks of the share encoding that it
    be lossless. Below, every field is written behind its length, a
    big-endian 32-bit word; the library's own byte format is not
    modelled. *)

Definition put_bytes (b : bytes) : bytes := put32 (len b) ++ b.

Definition put_string (s : string) : bytes := put_bytes (list_byte_of_string s).

Definition put_curve (c : curve.Curve) : bytes :=
  match c with
  | curve.Ed25519 => [x00]
  | curve.Secp256k1 => [x01]
  | curve.P256 => [x02]
  end.

Definition put_kind (k : mpc.ShareKind) : bytes :=
  match k with
  | mpc.ThresholdShare => [x00]
  | mpc.AdditiveShare quorum =>
      [x01] ++ put32 (len quorum) ++ flat_map put_string quorum
  end.

Definition encode (k : mpc.EDDSAMPCKey) : bytes :=
  put_string (mpc.key_party k) ++ put_curve (mpc.key_curve k)
  ++ put_bytes (curve.X (mpc.key_Q k)) ++ put_bytes (curve.Y (mpc.key_Q k))
  ++ put_bytes (mpc.key_secret k) ++ put_kind (mpc.key_kind k).

(** A length fits its 32-bit word. *)
Definition fits {A} (l : list A) : bool := len l <? 2 ^ 32.

Definition fits_kind (k : mpc.ShareKind) : bool :=
  match k with
  | mpc.ThresholdShare => true
  | mpc.AdditiveShare quorum =>
      fits quorum && forallb (fun s => fits (list_byte_of_string s)) quorum
  end.

Definition encodable (k : mpc.EDDSAMPCKey) : bool :=
  fits (list_byte_of_string (mpc.key_party k))
  && fits (curve.X (mpc.key_Q k)) && fits (curve.Y (mpc.key_Q k))
  && fits (mpc.key_secret k) && fits_kind (mpc.key_kind k).

(** Modelled from the spec: [k.MarshalBinary()], not under src/; it
    fails only when a field is too long for its length word. *)
Definition MarshalBinary (k : mpc.EDDSAMPCKey) : result bytes :=
  if encodable k then Ok (encode k) else Err (LibraryError EncodingFailure).

(** A reader takes a value off the front of the bytes. *)
Definition reader (A : Type) := bytes -> option (A * bytes).

Definition get32 : reader Z :=
  fun p => if 4 <=? len p then Some (be32 p, skipn 4 p) else None.

Definition get_bytes : reader bytes :=
  fun p =>
    match get32 p with
    | Some (n, r) =>
        if n <=? len r
        then Some (firstn (Z.to_nat n) r, skipn (Z.to_nat n) r)
        else None
    | None => None
    end.

Definition get_string : reader string :=
  fun p =>
    match get_bytes p with
    | Some (b, r) => Some (string_of_list_byte b, r)
    | None => None
    end.

Definition get_curve : reader curve.Curve :=
  fun p =>
    match p with
    | x00 :: r => Some (curve.Ed25519, r)
    | x01 :: r => Some (curve.Secp256k1, r)
    | x02 :: r => Some (curve.P256, r)
    | _ => None
    end.

Fixpoint get_strings (count : nat) : reader (list string) :=
  fun p =>
    match count with
    | O => Some ([], p)
    | S count' =>
        match get_string p with
        | Some (s, r) =>
            match get_strings count' r with
            | Some (l, r') => Some (s :: l, r')
            | None => None
            end
        | None => None
        end
    end.

Definition get_kind : reader mpc.ShareKind :=
  fun p =>
    match p with
    | x00 :: r => Some (mpc.ThresholdShare, r)
    | x01 :: r =>
        match get32 r with
        | Some (n, r') =>
            match get_strings (Z.to_nat n) r' with
            | Some (quorum, r'') => Some (mpc.AdditiveShare quorum, r'')
            | None => None
            end
        | None => None
        end
    | _ => None
    end.

Definition decode : reader mpc.EDDSAMPCKey :=
  fun p =>
    match get_string p with
    | None => None
    | Some (party, p1) =>
    match get_curve p1 with
    | None => None
    | Some (cv, p2) =>
    match get_bytes p2 with
    | None => None
    | Some (x, p3) =>
    match get_bytes p3 with
    | None => None
    | Some (y, p4) =>
    match get_bytes p4 with
    | None => None
    | Some (secret, p5) =>
    match get_kind p5 with
    | None => None
    | Some (kind, rest) =>
        Some ({| mpc.key_party := party; mpc.key_curve := cv;
                 mpc.key_Q := {| curve.X := x; curve.Y := y |};
                 mpc.key_secret := secret; mpc.key_kind := kind |}, rest)
    end end end end end end.

(** Modelled from the spec: [k.UnmarshalBinary(data)], not under src/;
    the whole of [data] must be one share. *)
Definition UnmarshalBinary (data : bytes) : result mpc.EDDSAMPCKey :=
  match decode data with
  | Some (k, []) => Ok k
  | _ => Err (LibraryError EncodingFailure)
  end.

End Library.

(** ** Concrete environments

    Runs in which the library answers every call: the receiver of a
    signing run is handed [sig], party [i] leaves key generation with a
    share whose public key has the X coordinate [Qx i], [NewJobMP] fails
    for the parties [fails] names, and the parties finish in spawn order. *)

Module Scenario.

Definition share (name : string) (x : bytes) : mpc.EDDSAMPCKey :=
  {| mpc.key_party := name; mpc.key_curve := curve.Ed25519;
     mpc.key_Q := {| curve.X := x; curve.Y := [] |};
     mpc.key_secret := [x2a]; mpc.key_kind := mpc.ThresholdShare |}.

Definition share_of (job : mpc.JobMP) (Qx : nat -> bytes) : mpc.EDDSAMPCKey :=
  share (nth (mpc.job_index job) (mpc.job_names job) ""%string)
        (Qx (mpc.job_index job)).

Definition env (sig : bytes) (Qx : nat -> bytes) (fails : Site -> nat -> bool)
  : Env :=
  {| curve_NewEd25519 := Ok curve.Ed25519;
     base64_DecodeString := fun s => (list_byte_of_string s, None);
     base64_EncodeToString := string_of_list_byte;
     key_UnmarshalBinary := fun _ => Ok (share "server" (Qx O));
     key_MarshalBinary := Library.MarshalBinary;
     key_ToAdditiveShare := Library.ToAdditiveShare;
     key_Q := Library.Q;
     point_GetX := Library.GetX;
     mpc_NewJobMP := fun site m n i names =>
       if fails site i then Err (LibraryError TransportFailure)
       else Ok {| mpc.job_messenger := m; mpc.job_parties := n;
                  mpc.job_index := i; mpc.job_names := names |};
     mpc_EDDSAMPCThresholdDKG := fun job _ =>
       Ok {| mpc.dkg_KeyShare := share_of job Qx |};
     mpc_EDDSAMPCKeyGen := fun job _ =>
       Ok {| mpc.keygen_KeyShare := share_of job Qx |};
     mpc_EDDSAMPCSign := fun job req =>
       Ok {| mpc.Signature :=
               if (mpc.job_index job =? mpc.SignatureReceiver req)%nat
               then sig else [] |};
     tx_Message_MarshalBinary := fun tx => Ok (solana.tx_Message tx);
     finish_time := fun _ i => i |}.

Definition nobody : Site -> nat -> bool := fun _ _ => false.

Definition same_key : nat -> bytes := fun _ => repeat x07 32.

(** Party 1 leaves key generation with another public key than party 0. *)
Definition split_key : nat -> bytes :=
  fun i => if (i =? 1)%nat then repeat x09 32 else repeat x07 32.

Definition sig63 : bytes := repeat x01 63.

Definition sig64 : bytes := repeat x01 64.

(** Party 1 cannot open its session, at any site. *)
Definition party1 : Site -> nat -> bool := fun _ i => (i =? 1)%nat.

(** The receiver is handed 64 bytes and nothing fails. *)
Definition calm : Env := env sig64 same_key nobody.

(** The receiver is handed 63 bytes and nothing fails. *)
Definition short : Env := env sig63 same_key nobody.

(** Key generation leaves party 1 with another public key. *)
Definition split : Env := env [] split_key nobody.

(** Party 1 fails at every site. *)
Definition stalled : Env := env sig64 same_key party1.

Definition message : bytes := list_byte_of_string "test".

Definition transaction : solana.Transaction :=
  {| solana.tx_Message := message; solana.tx_Signatures := [] |}.

End Scenario.

(** A run in which the protocol hands every member a signature: the
    receiver 64 bytes of 01, every other member 64 bytes of 02; party 1
    finishes first, then the receiver, then the rest. *)
Module Crowd.

Definition other64 : bytes := repeat x02 64.

Definition env : Env :=
  {| curve_NewEd25519 := curve_NewEd25519 Scenario.calm;
     base64_DecodeString := base64_DecodeString Scenario.calm;
     base64_EncodeToString := base64_EncodeToString Scenario.calm;
     key_UnmarshalBinary := key_UnmarshalBinary Scenario.calm;
     key_MarshalBinary := key_MarshalBinary Scenario.calm;
     key_ToAdditiveShare := key_ToAdditiveShare Scenario.calm;
     key_Q := key_Q Scenario.calm;
     point_GetX := point_GetX Scenario.calm;
     mpc_NewJobMP := mpc_NewJobMP Scenario.calm;
     mpc_EDDSAMPCThresholdDKG := mpc_EDDSAMPCThresholdDKG Scenario.calm;
     mpc_EDDSAMPCKeyGen := mpc_EDDSAMPCKeyGen Scenario.calm;
     mpc_EDDSAMPCSign := fun job req =>
       Ok {| mpc.Signature :=
               if (mpc.job_index job =? mpc.SignatureReceiver req)%nat
               then Scenario.sig64 else other64 |};
     tx_Message_MarshalBinary := tx_Message_MarshalBinary Scenario.calm;
     finish_time := fun _ i =>
       match i with O => 1%nat | S O => 0%nat | _ => i end |}.

End Crowd.

(** ** More of the programs

    The functions around the signing paths: what [main] of the complete
    demo does with the signature, [applyMPCSignature] and
    [waitForConfirmation] of the real-transfer program, and [main] of the
    transaction signer. *)

(** The environment [env] with another clock for its goroutines. *)
Definition reschedule (env : Env) (clock : Site -> nat -> nat) : Env :=
  {| curve_NewEd25519 := curve_NewEd25519 env;
     base64_DecodeString := base64_DecodeString env;
     base64_EncodeToString := base64_EncodeToString env;
     key_UnmarshalBinary := key_UnmarshalBinary env;
     key_MarshalBinary := key_MarshalBinary env;
     key_ToAdditiveShare := key_ToAdditiveShare env;
     key_Q := key_Q env;
     point_GetX := point_GetX env;
     mpc_NewJobMP := mpc_NewJobMP env;
     mpc_EDDSAMPCThresholdDKG := mpc_EDDSAMPCThresholdDKG env;
     mpc_EDDSAMPCKeyGen := mpc_EDDSAMPCKeyGen env;
     mpc_EDDSAMPCSign := mpc_EDDSAMPCSign env;
     tx_Message_MarshalBinary := tx_Message_MarshalBinary env;
     finish_time := clock |}.

Module CompleteDemoMain.

(** [copy(dst, src)]: the first [min(len(dst), len(src))] bytes of [src]
    over the front of [dst]; the slice [dst] as the call leaves it. *)
Definition copy (dst src : bytes) : bytes :=
  firstn (List.length dst) src ++ skipn (List.length src) dst.

(** [main], after [performMPCSigning] returned [signatureBytes]:
    [var signature solana.Signature; copy(signature[:], signatureBytes)],
    where [solana.Signature] is an array of 64 bytes. *)
Definition signature_of (signatureBytes : bytes) : bytes :=
  copy (repeat x00 64) signatureBytes.

(** [tx.Signatures = []solana.Signature{signature}] *)
Definition sign_transaction (tx : solana.Transaction) (signatureBytes : bytes)
  : solana.Transaction :=
  {| solana.tx_Message := solana.tx_Message tx;
     solana.tx_Signatures := [signature_of signatureBytes] |}.

End CompleteDemoMain.

Module RealTransferSteps.

(** [solana.Signature(b)] on a slice [b]: the first 64 bytes; the
    conversion panics ([None]) when the slice is shorter than the array. *)
Definition to_Signature (b : bytes) : option bytes :=
  if len b <? 64 then None else Some (firstn 64 b).

(** [applyMPCSignature(transfer)]: the transfer as the call leaves it and
    the error it returns (always [nil]), or [None] when the conversion
    panics. *)
Definition applyMPCSignature (transfer : RealTransfer.SolanaTransfer)
  : option (RealTransfer.SolanaTransfer * option error) :=
  match to_Signature (RealTransfer.MPCSignature transfer) with
  | None => None
  | Some signature =>
      Some ({| RealTransfer.FromAddress := RealTransfer.FromAddress transfer;
               RealTransfer.ToAddress := RealTransfer.ToAddress transfer;
               RealTransfer.Amount := RealTransfer.Amount transfer;
               RealTransfer.Transaction :=
                 {| solana.tx_Message :=
                      solana.tx_Message (RealTransfer.Transaction transfer);
                    solana.tx_Signatures := [signature] |};
               RealTransfer.MPCSignature := RealTransfer.MPCSignature transfer |},
            None)
  end.

(** One entry of [result.Value] of [client.GetSignatureStatuses]. *)
Record SignatureStatus := {
  ConfirmationStatus : string;
  status_Err : option error
}.

(** What the [select] of [waitForConfirmation] receives: the timeout, or
    a tick of the ticker together with the answer the poll then gets. *)
Inductive Event :=
| Timeout
| Tick (poll : result (list (option SignatureStatus))).

(** [waitForConfirmation(ctx, client, sig)] over the events its [select]
    receives, in order: the error it returns ([Some None] is [nil]), or
    [None] while it still waits after the last event. *)
Fixpoint waitForConfirmation (events : list Event) : option (option error) :=
  match events with
  | [] => None
  | Timeout :: _ => Some (Some (Errorf "timeout waiting for confirmation"))
  | Tick (Err _) :: rest => waitForConfirmation rest
  | Tick (Ok (Some status :: _)) :: rest =>
      if (ConfirmationStatus status =? "confirmed")%string
         || (ConfirmationStatus status =? "finalized")%string
      then Some None
      else
        match status_Err status with
        | Some err => Some (Some (ErrorfWrap "transaction failed: %v" err))
        | None => waitForConfirmation rest
        end
  | Tick (Ok _) :: rest => waitForConfirmation rest
  end.

(** The poll found the transaction confirmed or finalized. *)
Definition confirmed (e : Event) : bool :=
  match e with
  | Tick (Ok (Some status :: _)) =>
      (ConfirmationStatus status =? "confirmed")%string
      || (ConfirmationStatus status =? "finalized")%string
  | _ => false
  end.

(** The event makes the loop go round again: a poll that failed, that
    knows no status yet, or whose status is neither confirmed nor failed. *)
Definition inconclusive (e : Event) : bool :=
  match e with
  | Timeout => false
  | Tick (Err _) => true
  | Tick (Ok (Some status :: _)) =>
      negb (confirmed e)
      && match status_Err status with Some _ => false | None => true end
  | Tick (Ok _) => true
  end.

(** The protocol handed [resp] to party [partyIdx] of the key generation
    inside [signWithMPC]. *)
Definition keygen_answered (env : Env) (ed25519Curve : curve.Curve)
    (partyIdx : nat) (resp : mpc.EDDSAMPCKeyGenResponse) : Prop :=
  exists job,
    mpc_NewJobMP env SiteKeyGen
      (nth partyIdx (mocknet.NewMockNetwork 3) mocknet.zero_Messenger)
      3 partyIdx ["server"; "pin-device"; "offline-kms"]%string = Ok job
    /\ mpc_EDDSAMPCKeyGen env job {| mpc.keygen_Curve := ed25519Curve |} = Ok resp.

(** Whether the key generation goroutine of party [partyIdx] reports an
    error on [keygenCh]. *)
Definition keygen_failed (env : Env) (ed25519Curve : curve.Curve)
    (partyIdx : nat) : bool :=
  match RealTransfer.kg_err
          (RealTransfer.keygen_party env (mocknet.NewMockNetwork 3) 3
             ["server"; "pin-device"; "offline-kms"]%string ed25519Curve
             partyIdx) with
  | Some _ => true
  | None => false
  end.

(** Whether the signing goroutine of party [partyIdx] reports an error on
    [signCh]. *)
Definition sign_failed (env : Env) (keyShares : list mpc.EDDSAMPCKey)
    (messageToSign : bytes) (partyIdx : nat) : bool :=
  match RealTransfer.sr_err
          (RealTransfer.sign_party env (mocknet.NewMockNetwork 3) 3
             ["server"; "pin-device"; "offline-kms"]%string keyShares
             messageToSign 0 partyIdx) with
  | Some _ => true
  | None => false
  end.

End RealTransferSteps.

Module TransactionSignerRun.

(** The key shares [performMPCSigning] of the transaction signer signs
    with. *)
Definition keygen_shares (env : Env) (curve : curve.Curve)
  : result (list mpc.EDDSAMPCKey) :=
  let nParties := 3 in
  let partyNames := ["server"; "pin-device"; "offline-kms"]%string in
  TransactionSigner.collect_keyShares
    (map (TransactionSigner.keygen_party env (mocknet.NewMockNetwork nParties)
            nParties partyNames curve)
         (finished env SiteKeyGen nParties))
    (repeat mpc.zero_EDDSAMPCKey (Z.to_nat nParties)).

Definition keygen_failed (env : Env) (curve : curve.Curve) (partyIdx : nat)
  : bool :=
  match TransactionSigner.kg_err
          (TransactionSigner.keygen_party env (mocknet.NewMockNetwork 3) 3
             ["server"; "pin-device"; "offline-kms"]%string curve partyIdx) with
  | Some _ => true
  | None => false
  end.

Definition sign_failed (env : Env) (keyShares : list mpc.EDDSAMPCKey)
    (message : bytes) (partyIdx : nat) : bool :=
  match TransactionSigner.sr_err
          (TransactionSigner.sign_party env (mocknet.NewMockNetwork 3) 3
             ["server"; "pin-device"; "offline-kms"]%string keyShares
             message 0 partyIdx) with
  | Some _ => true
  | None => false
  end.

End TransactionSignerRun.

Module TransactionSignerMain.

Definition PINSalt : string := "solana-cb-mpc-salt-2024".
Definition PBKDFIterations : Z := 100000.
Definition TestPIN : string := "123456".

(** The same text as [S1Share] of the real-transfer program. *)
Definition MockS1Share : string := RealTransfer.S1Share.

Definition TestMessage : bytes :=
  bytes_of_string
    "Transfer 0.01 SOL to 9WzDXwBbmkg8ZTbNMqUxvQRAyrZzDsGYdLVL9zYtAWWM".

(** What [main] prints on its way to the signing: the length of the
    decoded share, the PIN-derived key and the hash of the message, the
    last two in hex. *)
Record Printed := {
  s1ShareLen : Z;
  pinKeyHex : string;
  messageHashHex : string
}.

Definition main (env : Env) : exit Printed :=
  (* Step 1: Load S1 share (from server storage) *)
  if (MockS1Share =? "PASTE_S1_SHARE_HERE")%string then
    Fatal "S1 share not configured" None
  else
    let '(s1ShareBytes, err) := base64_DecodeString env MockS1Share in
    match err with
    | Some err => Fatal "Failed to decode S1 share: %v" (Some err)
    | None =>
        (* Step 2: Derive S3 from PIN *)
        let pinKey :=
          pbkdf2.Key (bytes_of_string TestPIN) (bytes_of_string PINSalt)
            PBKDFIterations 32 in
        (* Step 3: Prepare message for signing *)
        let messageHash := sha256.Sum256 TestMessage in
        (* Step 4: Setup EdDSA curve *)
        ed25519Curve <- curve_NewEd25519 env
          orFatal "Failed to create Ed25519 curve:" ;;
        (* Step 5: Simulate 2-party signing (S1 + S3) *)
        match TransactionSigner.performMPCSigning env ed25519Curve TestMessage with
        | Some err => Fatal "MPC signing failed:" (Some err)
        | None =>
            Returned {| s1ShareLen := len s1ShareBytes;
                        pinKeyHex := hex.EncodeToString pinKey;
                        messageHashHex := hex.EncodeToString messageHash |}
        end
    end.

End TransactionSignerMain.

(** * Properties *)

(** ** Completion order *)

Lemma insert_by_perm (t : nat -> nat) (i : nat) (l : list nat) :
  Permutation (insert_by t i l) (i :: l).
Proof.
  induction l as [| j r IH]; simpl.
  - apply Permutation_refl.
  - destruct (t j <=? t i)%nat.
    + eapply perm_trans; [apply perm_skip, IH | apply perm_swap].
    + apply Permutation_refl.
Qed.

Lemma completion_order_perm (t : nat -> nat) (spawned : list nat) :
  Permutation (completion_order t spawned) spawned.
Proof.
  unfold completion_order.
  eapply perm_trans; [| apply Permutation_sym, Permutation_rev].
  induction (rev spawned) as [| i r IH]; simpl.
  - apply perm_nil.
  - eapply perm_trans; [apply insert_by_perm | apply perm_skip, IH].
Qed.

Lemma finished_perm (env : Env) (site : Site) (n : Z) :
  Permutation (finished env site n) (seq 0 (Z.to_nat n)).
Proof. apply completion_order_perm. Qed.

Lemma finished_In (env : Env) (site : Site) (n : Z) (i : nat) :
  In i (finished env site n) <-> (i < Z.to_nat n)%nat.
Proof.
  split; intros H.
  - apply (Permutation_in _ (finished_perm env site n)) in H.
    apply in_seq in H. lia.
  - apply (Permutation_in _ (Permutation_sym (finished_perm env site n))).
    apply in_seq. lia.
Qed.
(** Every order in which the spawned parties can finish is the order of
    some environment: the clock that gives each party its position. *)

Lemma insert_by_in_order (t : nat -> nat) (i : nat) (l : list nat) :
  in_order t l -> in_order t (insert_by t i l).
Proof.
  unfold in_order. induction 1 as [| j r Hr IH Hj]; simpl.
  - repeat constructor.
  - destruct (Nat.leb_spec (t j) (t i)) as [Hle | Hlt].
    + constructor; [exact IH |].
      apply Forall_forall. intros x Hx.
      apply (Permutation_in _ (insert_by_perm t i r)) in Hx.
      destruct Hx as [<- | Hx]; [exact Hle |].
      now apply (proj1 (Forall_forall _ _) Hj).
    + constructor; [now constructor |].
      constructor; [cbv beta; lia |].
      apply Forall_forall. intros x Hx.
      pose proof (proj1 (Forall_forall _ _) Hj x Hx) as Hjx.
      cbv beta in Hjx. lia.
Qed.

Lemma completion_order_in_order (t : nat -> nat) (spawned : list nat) :
  in_order t (completion_order t spawned).
Proof.
  unfold completion_order. induction (rev spawned) as [| i r IH]; simpl.
  - constructor.
  - now apply insert_by_in_order.
Qed.

Lemma in_order_unique (t : nat -> nat) (l1 l2 : list nat) :
  (forall a b, In a l1 -> In b l1 -> t a = t b -> a = b) ->
  in_order t l1 -> in_order t l2 -> Permutation l1 l2 -> l1 = l2.
Proof.
  unfold in_order. intros Hinj H1. revert l2.
  induction H1 as [| a r1 Hr1 IH Ha]; intros l2 H2 Hp.
  - now apply Permutation_nil in Hp.
  - destruct H2 as [| b r2 Hr2 Hb].
    + apply Permutation_sym, Permutation_nil in Hp. discriminate.
    + assert (Hab : a = b).
      { assert (In b (a :: r1)) as Hbin
          by (apply (Permutation_in _ (Permutation_sym Hp)); now left).
        assert (In a (b :: r2)) as Hain
          by (apply (Permutation_in _ Hp); now left).
        apply Hinj; [now left | exact Hbin |].
        destruct Hbin as [-> | Hbin]; [reflexivity |].
        destruct Hain as [-> | Hain]; [reflexivity |].
        pose proof (proj1 (Forall_forall _ _) Ha b Hbin) as Hab.
        pose proof (proj1 (Forall_forall _ _) Hb a Hain) as Hba.
        cbv beta in Hab, Hba. lia. }
      subst b. f_equal. apply IH; [| exact Hr2 |].
      * intros x y Hx Hy. apply Hinj; now right.
      * now apply Permutation_cons_inv in Hp.
Qed.

Lemma in_order_ext (t t' : nat -> nat) (l : list nat) :
  (forall a b, In a l -> In b l -> (t a <= t b)%nat -> (t' a <= t' b)%nat) ->
  in_order t l -> in_order t' l.
Proof.
  unfold in_order. intros Hext H.
  induction H as [| j r Hr IH Hj]; [constructor |].
  constructor.
  - apply IH. intros a b Ha Hb. apply Hext; now right.
  - apply Forall_forall. intros x Hx.
    apply Hext; [now left | now right |].
    now apply (proj1 (Forall_forall _ _) Hj).
Qed.

Lemma position_injective (l : list nat) (a b : nat) :
  In a l -> In b l -> position l a = position l b -> a = b.
Proof.
  induction l as [| j r IH]; [contradiction |]. simpl.
  intros Ha Hb.
  destruct (Nat.eqb_spec j a) as [<- | Hja], (Nat.eqb_spec j b) as [<- | Hjb];
    try reflexivity; try discriminate.
  intros H. apply IH; [tauto | tauto | lia].
Qed.

Lemma position_in_order (l : list nat) :
  NoDup l -> in_order (position l) l.
Proof.
  induction 1 as [| j r Hj Hr IH]; [constructor |].
  constructor.
  - apply in_order_ext with (t := position r); [| exact IH].
    intros a b Ha Hb Hab. simpl.
    destruct (Nat.eqb_spec j a) as [<- | _]; [contradiction |].
    destruct (Nat.eqb_spec j b) as [<- | _]; [contradiction |]. lia.
  - apply Forall_forall. intros x Hx. simpl.
    rewrite Nat.eqb_refl. lia.
Qed.

Lemma every_order_is_a_completion_order (spawned order : list nat) :
  NoDup order -> Permutation spawned order ->
  completion_order (position order) spawned = order.
Proof.
  intros Hnd Hp. symmetry.
  apply in_order_unique with (t := position order).
  - intros a b. apply position_injective.
  - now apply position_in_order.
  - apply completion_order_in_order.
  - eapply perm_trans; [apply Permutation_sym, Hp |].
    apply Permutation_sym, completion_order_perm.
Qed.

(** ** errgroup *)

Lemma errgroup_Wait_failed {S} (tasks : list (task S)) (t : task S) (st : S) :
  In t tasks -> (forall s, snd (t s) <> None) ->
  snd (errgroup_Wait tasks st) <> None.
Proof.
  intros Hin Hfail. revert st.
  induction tasks as [| u rest IH]; intros st; [contradiction |].
  simpl. destruct (u st) as [st1 e1] eqn:Hu.
  destruct (errgroup_Wait rest st1) as [st2 e2] eqn:Hrest. simpl.
  destruct e1 as [e |]; [discriminate |].
  destruct Hin as [-> | Hin].
  - specialize (Hfail st). rewrite Hu in Hfail. now elim Hfail.
  - specialize (IH Hin st1). now rewrite Hrest in IH.
Qed.

(** ** The signing run of the complete demo *)

Section CompleteDemoRun.

Variables (env : Env) (partyNames : list string) (parties : list mpc.EDDSAMPCKey).
Variables (message : bytes) (receiver : nat).

Let party :=
  CompleteDemo.sign_party env (mocknet.NewMockNetwork (len parties)) partyNames
    parties message receiver.
Let answered := CompleteDemo.answered env partyNames parties message receiver.

Lemma sign_party_ok (i : nat) (fs fs' : bytes) :
  party i fs = (fs', None) ->
  exists resp, answered i resp
    /\ fs' = if (i =? receiver)%nat then mpc.Signature resp else fs.
Proof.
  unfold party, CompleteDemo.sign_party, answered, CompleteDemo.answered.
  destruct (mpc_NewJobMP env SiteSign _ 3 i partyNames) as [job | e]; [| discriminate].
  destruct (mpc_EDDSAMPCSign env job _) as [resp | e] eqn:Hs; [| discriminate].
  intros H. inversion H; subst. exists resp. split; [| reflexivity].
  exists job. split; [reflexivity | exact Hs].
Qed.

Lemma sign_party_error_stateless (i : nat) (fs fs0 : bytes) :
  snd (party i fs) = snd (party i fs0).
Proof.
  unfold party, CompleteDemo.sign_party.
  destruct (mpc_NewJobMP env SiteSign _ 3 i partyNames) as [job | e]; [| reflexivity].
  destruct (mpc_EDDSAMPCSign env job _) as [resp | e]; reflexivity.
Qed.

Lemma wait_sign_ok (order : list nat) (fs0 fs : bytes) :
  errgroup_Wait (map party order) fs0 = (fs, None) ->
  (forall i, In i order -> exists resp, answered i resp)
  /\ (In receiver order ->
      exists resp, answered receiver resp /\ fs = mpc.Signature resp)
  /\ (~ In receiver order -> fs = fs0).
Proof.
  revert fs0. induction order as [| i rest IH]; intros fs0 H.
  - simpl in H. inversion H; subst. repeat split; intros; try contradiction; auto.
  - simpl in H. destruct (party i fs0) as [fs1 e1] eqn:Hp.
    destruct (errgroup_Wait (map party rest) fs1) as [fs2 e2] eqn:Hr.
    destruct e1 as [e |]; [discriminate |]. inversion H; subst.
    destruct (sign_party_ok _ _ _ Hp) as (resp & Hresp & Hfs1).
    destruct (IH _ Hr) as (Hall & Hin & Hout).
    split; [| split].
    + intros j [-> | Hj]; [now exists resp | now apply Hall].
    + intros Hrcv.
      destruct (in_dec Nat.eq_dec receiver rest) as [Hrest | Hrest].
      * now apply Hin.
      * destruct Hrcv as [-> | Hrcv]; [| contradiction].
        exists resp. split; [exact Hresp |].
        rewrite (Hout Hrest), Hfs1, Nat.eqb_refl. reflexivity.
    + intros Hn. rewrite Hout by (intros Hx; apply Hn; now right).
      rewrite Hfs1. destruct (Nat.eqb_spec i receiver) as [-> | Hne]; [| reflexivity].
      elim Hn. now left.
Qed.

End CompleteDemoRun.

Lemma run_signing_ok env partyNames parties message fs :
  CompleteDemo.run_signing env partyNames parties message = (fs, None) ->
  (forall i, (i < List.length parties)%nat ->
     exists resp, CompleteDemo.answered env partyNames parties message 0 i resp)
  /\ ((0 < List.length parties)%nat ->
      exists resp, CompleteDemo.answered env partyNames parties message 0 0 resp
        /\ fs = mpc.Signature resp).
Proof.
  unfold CompleteDemo.run_signing. intros H.
  apply wait_sign_ok in H. destruct H as (Hall & Hin & _).
  split.
  - intros i Hi. apply Hall, finished_In. unfold len. now rewrite Nat2Z.id.
  - intros Hpos. apply Hin, finished_In. unfold len. now rewrite Nat2Z.id.
Qed.

Lemma run_signing_failed env partyNames parties message i :
  (i < List.length parties)%nat ->
  CompleteDemo.sign_party_failed env partyNames parties message i = true ->
  snd (CompleteDemo.run_signing env partyNames parties message) <> None.
Proof.
  intros Hi Hfail. unfold CompleteDemo.run_signing.
  apply errgroup_Wait_failed with
    (t := CompleteDemo.sign_party env (mocknet.NewMockNetwork (len parties))
            partyNames parties message 0 i).
  - apply in_map, finished_In. unfold len. now rewrite Nat2Z.id.
  - intros s. rewrite (sign_party_error_stateless _ _ _ _ _ i s []).
    unfold CompleteDemo.sign_party_failed in Hfail.
    destruct (snd _); [discriminate | discriminate].
Qed.

(** [performMPCSigning] is its three stages in a row. *)
Lemma performMPCSigning_stages pin env message :
  CompleteDemo.performMPCSigning_with pin env message
  = (parties <- CompleteDemo.quorum_shares env ;;
     match CompleteDemo.run_signing env ["server"; "kms"; "pin"]%string parties message with
     | (_, Some err) => Err err
     | (finalSignature, None) =>
         if len finalSignature =? 0
         then Err (Errorf "MPC signing did not produce a signature")
         else Ok finalSignature
     end).
Proof.
  unfold CompleteDemo.performMPCSigning_with, CompleteDemo.quorum_shares.
  destruct (key_UnmarshalBinary env (fst (base64_DecodeString env CompleteDemo.s1ShareData)))
    as [s1Key | e]; [| reflexivity]. simpl.
  destruct (key_UnmarshalBinary env (fst (base64_DecodeString env CompleteDemo.s3ShareData)))
    as [s3Key | e]; [| reflexivity]. simpl.
  destruct (curve_NewEd25519 env) as [cv | e]; [| reflexivity]. simpl.
  destruct (key_ToAdditiveShare env s1Key _ _) as [s1Add | e]; [| reflexivity]. simpl.
  destruct (key_ToAdditiveShare env s3Key _ _) as [s3Add | e]; [| reflexivity]. simpl.
  destruct (CompleteDemo.run_signing env _ _ message) as [fs [e |]]; reflexivity.
Qed.

Lemma quorum_shares_two env parties :
  CompleteDemo.quorum_shares env = Ok parties -> List.length parties = 2%nat.
Proof.
  unfold CompleteDemo.quorum_shares.
  destruct (key_UnmarshalBinary env (fst (base64_DecodeString env CompleteDemo.s1ShareData)))
    as [s1Key | e]; [| discriminate]. simpl.
  destruct (key_UnmarshalBinary env (fst (base64_DecodeString env CompleteDemo.s3ShareData)))
    as [s3Key | e]; [| discriminate]. simpl.
  destruct (curve_NewEd25519 env) as [cv | e]; [| discriminate]. simpl.
  destruct (key_ToAdditiveShare env s1Key _ _) as [s1Add | e]; [| discriminate]. simpl.
  destruct (key_ToAdditiveShare env s3Key _ _) as [s3Add | e]; [| discriminate]. simpl.
  intros H. inversion H. reflexivity.
Qed.

Lemma performMPCSigning_ok env message sig :
  CompleteDemo.performMPCSigning env message = Ok sig ->
  exists parties resp,
    CompleteDemo.quorum_shares env = Ok parties
    /\ (forall i, (i < 2)%nat -> exists r,
          CompleteDemo.answered env ["server"; "kms"; "pin"]%string parties message 0 i r)
    /\ CompleteDemo.answered env ["server"; "kms"; "pin"]%string parties message 0 0 resp
    /\ sig = mpc.Signature resp
    /\ 0 < len sig.
Proof.
  unfold CompleteDemo.performMPCSigning. rewrite performMPCSigning_stages.
  destruct (CompleteDemo.quorum_shares env) as [parties | e] eqn:Hq; [| discriminate].
  simpl. destruct (CompleteDemo.run_signing env _ parties message) as [fs [e |]] eqn:Hr;
    [discriminate |].
  destruct (Z.eqb_spec (len fs) 0) as [Hz | Hnz]; [discriminate |].
  intros H. inversion H; subst fs.
  pose proof (quorum_shares_two _ _ Hq) as Hlen.
  destruct (run_signing_ok _ _ _ _ _ Hr) as (Hall & Hrcv).
  destruct Hrcv as (resp & Hresp & Hsig); [lia |].
  exists parties, resp. repeat split; auto.
  - intros i Hi. apply Hall. lia.
  - unfold len in *. lia.
Qed.
(** ** The key generation run of the wallet generator *)

Lemma set_at_length {A} (l : list A) (i : nat) (v : A) :
  List.length (set_at l i v) = List.length l.
Proof.
  revert i. induction l as [| x r IH]; intros [| i]; simpl; auto.
Qed.

Lemma nth_set_at {A} (l : list A) (i j : nat) (v d : A) :
  (i < List.length l)%nat ->
  nth j (set_at l i v) d = if (j =? i)%nat then v else nth j l d.
Proof.
  revert i j. induction l as [| x r IH]; intros i j Hi; simpl in Hi; [lia |].
  destruct i as [| i], j as [| j]; simpl; auto.
  apply IH. lia.
Qed.

Section GeneratorRun.

Variables (env : Env) (cv : curve.Curve).

Let partyNames := ["server"; "kms"; "pin"]%string.
Let party :=
  Generator.dkg_party env (mocknet.NewMockNetwork 3) 3 partyNames cv
    (Generator.createThresholdAccessStructure partyNames 2 cv).

Lemma dkg_party_ok (i : nat) (ks ks' : list mpc.EDDSAMPCKey) :
  party i ks = (ks', None) ->
  exists resp, Generator.answered env cv i resp
    /\ ks' = set_at ks i (mpc.dkg_KeyShare resp).
Proof.
  unfold party, Generator.dkg_party, Generator.answered.
  destruct (mpc_NewJobMP env SiteDKG _ 3 i partyNames) as [job | e] eqn:Hj; [| discriminate].
  destruct (mpc_EDDSAMPCThresholdDKG env job _) as [resp | e] eqn:Hs; [| discriminate].
  intros H. inversion H; subst. exists resp. split; [| reflexivity].
  exists job. split; [exact Hj | exact Hs].
Qed.

Lemma dkg_party_error_stateless (i : nat) (ks ks0 : list mpc.EDDSAMPCKey) :
  snd (party i ks) = snd (party i ks0).
Proof.
  unfold party, Generator.dkg_party.
  destruct (mpc_NewJobMP env SiteDKG _ 3 i partyNames) as [job | e]; [| reflexivity].
  destruct (mpc_EDDSAMPCThresholdDKG env job _) as [resp | e]; reflexivity.
Qed.

Lemma answered_functional (i : nat) (r1 r2 : mpc.EDDSAMPCThresholdDKGResponse) :
  Generator.answered env cv i r1 -> Generator.answered env cv i r2 -> r1 = r2.
Proof.
  intros (j1 & Hj1 & Hr1) (j2 & Hj2 & Hr2). congruence.
Qed.

Lemma wait_dkg_ok (order : list nat) (ks0 ks : list mpc.EDDSAMPCKey) :
  (forall i, In i order -> (i < List.length ks0)%nat) ->
  errgroup_Wait (map party order) ks0 = (ks, None) ->
  List.length ks = List.length ks0
  /\ (forall i, In i order ->
        exists resp, Generator.answered env cv i resp
          /\ nth i ks mpc.zero_EDDSAMPCKey = mpc.dkg_KeyShare resp)
  /\ (forall i, ~ In i order ->
        nth i ks mpc.zero_EDDSAMPCKey = nth i ks0 mpc.zero_EDDSAMPCKey).
Proof.
  revert ks0. induction order as [| i rest IH]; intros ks0 Hb H.
  - simpl in H. inversion H; subst. repeat split; intros; try contradiction; auto.
  - simpl in H. destruct (party i ks0) as [ks1 e1] eqn:Hp.
    destruct (errgroup_Wait (map party rest) ks1) as [ks2 e2] eqn:Hr.
    destruct e1 as [e |]; [discriminate |]. inversion H; subst.
    destruct (dkg_party_ok _ _ _ Hp) as (resp & Hresp & Hks1).
    assert (Hi : (i < List.length ks0)%nat) by (apply Hb; now left).
    assert (Hlen1 : List.length ks1 = List.length ks0)
      by (rewrite Hks1; apply set_at_length).
    destruct (IH ks1) as (Hlen & Hin & Hout); auto.
    { intros j Hj. rewrite Hlen1. apply Hb. now right. }
    split; [congruence | split].
    + intros j Hj.
      destruct (in_dec Nat.eq_dec j rest) as [Hrest | Hrest]; [now apply Hin |].
      destruct Hj as [<- | Hj]; [| contradiction].
      exists resp. split; [exact Hresp |].
      rewrite (Hout _ Hrest), Hks1, nth_set_at by exact Hi.
      now rewrite Nat.eqb_refl.
    + intros j Hj. rewrite Hout by (intros Hx; apply Hj; now right).
      rewrite Hks1, nth_set_at by exact Hi.
      destruct (Nat.eqb_spec j i) as [-> | Hne]; [| reflexivity].
      elim Hj. now left.
Qed.

Lemma run_dkg_ok (keyShares : list mpc.EDDSAMPCKey) :
  Generator.run_dkg env cv = (keyShares, None) ->
  forall i, (i < 3)%nat ->
    exists resp, Generator.answered env cv i resp
      /\ nth i keyShares mpc.zero_EDDSAMPCKey = mpc.dkg_KeyShare resp.
Proof.
  unfold Generator.run_dkg. intros H i Hi.
  apply wait_dkg_ok in H.
  - destruct H as (_ & Hin & _). apply Hin, finished_In. simpl. lia.
  - intros j Hj. apply finished_In in Hj. simpl in *. lia.
Qed.

Lemma run_dkg_failed (i : nat) :
  (i < 3)%nat -> Generator.dkg_party_failed env cv i = true ->
  snd (Generator.run_dkg env cv) <> None.
Proof.
  intros Hi Hfail. unfold Generator.run_dkg.
  apply errgroup_Wait_failed with (t := party i).
  - apply in_map, finished_In. simpl. lia.
  - intros s. rewrite (dkg_party_error_stateless i s []).
    unfold Generator.dkg_party_failed in Hfail. fold partyNames in Hfail.
    fold party in Hfail. destruct (snd (party i [])); discriminate.
Qed.

End GeneratorRun.

Lemma main_failed env cv i :
  curve_NewEd25519 env = Ok cv -> (i < 3)%nat ->
  Generator.dkg_party_failed env cv i = true ->
  exists cause, Generator.main env = Fatal "DKG protocol failed: %v" (Some cause).
Proof.
  intros Hcv Hi Hfail. unfold Generator.main. rewrite Hcv.
  pose proof (run_dkg_failed env cv i Hi Hfail) as Hrun.
  destruct (Generator.run_dkg env cv) as [ks [e |]]; [| now elim Hrun].
  now exists e.
Qed.

Lemma main_returned env out :
  Generator.main env = Returned out ->
  exists cv keyShares resp P,
    curve_NewEd25519 env = Ok cv
    /\ Generator.run_dkg env cv = (keyShares, None)
    /\ Generator.answered env cv 0 resp
    /\ key_Q env (mpc.dkg_KeyShare resp) = Ok P
    /\ Generator.publicKeyBytes out = point_GetX env P
    /\ Generator.solanaAddress out = point_GetX env P
    /\ len (point_GetX env P) = 32.
Proof.
  unfold Generator.main.
  destruct (curve_NewEd25519 env) as [cv | e]; [| discriminate].
  destruct (Generator.run_dkg env cv) as [ks [e |]] eqn:Hrun; [discriminate |].
  destruct (run_dkg_ok env cv ks Hrun 0%nat) as (resp & Hresp & Hnth); [lia |].
  rewrite Hnth.
  destruct (key_Q env (mpc.dkg_KeyShare resp)) as [P | e] eqn:HQ; [| discriminate].
  destruct (Z.eqb_spec (len (point_GetX env P)) 32) as [H32 | H32]; [| discriminate].
  simpl.
  destruct (key_MarshalBinary env (mpc.dkg_KeyShare resp)); [| discriminate].
  destruct (key_MarshalBinary env (nth 1 ks _)); [| discriminate].
  destruct (key_MarshalBinary env (nth 2 ks _)); [| discriminate].
  intros H. inversion H; subst. simpl.
  exists cv, ks, resp, P. repeat split; auto.
Qed.
(** ** The signing run of the real-transfer program *)

Section RealTransferRun.

Variables (env : Env) (keyShares : list mpc.EDDSAMPCKey).
Variables (messageToSign : bytes) (receiver : nat).

Let partyNames := ["server"; "pin-device"; "offline-kms"]%string.
Let party :=
  RealTransfer.sign_party env (mocknet.NewMockNetwork 3) 3 partyNames keyShares
    messageToSign receiver.
Let answered := RealTransfer.answered env keyShares messageToSign receiver.

Lemma transfer_sign_party_idx (i : nat) : RealTransfer.sr_idx (party i) = i.
Proof.
  unfold party, RealTransfer.sign_party.
  destruct (mpc_NewJobMP env SiteSign _ 3 i partyNames) as [job | e]; [| reflexivity].
  destruct (mpc_EDDSAMPCSign env job _); reflexivity.
Qed.

Lemma transfer_sign_party_ok (i : nat) :
  RealTransfer.sr_err (party i) = None ->
  exists resp, answered i resp
    /\ RealTransfer.sr_signature (party i) = mpc.Signature resp.
Proof.
  unfold party, RealTransfer.sign_party, answered, RealTransfer.answered.
  fold partyNames.
  destruct (mpc_NewJobMP env SiteSign _ 3 i partyNames) as [job | e] eqn:Hj;
    [| discriminate].
  destruct (mpc_EDDSAMPCSign env job _) as [resp | e] eqn:Hs; [| discriminate].
  intros _. exists resp. split; [| reflexivity].
  exists job. split; [reflexivity | exact Hs].
Qed.

Lemma transfer_answered_functional (i : nat) (r1 r2 : mpc.EDDSAMPCSignResponse) :
  answered i r1 -> answered i r2 -> r1 = r2.
Proof.
  intros (j1 & Hj1 & Hr1) (j2 & Hj2 & Hr2). congruence.
Qed.

(** What the collecting loop leaves in [transfer.MPCSignature]. *)
Lemma collect_signature_ok (order : list nat)
    (transfer transfer' : RealTransfer.SolanaTransfer) :
  RealTransfer.collect_signature (map party order) receiver transfer
  = (transfer', None) ->
  (forall i, In i order -> exists resp, answered i resp)
  /\ (In receiver order ->
      exists resp, answered receiver resp
        /\ RealTransfer.MPCSignature transfer'
           = if 0 <? len (mpc.Signature resp) then mpc.Signature resp
             else RealTransfer.MPCSignature transfer)
  /\ (~ In receiver order ->
      RealTransfer.MPCSignature transfer' = RealTransfer.MPCSignature transfer).
Proof.
  revert transfer. induction order as [| i rest IH]; intros transfer H.
  - simpl in H. inversion H; subst. repeat split; intros; try contradiction; auto.
  - simpl in H. destruct (RealTransfer.sr_err (party i)) as [e |] eqn:He;
      [discriminate |].
    destruct (transfer_sign_party_ok i He) as (resp & Hresp & Hsig).
    rewrite transfer_sign_party_idx, Hsig in H.
    destruct (IH _ H) as (Hall & Hin & Hout).
    split; [| split].
    + intros j [-> | Hj]; [now exists resp | now apply Hall].
    + intros Hrcv.
      destruct (in_dec Nat.eq_dec receiver rest) as [Hrest | Hrest].
      * destruct (Hin Hrest) as (resp' & Hresp' & Hsig').
        exists resp'. split; [exact Hresp' |]. rewrite Hsig'.
        destruct (0 <? len (mpc.Signature resp')) eqn:Hpos; [reflexivity |].
        destruct (Nat.eqb_spec i receiver) as [-> | Hne]; [| reflexivity].
        rewrite (transfer_answered_functional _ _ _ Hresp Hresp'), Hpos.
        reflexivity.
      * destruct Hrcv as [-> | Hrcv]; [| contradiction].
        exists resp. split; [exact Hresp |].
        rewrite (Hout Hrest), Nat.eqb_refl. simpl.
        destruct (0 <? len (mpc.Signature resp)); reflexivity.
    + intros Hn. rewrite Hout by (intros Hx; apply Hn; now right).
      destruct (Nat.eqb_spec i receiver) as [-> | Hne]; [| reflexivity].
      elim Hn. now left.
Qed.

End RealTransferRun.

(** [signWithMPC] returns [nil] only with a 64-byte signature, which is the
    receiver's response unless that was empty and the transfer already
    held one. *)
Lemma signWithMPC_ok env transfer transfer' :
  RealTransfer.signWithMPC env transfer = (transfer', None) ->
  exists messageToSign cv keyShares resp,
    tx_Message_MarshalBinary env (RealTransfer.Transaction transfer) = Ok messageToSign
    /\ curve_NewEd25519 env = Ok cv
    /\ RealTransfer.keygen_shares env cv = Ok keyShares
    /\ (forall i, (i < 3)%nat ->
          exists r, RealTransfer.answered env keyShares messageToSign 0 i r)
    /\ RealTransfer.answered env keyShares messageToSign 0 0 resp
    /\ RealTransfer.MPCSignature transfer'
       = (if 0 <? len (mpc.Signature resp) then mpc.Signature resp
          else RealTransfer.MPCSignature transfer)
    /\ len (RealTransfer.MPCSignature transfer') = 64.
Proof.
  unfold RealTransfer.signWithMPC.
  destruct (tx_Message_MarshalBinary env _) as [msg | e]; [| discriminate].
  destruct (curve_NewEd25519 env) as [cv | e]; [| discriminate].
  fold (RealTransfer.keygen_shares env cv).
  destruct (RealTransfer.keygen_shares env cv) as [ks | e] eqn:Hks; [| discriminate].
  destruct (RealTransfer.collect_signature _ 0 transfer) as [t1 [e |]] eqn:Hc;
    [discriminate |].
  destruct (Z.eqb_spec (len (RealTransfer.MPCSignature t1)) 64) as [H64 | H64];
    [| discriminate].
  simpl. intros H. inversion H; subst t1.
  apply collect_signature_ok in Hc. destruct Hc as (Hall & Hin & _).
  destruct Hin as (resp & Hresp & Hsig); [apply finished_In; simpl; lia |].
  exists msg, cv, ks, resp.
  split; [reflexivity |]. split; [reflexivity |]. split; [exact Hks |].
  split; [| now repeat split].
  intros i Hi. apply Hall, finished_In. simpl. lia.
Qed.

Lemma signWithMPC_fresh env fromPubkey toPubkey lamports tx transfer' :
  RealTransfer.signWithMPC env (RealTransfer.new_transfer fromPubkey toPubkey lamports tx)
  = (transfer', None) ->
  exists messageToSign cv keyShares resp,
    tx_Message_MarshalBinary env tx = Ok messageToSign
    /\ curve_NewEd25519 env = Ok cv
    /\ RealTransfer.keygen_shares env cv = Ok keyShares
    /\ RealTransfer.answered env keyShares messageToSign 0 0 resp
    /\ RealTransfer.MPCSignature transfer' = mpc.Signature resp
    /\ len (RealTransfer.MPCSignature transfer') = 64.
Proof.
  intros H. apply signWithMPC_ok in H.
  destruct H as (msg & cv & ks & resp & Hm & Hcv & Hks & _ & Hresp & Hsig & H64).
  exists msg, cv, ks, resp.
  split; [exact Hm |]. split; [exact Hcv |]. split; [exact Hks |].
  split; [exact Hresp |]. split; [| exact H64].
  rewrite Hsig in H64 |- *. simpl in H64 |- *.
  destruct (0 <? len (mpc.Signature resp)); [reflexivity |].
  unfold len in H64. simpl in H64. discriminate H64.
Qed.

(** solana-transaction-signer.go returns [nil] only after both checks. *)
Lemma signer_checks_length env cv message :
  TransactionSigner.performMPCSigning env cv message = None ->
  exists sig, TransactionSigner.signed env cv message = Ok sig /\ len sig = 64.
Proof.
  unfold TransactionSigner.performMPCSigning.
  destruct (TransactionSigner.signed env cv message) as [sig |] eqn:Hs; [| discriminate].
  intros _. exists sig. split; [reflexivity |].
  unfold TransactionSigner.signed in Hs.
  destruct (TransactionSigner.collect_keyShares _ _) as [ks | e]; [| discriminate].
  simpl in Hs.
  destruct (TransactionSigner.collect_signature _ _ _) as [fs | e]; [| discriminate].
  simpl in Hs.
  destruct (len fs =? 0); [discriminate |].
  destruct (Z.eqb_spec (len fs) 64) as [H64 | H64]; [| discriminate].
  simpl in Hs. inversion Hs; subst. exact H64.
Qed.
(** ** Bytes and words *)

Lemma Z_of_byte_range (b : byte) : 0 <= Z_of_byte b < 256.
Proof.
  unfold Z_of_byte. pose proof (Byte.to_N_bounded b). lia.
Qed.

Lemma Z_of_byte_of_Z (z : Z) : Z_of_byte (byte_of_Z z) = z mod 256.
Proof.
  unfold Z_of_byte, byte_of_Z.
  pose proof (Z.mod_pos_bound z 256 ltac:(lia)) as Hr.
  destruct (Byte.of_N (Z.to_N (z mod 256))) as [b |] eqn:Hb.
  - apply Byte.to_of_N in Hb. rewrite Hb. lia.
  - apply Byte.of_N_None_iff in Hb. lia.
Qed.

Lemma be32_put32 (n : Z) (rest : bytes) :
  0 <= n < 2 ^ 32 -> be32 (put32 n ++ rest) = n.
Proof.
  intros Hn. unfold be32, put32. cbn [app firstn fold_left].
  rewrite !Z_of_byte_of_Z, !Z.shiftr_div_pow2 by lia.
  change (2 ^ 24) with 16777216. change (2 ^ 16) with 65536.
  change (2 ^ 8) with 256. change (2 ^ 32) with 4294967296 in Hn.
  Z.to_euclidean_division_equations. lia.
Qed.

(** ** PBKDF2 *)

Lemma put32_length (x : Z) : List.length (put32 x) = 4%nat.
Proof. reflexivity. Qed.

Lemma Sum256_length (msg : bytes) : List.length (sha256.Sum256 msg) = 32%nat.
Proof.
  unfold sha256.Sum256, sha256.checkSum.
  now rewrite !length_app, !put32_length.
Qed.

Lemma hmac_Sum_length (key msg : bytes) : List.length (hmac.Sum key msg) = 32%nat.
Proof. apply Sum256_length. Qed.

Lemma xor_into_length (T U : bytes) :
  List.length (pbkdf2.xor_into T U) = Nat.min (List.length T) (List.length U).
Proof.
  unfold pbkdf2.xor_into. now rewrite length_map, length_combine.
Qed.

Lemma block_T_length (password salt : bytes) (iter : Z) (block : nat) :
  List.length (pbkdf2.block_T password salt iter block) = 32%nat.
Proof.
  unfold pbkdf2.block_T.
  set (U1 := hmac.Sum password _).
  assert (H : List.length (fst (U1, U1)) = 32%nat) by apply hmac_Sum_length.
  revert H. generalize (U1, U1).
  apply (N.iter_invariant (Z.to_N (iter - 1)) _ (pbkdf2.step password)
           (fun TU => List.length (fst TU) = 32%nat)).
  intros [T U] HT. unfold pbkdf2.step. cbn [fst snd] in *.
  now rewrite xor_into_length, HT, hmac_Sum_length.
Qed.

Lemma flat_map_blocks_length (password salt : bytes) (iter : Z) (l : list nat) :
  List.length (flat_map (pbkdf2.block_T password salt iter) l)
  = (32 * List.length l)%nat.
Proof.
  induction l as [| b r IH]; [reflexivity |].
  cbn [flat_map List.length]. rewrite length_app, block_T_length, IH. lia.
Qed.

Lemma Key_length (password salt : bytes) (iter keyLen : Z) :
  0 <= keyLen -> len (pbkdf2.Key password salt iter keyLen) = keyLen.
Proof.
  intros Hk. unfold pbkdf2.Key, len.
  rewrite length_firstn, flat_map_blocks_length, length_seq.
  unfold sha256.Size.
  assert (keyLen <= 32 * ((keyLen + 32 - 1) / 32)).
  { Z.to_euclidean_division_equations. lia. }
  assert (0 <= (keyLen + 32 - 1) / 32).
  { Z.to_euclidean_division_equations. lia. }
  lia.
Qed.

(** ** The serialized share format *)

Section Format.

Import Library.

Lemma fits_range {A} (l : list A) : fits l = true -> 0 <= len l < 2 ^ 32.
Proof.
  unfold fits, len. intros H. apply Z.ltb_lt in H. lia.
Qed.

Lemma get32_put32 (n : Z) (rest : bytes) :
  0 <= n < 2 ^ 32 -> get32 (put32 n ++ rest) = Some (n, rest).
Proof.
  intros Hn. unfold get32.
  rewrite be32_put32 by exact Hn.
  unfold len. rewrite length_app, put32_length.
  destruct (Z.leb_spec 4 (Z.of_nat (4 + List.length rest))); [| lia].
  reflexivity.
Qed.

Lemma get_bytes_put_bytes (b rest : bytes) :
  fits b = true -> get_bytes (put_bytes b ++ rest) = Some (b, rest).
Proof.
  intros Hb. apply fits_range in Hb.
  unfold get_bytes, put_bytes. rewrite <- app_assoc, get32_put32 by exact Hb.
  unfold len in *. rewrite length_app, Nat2Z.id.
  destruct (Z.leb_spec (Z.of_nat (List.length b))
              (Z.of_nat (List.length b + List.length rest))); [| lia].
  rewrite firstn_app, Nat.sub_diag, firstn_all, skipn_app, Nat.sub_diag, skipn_all.
  cbn [firstn skipn app]. now rewrite app_nil_r.
Qed.

Lemma get_string_put_string (s : string) (rest : bytes) :
  fits (list_byte_of_string s) = true ->
  get_string (put_string s ++ rest) = Some (s, rest).
Proof.
  intros Hs. unfold get_string, put_string.
  rewrite get_bytes_put_bytes by exact Hs.
  now rewrite string_of_list_byte_of_string.
Qed.

Lemma get_curve_put_curve (c : curve.Curve) (rest : bytes) :
  get_curve (put_curve c ++ rest) = Some (c, rest).
Proof. destruct c; reflexivity. Qed.

Lemma get_strings_put (quorum : list string) (rest : bytes) :
  forallb (fun s => fits (list_byte_of_string s)) quorum = true ->
  get_strings (List.length quorum) (flat_map put_string quorum ++ rest)
  = Some (quorum, rest).
Proof.
  induction quorum as [| s q IH]; intros H; [reflexivity |].
  cbn [forallb] in H. apply andb_prop in H. destruct H as [Hs Hq].
  cbn [List.length flat_map get_strings].
  rewrite <- app_assoc, get_string_put_string by exact Hs.
  now rewrite IH.
Qed.

Lemma get_kind_put_kind (k : mpc.ShareKind) (rest : bytes) :
  fits_kind k = true -> get_kind (put_kind k ++ rest) = Some (k, rest).
Proof.
  destruct k as [| quorum]; intros H; [reflexivity |].
  cbn [fits_kind] in H. apply andb_prop in H. destruct H as [Hn Hq].
  unfold put_kind. cbn [app get_kind].
  rewrite <- app_assoc, get32_put32 by (apply fits_range, Hn).
  unfold len. rewrite Nat2Z.id, get_strings_put by exact Hq. reflexivity.
Qed.

Lemma decode_encode (k : mpc.EDDSAMPCKey) (rest : bytes) :
  encodable k = true -> decode (encode k ++ rest) = Some (k, rest).
Proof.
  unfold encodable. intros H.
  repeat (apply andb_prop in H; let H' := fresh "H" in destruct H as [H H']).
  unfold decode, encode. rewrite <- !app_assoc.
  rewrite get_string_put_string by assumption.
  rewrite get_curve_put_curve.
  rewrite !get_bytes_put_bytes by assumption.
  rewrite get_kind_put_kind by assumption.
  destruct k as [party cv [x y] secret kind]. reflexivity.
Qed.

Lemma UnmarshalBinary_MarshalBinary (k : mpc.EDDSAMPCKey) (data : bytes) :
  MarshalBinary k = Ok data -> UnmarshalBinary data = Ok k.
Proof.
  unfold MarshalBinary, UnmarshalBinary.
  destruct (encodable k) eqn:He; [| discriminate].
  intros H. inversion H; subst data.
  rewrite <- (app_nil_r (encode k)), decode_encode by exact He. reflexivity.
Qed.

End Format.
(** ** Test vectors of the key derivation *)

Example sha256_abc :
  hex.EncodeToString (sha256.Sum256 (bytes_of_string "abc"))
  = "ba7816bf8f01cfea414140de5dae2223b00361a396177a9cb410ff61f20015ad"%string.
Proof. vm_compute. reflexivity. Qed.

Example sha256_two_blocks :
  hex.EncodeToString
    (sha256.Sum256
       (bytes_of_string "abcdbcdecdefdefgefghfghighijhijkijkljklmklmnlmnomnopnopq"))
  = "248d6a61d20638b8e5c026930c3e6039a33ce45964ff2167f6ecedd419db06c1"%string.
Proof. vm_compute. reflexivity. Qed.

Example hmac_sha256_rfc4231_2 :
  hex.EncodeToString
    (hmac.Sum (bytes_of_string "Jefe") (bytes_of_string "what do ya want for nothing?"))
  = "5bdcc146bf60754e6a042426089575c75a003f089d2739839dec58b964ec3843"%string.
Proof. vm_compute. reflexivity. Qed.

Example pbkdf2_two_iterations :
  hex.EncodeToString
    (pbkdf2.Key (bytes_of_string "password") (bytes_of_string "salt") 2 32)
  = "ae4d0c95af6b46d32d0adff928f06dd02a303f8ef3c251dfd6e2d85a95474c43"%string.
Proof. vm_compute. reflexivity. Qed.

Example pbkdf2_two_blocks :
  hex.EncodeToString
    (pbkdf2.Key (bytes_of_string "passwd") (bytes_of_string "salt") 1 64)
  = "55ac046e56e3089fec1691c22544b605f94185216dde0465e68b9d57c20dacbc49ca9cccf179b645991664b39d77ef317c71b845b1e30bd509112041d3a19783"%string.
Proof. vm_compute. reflexivity. Qed.

(** ** Policies built by [createThresholdAccessStructure] *)

Lemma filter_leaves (S : list string) (names : list string) :
  List.length (filter (mpc.satisfies_node S) (map mpc.Leaf names))
  = List.length (filter (fun name => existsb (String.eqb name) S) names).
Proof.
  induction names as [| name r IH]; [reflexivity |].
  cbn [map filter mpc.satisfies_node].
  destruct (existsb (String.eqb name) S); cbn [List.length]; now rewrite IH.
Qed.

(** A k-of-n policy over leaves is satisfied by [S] iff at least [k] of
    the party names are in [S]. *)
Lemma threshold_policy_counts_members names k cv (S : list string) :
  mpc.satisfies (Generator.createThresholdAccessStructure names k cv) S
  = (k <=? len (filter (fun name => existsb (String.eqb name) S) names)).
Proof.
  unfold mpc.satisfies, Generator.createThresholdAccessStructure.
  cbn [mpc.Root mpc.satisfies_node]. unfold len. now rewrite filter_leaves.
Qed.

(** * The claims *)

(** ** Runs of the concrete environments *)

Example calm_demo_signs :
  CompleteDemo.performMPCSigning Scenario.calm Scenario.message
  = Ok Scenario.sig64.
Proof. lazy. reflexivity. Qed.

Example calm_transfer_signs :
  RealTransfer.signWithMPC Scenario.calm
    (RealTransfer.new_transfer [] [] 0 Scenario.transaction)
  = (RealTransfer.set_MPCSignature
       (RealTransfer.new_transfer [] [] 0 Scenario.transaction) Scenario.sig64,
     None).
Proof. vm_compute. reflexivity. Qed.

Example calm_generator_returns :
  exists s1 s2 s3,
    Generator.main Scenario.calm
    = Returned {| Generator.solanaAddress := repeat x07 32;
                  Generator.publicKeyBytes := repeat x07 32;
                  Generator.s1Base64 := s1;
                  Generator.s2Base64 := s2;
                  Generator.s3Base64 := s3 |}.
Proof. do 3 eexists. vm_compute. reflexivity. Qed.

Example stalled_generator_party :
  Generator.dkg_party_failed Scenario.stalled curve.Ed25519 1 = true.
Proof. vm_compute. reflexivity. Qed.

Example stalled_quorum_shares :
  CompleteDemo.quorum_shares Scenario.stalled
  = Ok [Library.additive (Scenario.share "server" (repeat x07 32))
          ["server"; "pin"]%string;
        Library.additive (Scenario.share "server" (repeat x07 32))
          ["server"; "pin"]%string].
Proof. vm_compute. reflexivity. Qed.

Example stalled_signing_party :
  CompleteDemo.sign_party_failed Scenario.stalled
    ["server"; "kms"; "pin"]%string
    [Library.additive (Scenario.share "server" (repeat x07 32))
       ["server"; "pin"]%string;
     Library.additive (Scenario.share "server" (repeat x07 32))
       ["server"; "pin"]%string]
    Scenario.message 1 = true.
Proof. vm_compute. reflexivity. Qed.

Example server_share_marshals :
  Library.MarshalBinary (Scenario.share "server" (repeat x07 32))
  = Ok (Library.encode (Scenario.share "server" (repeat x07 32))).
Proof. vm_compute. reflexivity. Qed.

(** C1 (the code departs from it). The claim: a finalized signature whose
    length is not 64 is rejected on both signing paths. In a run where the
    receiver is handed 63 bytes, [performMPCSigning] of the complete demo
    returns them as a success, since it only checks for an empty result;
    on the same run [signWithMPC] and the transaction signer return the
    length error. *)
Theorem complete_demo_returns_short_signature :
  CompleteDemo.performMPCSigning Scenario.short Scenario.message
  = Ok Scenario.sig63
  /\ len Scenario.sig63 = 63
  /\ snd (RealTransfer.signWithMPC Scenario.short
            (RealTransfer.new_transfer [] [] 0 Scenario.transaction))
     = Some (Errorf "invalid signature length: got %d, expected 64")
  /\ TransactionSigner.performMPCSigning Scenario.short curve.Ed25519
       Scenario.message
     = Some (Errorf "invalid Ed25519 signature length: got %d, expected 64").
Proof. lazy. repeat split. Qed.

(** C2, as the code has it. When the wallet generator runs to its end,
    every party's key generation succeeded and left its share in the
    party's slot, and the public key and address printed are the X
    coordinate, 32 bytes long, of [Q] of party 0's share alone; the [Q] of
    the other shares is not read. *)
Theorem generator_reports_party0_public_key (env : Env) (out : Generator.Printed) :
  Generator.main env = Returned out ->
  exists cv keyShares resp P,
    curve_NewEd25519 env = Ok cv
    /\ Generator.run_dkg env cv = (keyShares, None)
    /\ (forall i, (i < 3)%nat ->
          exists r, Generator.answered env cv i r
            /\ nth i keyShares mpc.zero_EDDSAMPCKey = mpc.dkg_KeyShare r)
    /\ Generator.answered env cv 0 resp
    /\ key_Q env (mpc.dkg_KeyShare resp) = Ok P
    /\ Generator.publicKeyBytes out = point_GetX env P
    /\ Generator.solanaAddress out = point_GetX env P
    /\ len (Generator.publicKeyBytes out) = 32.
Proof.
  intros H. destruct (main_returned env out H)
    as (cv & ks & resp & P & Hcv & Hrun & Hresp & HQ & Hpk & Haddr & H32).
  exists cv, ks, resp, P.
  split; [exact Hcv |]. split; [exact Hrun |].
  split; [exact (run_dkg_ok env cv ks Hrun) |].
  split; [exact Hresp |]. split; [exact HQ |]. split; [exact Hpk |].
  split; [exact Haddr |]. now rewrite Hpk.
Qed.

Lemma generator_reports_party0_public_key_witness :
  exists cv keyShares resp P,
    curve_NewEd25519 Scenario.calm = Ok cv
    /\ Generator.run_dkg Scenario.calm cv = (keyShares, None)
    /\ (forall i, (i < 3)%nat ->
          exists r, Generator.answered Scenario.calm cv i r
            /\ nth i keyShares mpc.zero_EDDSAMPCKey = mpc.dkg_KeyShare r)
    /\ Generator.answered Scenario.calm cv 0 resp
    /\ key_Q Scenario.calm (mpc.dkg_KeyShare resp) = Ok P
    /\ repeat x07 32 = point_GetX Scenario.calm P
    /\ repeat x07 32 = point_GetX Scenario.calm P
    /\ len (repeat x07 32 : bytes) = 32.
Proof.
  destruct calm_generator_returns as (s1 & s2 & s3 & Hmain).
  exact (generator_reports_party0_public_key Scenario.calm _ Hmain).
Defined.

(** C2, the claim as stated, fails: in this run party 1 leaves the key
    generation with another public key than party 0, and the generator
    still runs to its end and prints party 0's key. *)
Lemma generator_accepts_differing_public_keys :
  exists out k0 k1 k2,
    Generator.main Scenario.split = Returned out
    /\ fst (Generator.run_dkg Scenario.split curve.Ed25519) = [k0; k1; k2]
    /\ key_Q Scenario.split k0
       = Ok {| curve.X := repeat x07 32; curve.Y := [] |}
    /\ key_Q Scenario.split k1
       = Ok {| curve.X := repeat x09 32; curve.Y := [] |}
    /\ key_Q Scenario.split k0 <> key_Q Scenario.split k1
    /\ Generator.publicKeyBytes out = repeat x07 32.
Proof.
  do 4 eexists. vm_compute. repeat split. discriminate.
Qed.

(** C3. For the 2-of-3 policy that [createThresholdAccessStructure] builds
    over server, kms and pin (the same in the generator and in the complete
    demo), the subsets {server,pin}, {server,kms}, {pin,kms} and
    {server,kms,pin} satisfy it, and {server} and the empty subset do not. *)
Theorem two_of_three_policy (cv : curve.Curve) :
  let A := Generator.createThresholdAccessStructure
             ["server"; "kms"; "pin"]%string 2 cv in
  CompleteDemo.createThresholdAccessStructure ["server"; "kms"; "pin"]%string 2 cv = A
  /\ mpc.satisfies A ["server"; "pin"]%string = true
  /\ mpc.satisfies A ["server"; "kms"]%string = true
  /\ mpc.satisfies A ["pin"; "kms"]%string = true
  /\ mpc.satisfies A ["server"; "kms"; "pin"]%string = true
  /\ mpc.satisfies A ["server"]%string = false
  /\ mpc.satisfies A [] = false.
Proof. repeat split. Qed.

(** C4. Share conversion either fails or succeeds with the quorum check
    deciding: when it fails, the quorum does not satisfy the policy, the
    error is [UnauthorizedQuorum] and no work was performed; when it
    succeeds, the quorum satisfies the policy and the share is the caller's
    additive share for exactly that quorum. The quorum {server} against the
    2-of-3 policy is such a failure, and the quorum {server, pin} that
    [performMPCSigning] passes is converted. *)
Theorem share_conversion_checks_quorum
    (k : mpc.EDDSAMPCKey) (A : mpc.AccessStructure) (quorum : list string) :
  match Library.ToAdditiveShare_work k A quorum with
  | (work, Err e) =>
      mpc.satisfies A quorum = false
      /\ e = LibraryError UnauthorizedQuorum
      /\ work = []
  | (work, Ok share) =>
      mpc.satisfies A quorum = true
      /\ mpc.key_kind share = mpc.AdditiveShare quorum
      /\ mpc.key_party share = mpc.key_party k
      /\ mpc.key_Q share = mpc.key_Q k
  end
  /\ Library.ToAdditiveShare_work k
       (CompleteDemo.createThresholdAccessStructure
          ["server"; "kms"; "pin"]%string 2 curve.Ed25519)
       ["server"%string]
     = ([], Err (LibraryError UnauthorizedQuorum))
  /\ Library.ToAdditiveShare k
       (CompleteDemo.createThresholdAccessStructure
          ["server"; "kms"; "pin"]%string 2 curve.Ed25519)
       ["server"; "pin"]%string
     = Ok (Library.additive k ["server"; "pin"]%string).
Proof.
  split; [| split; reflexivity].
  unfold Library.ToAdditiveShare_work.
  destruct (mpc.satisfies A quorum); repeat split.
Qed.

(** C6. A run in which a party's task returns an error is reported as
    failed and hands nothing to the caller: the wallet generator stops
    with the fatal "DKG protocol failed" and prints no share, and
    [performMPCSigning] of the complete demo returns an error and no
    signature, whatever the other parties produced. *)
Theorem failed_party_voids_run (env : Env) (i : nat) :
  (forall cv,
     curve_NewEd25519 env = Ok cv -> (i < 3)%nat ->
     Generator.dkg_party_failed env cv i = true ->
     exists cause,
       Generator.main env = Fatal "DKG protocol failed: %v" (Some cause))
  /\ (forall message parties,
        CompleteDemo.quorum_shares env = Ok parties -> (i < 2)%nat ->
        CompleteDemo.sign_party_failed env ["server"; "kms"; "pin"]%string
          parties message i = true ->
        exists e, CompleteDemo.performMPCSigning env message = Err e).
Proof.
  split.
  - intros cv Hcv Hi Hfail. exact (main_failed env cv i Hcv Hi Hfail).
  - intros message parties Hq Hi Hfail.
    unfold CompleteDemo.performMPCSigning.
    rewrite performMPCSigning_stages, Hq. cbn [bind].
    pose proof (quorum_shares_two env parties Hq) as Hlen.
    assert (Hrun : snd (CompleteDemo.run_signing env
                          ["server"; "kms"; "pin"]%string parties message) <> None).
    { apply run_signing_failed with (i := i); [lia | exact Hfail]. }
    destruct (CompleteDemo.run_signing env _ parties message) as [fs [e |]].
    + now exists e.
    + now elim Hrun.
Qed.

Lemma failed_party_voids_run_witness :
  (exists cause,
     Generator.main Scenario.stalled
     = Fatal "DKG protocol failed: %v" (Some cause))
  /\ (exists e,
        CompleteDemo.performMPCSigning Scenario.stalled Scenario.message = Err e).
Proof.
  split.
  - exact (proj1 (failed_party_voids_run Scenario.stalled 1) curve.Ed25519
             eq_refl ltac:(lia) stalled_generator_party).
  - exact (proj2 (failed_party_voids_run Scenario.stalled 1) Scenario.message _
             stalled_quorum_shares ltac:(lia) stalled_signing_party).
Defined.

(** C7. Deriving the key material from a PIN twice, with the same salt,
    100000 iterations and 32 bytes asked for, gives the same 32 bytes. *)
Theorem pin_key_derivation_is_deterministic
    (pin salt : string) (first second : bytes) :
  first = pbkdf2.Key (bytes_of_string pin) (bytes_of_string salt) 100000 32 ->
  second = pbkdf2.Key (bytes_of_string pin) (bytes_of_string salt) 100000 32 ->
  first = second /\ len first = 32.
Proof.
  intros H1 H2. split; [congruence |].
  rewrite H1. apply Key_length. lia.
Qed.

Lemma pin_key_derivation_is_deterministic_witness :
  let key :=
    pbkdf2.Key (bytes_of_string "123456") (bytes_of_string "solana-mpc-salt")
      100000 32 in
  key = key /\ len key = 32.
Proof.
  exact (pin_key_derivation_is_deterministic "123456" "solana-mpc-salt" _ _
           eq_refl eq_refl).
Defined.

(** C8. A key share read back from its serialized bytes is the share that
    was written: share conversion on it gives the same result and does the
    same work as on the original, and succeeds for every quorum that
    satisfies the policy. *)
Theorem key_share_round_trip
    (k : mpc.EDDSAMPCKey) (data : bytes) (A : mpc.AccessStructure)
    (quorum : list string) :
  Library.MarshalBinary k = Ok data ->
  exists k',
    Library.UnmarshalBinary data = Ok k'
    /\ Library.ToAdditiveShare_work k' A quorum
       = Library.ToAdditiveShare_work k A quorum
    /\ Library.ToAdditiveShare k' A quorum = Library.ToAdditiveShare k A quorum
    /\ (mpc.satisfies A quorum = true ->
        Library.ToAdditiveShare k' A quorum = Ok (Library.additive k quorum)).
Proof.
  intros H. exists k.
  split; [exact (UnmarshalBinary_MarshalBinary k data H) |].
  split; [reflexivity |]. split; [reflexivity |].
  intros Hs. unfold Library.ToAdditiveShare, Library.ToAdditiveShare_work.
  now rewrite Hs.
Qed.

Lemma key_share_round_trip_witness :
  let k := Scenario.share "server" (repeat x07 32) in
  let A := CompleteDemo.createThresholdAccessStructure
             ["server"; "kms"; "pin"]%string 2 curve.Ed25519 in
  let quorum := ["server"; "pin"]%string in
  exists k',
    Library.UnmarshalBinary (Library.encode k) = Ok k'
    /\ Library.ToAdditiveShare_work k' A quorum
       = Library.ToAdditiveShare_work k A quorum
    /\ Library.ToAdditiveShare k' A quorum = Library.ToAdditiveShare k A quorum
    /\ (mpc.satisfies A quorum = true ->
        Library.ToAdditiveShare k' A quorum = Ok (Library.additive k quorum)).
Proof.
  exact (key_share_round_trip (Scenario.share "server" (repeat x07 32)) _ _ _
           server_share_marshals).
Defined.

(** C9. In [performMPCSigning] of the complete demo the key material derived
    from the PIN feeds nothing: with the same environment (share constants,
    library answers) and message, any two PINs give the same result. *)
Theorem performMPCSigning_ignores_pin
    (pin1 pin2 : string) (env : Env) (message : bytes) :
  CompleteDemo.performMPCSigning_with pin1 env message
  = CompleteDemo.performMPCSigning_with pin2 env message
  /\ CompleteDemo.performMPCSigning env message
     = CompleteDemo.performMPCSigning_with pin1 env message.
Proof. split; reflexivity. Qed.

(** * More properties of the programs *)

(** ** The complete demo: runs that succeed, and the error of a run *)

Lemma errgroup_Wait_first_error {S} (tasks : list (task S)) (st st' : S) (e : error) :
  errgroup_Wait tasks st = (st', Some e) ->
  exists before t after st0,
    tasks = before ++ t :: after
    /\ snd (errgroup_Wait before st) = None
    /\ fst (errgroup_Wait before st) = st0
    /\ snd (t st0) = Some e.
Proof.
  revert st. induction tasks as [| u rest IH]; intros st H; [discriminate |].
  simpl in H. destruct (u st) as [st1 e1] eqn:Hu.
  destruct (errgroup_Wait rest st1) as [st2 e2] eqn:Hr.
  destruct e1 as [e1 |].
  - inversion H; subst. exists [], u, rest, st. simpl.
    rewrite Hu. auto.
  - inversion H; subst e2 st2.
    destruct (IH _ Hr) as (before & t & after & st0 & Heq & Hnone & Hst & Ht).
    exists (u :: before), t, after, st0. subst rest. simpl.
    rewrite Hu. destruct (errgroup_Wait before st1) as [sb eb]. simpl in *.
    subst eb. auto.
Qed.

Section CompleteDemoAnswers.

Variables (env : Env) (partyNames : list string) (parties : list mpc.EDDSAMPCKey).
Variables (message : bytes) (receiver : nat).

Let party :=
  CompleteDemo.sign_party env (mocknet.NewMockNetwork (len parties)) partyNames
    parties message receiver.
Let answered := CompleteDemo.answered env partyNames parties message receiver.

Lemma demo_answered_functional (i : nat) (r1 r2 : mpc.EDDSAMPCSignResponse) :
  answered i r1 -> answered i r2 -> r1 = r2.
Proof.
  intros (j1 & Hj1 & Hr1) (j2 & Hj2 & Hr2). congruence.
Qed.

Lemma sign_party_answered (i : nat) (resp : mpc.EDDSAMPCSignResponse) (fs : bytes) :
  answered i resp ->
  party i fs = ((if (i =? receiver)%nat then mpc.Signature resp else fs), None).
Proof.
  intros (job & Hj & Hs). unfold party, CompleteDemo.sign_party.
  now rewrite Hj, Hs.
Qed.

Lemma sign_party_not_failed (i : nat) (fs : bytes) :
  snd (party i fs) = None -> exists resp, answered i resp.
Proof.
  destruct (party i fs) as [fs' e] eqn:Hp. simpl. intros ->.
  destruct (sign_party_ok env partyNames parties message receiver i fs fs' Hp)
    as (resp & Hresp & _).
  now exists resp.
Qed.

Lemma wait_sign_all_answered (order : list nat) (fs0 : bytes) :
  (forall i, In i order -> exists resp, answered i resp) ->
  snd (errgroup_Wait (map party order) fs0) = None.
Proof.
  revert fs0. induction order as [| i rest IH]; intros fs0 Hall; [reflexivity |].
  simpl. destruct (Hall i (or_introl eq_refl)) as (resp & Hresp).
  rewrite (sign_party_answered i resp fs0 Hresp).
  specialize (IH (if (i =? receiver)%nat then mpc.Signature resp else fs0)
                 (fun j Hj => Hall j (or_intror Hj))).
  destruct (errgroup_Wait (map party rest) _) as [st2 e2]. simpl in *. exact IH.
Qed.

End CompleteDemoAnswers.

(** ** Runs of the scenarios *)

Example stalled_demo_fails :
  CompleteDemo.performMPCSigning Scenario.stalled Scenario.message
  = Err (LibraryError TransportFailure).
Proof. lazy. reflexivity. Qed.

Example short_keygen_answered_0 :
  RealTransferSteps.keygen_answered Scenario.short curve.Ed25519 0
    {| mpc.keygen_KeyShare := Scenario.share "server" (repeat x07 32) |}.
Proof. eexists. split; reflexivity. Qed.

Example short_keygen_answered_1 :
  RealTransferSteps.keygen_answered Scenario.short curve.Ed25519 1
    {| mpc.keygen_KeyShare := Scenario.share "pin-device" (repeat x07 32) |}.
Proof. eexists. split; reflexivity. Qed.

Example short_keygen_answered_2 :
  RealTransferSteps.keygen_answered Scenario.short curve.Ed25519 2
    {| mpc.keygen_KeyShare := Scenario.share "offline-kms" (repeat x07 32) |}.
Proof. eexists. split; reflexivity. Qed.

Example short_sign_answered_all :
  forall i, (i < 3)%nat ->
    exists r,
      RealTransfer.answered Scenario.short
        [Scenario.share "server" (repeat x07 32);
         Scenario.share "pin-device" (repeat x07 32);
         Scenario.share "offline-kms" (repeat x07 32)]
        Scenario.message 0 i r.
Proof.
  intros i Hi. destruct i as [| [| [| i]]]; [| | | lia];
    eexists; eexists; split; reflexivity.
Qed.

Example short_sign_answered_0 :
  RealTransfer.answered Scenario.short
    [Scenario.share "server" (repeat x07 32);
     Scenario.share "pin-device" (repeat x07 32);
     Scenario.share "offline-kms" (repeat x07 32)]
    Scenario.message 0 0 {| mpc.Signature := Scenario.sig63 |}.
Proof. eexists. split; reflexivity. Qed.

Example sig63_not_empty : Scenario.sig63 <> [].
Proof. discriminate. Qed.

Example sig63_not_64 : len Scenario.sig63 <> 64.
Proof. vm_compute. discriminate. Qed.

Lemma performMPCSigning_iff env message sig :
  CompleteDemo.performMPCSigning env message = Ok sig <->
  exists parties resp,
    CompleteDemo.quorum_shares env = Ok parties
    /\ (forall i, (i < 2)%nat -> exists r,
          CompleteDemo.answered env ["server"; "kms"; "pin"]%string parties message 0 i r)
    /\ CompleteDemo.answered env ["server"; "kms"; "pin"]%string parties message 0 0 resp
    /\ sig = mpc.Signature resp
    /\ 0 < len sig.
Proof.
  split; [apply performMPCSigning_ok |].
  intros (parties & resp & Hq & Hall & Hresp & Hsig & Hpos).
  unfold CompleteDemo.performMPCSigning.
  rewrite performMPCSigning_stages, Hq. cbn [bind].
  pose proof (quorum_shares_two env parties Hq) as Hlen.
  assert (Hnone : snd (CompleteDemo.run_signing env
                         ["server"; "kms"; "pin"]%string parties message) = None).
  { unfold CompleteDemo.run_signing. apply wait_sign_all_answered.
    intros i Hi. apply finished_In in Hi. apply Hall.
    unfold len in Hi. rewrite Nat2Z.id in Hi. lia. }
  destruct (CompleteDemo.run_signing env _ parties message) as [fs e] eqn:Hr.
  simpl in Hnone. subst e.
  destruct (run_signing_ok _ _ _ _ _ Hr) as (_ & Hrcv).
  destruct Hrcv as (resp' & Hresp' & Hfs); [lia |].
  rewrite (demo_answered_functional _ _ _ _ _ _ _ _ Hresp' Hresp) in Hfs.
  subst fs sig.
  destruct (Z.eqb_spec (len (mpc.Signature resp)) 0); [lia | reflexivity].
Qed.

(** X1. The signature [performMPCSigning] of the complete demo
    returns does not depend on the order in which the signing goroutines
    finish: with any other clock for the goroutines, the call returns the
    signature [sig] exactly when it does with the given one. *)
Theorem performMPCSigning_any_schedule
    (env : Env) (clock : Site -> nat -> nat) (message sig : bytes) :
  CompleteDemo.performMPCSigning (reschedule env clock) message = Ok sig
  <-> CompleteDemo.performMPCSigning env message = Ok sig.
Proof.
  rewrite !performMPCSigning_iff. reflexivity.
Qed.

(** X2. When [performMPCSigning] of the complete demo fails
    after the shares were converted, the error is that of the first
    signing goroutine, in the order they finish, that returned one, handed
    on as it is; or every goroutine returned [nil] and the receiver was
    given an empty signature, and the error is "MPC signing did not
    produce a signature". *)
Theorem performMPCSigning_error_source
    (env : Env) (message : bytes) (e : error) (parties : list mpc.EDDSAMPCKey) :
  CompleteDemo.performMPCSigning env message = Err e ->
  CompleteDemo.quorum_shares env = Ok parties ->
  (exists before i after,
     finished env SiteSign 2 = before ++ i :: after
     /\ (forall j, In j before ->
           CompleteDemo.sign_party_failed env ["server"; "kms"; "pin"]%string
             parties message j = false)
     /\ snd (CompleteDemo.sign_party env (mocknet.NewMockNetwork 2)
               ["server"; "kms"; "pin"]%string parties message 0 i [])
        = Some e)
  \/ (e = Errorf "MPC signing did not produce a signature"
      /\ (forall i, (i < 2)%nat ->
            CompleteDemo.sign_party_failed env ["server"; "kms"; "pin"]%string
              parties message i = false)
      /\ exists resp,
           CompleteDemo.answered env ["server"; "kms"; "pin"]%string parties
             message 0 0 resp
           /\ mpc.Signature resp = []).
Proof.
  intros H Hq. unfold CompleteDemo.performMPCSigning in H.
  rewrite performMPCSigning_stages, Hq in H. cbn [bind] in H.
  pose proof (quorum_shares_two env parties Hq) as Hlen.
  assert (Hlen' : len parties = 2) by (unfold len; now rewrite Hlen).
  destruct (CompleteDemo.run_signing env _ parties message) as [fs [e' |]] eqn:Hr.
  - left. inversion H; subst e'. unfold CompleteDemo.run_signing in Hr.
    rewrite Hlen' in Hr.
    apply errgroup_Wait_first_error in Hr.
    destruct Hr as (tb & t & ta & st0 & Heq & Hnone & _ & Ht).
    apply map_eq_app in Heq. destruct Heq as (before & rest & Hord & Hb & Hrest).
    apply map_eq_cons in Hrest. destruct Hrest as (i & after & -> & Hi & Ha).
    exists before, i, after. split; [exact Hord |]. split.
    + intros j Hj. unfold CompleteDemo.sign_party_failed. rewrite Hlen'.
      subst tb.
      destruct (snd (CompleteDemo.sign_party env _ _ parties message 0 j []))
        as [ej |] eqn:Hej; [| reflexivity].
      exfalso. revert Hnone.
      apply errgroup_Wait_failed with
        (t := CompleteDemo.sign_party env (mocknet.NewMockNetwork 2)
                ["server"; "kms"; "pin"]%string parties message 0 j).
      * now apply in_map.
      * intros s. rewrite <- Hlen'.
        rewrite (sign_party_error_stateless env _ parties message 0 j s []).
        rewrite Hlen', Hej. discriminate.
    + subst t. rewrite <- Hlen'.
      rewrite (sign_party_error_stateless env _ parties message 0 i [] st0).
      rewrite Hlen'. exact Ht.
  - right. destruct (Z.eqb_spec (len fs) 0) as [Hz | Hnz]; [| discriminate].
    inversion H; subst e. split; [reflexivity |].
    destruct (run_signing_ok _ _ _ _ _ Hr) as (Hall & Hrcv).
    split.
    + intros i Hi. destruct (Hall i) as (r & job & Hj & Hs); [lia |].
      unfold CompleteDemo.sign_party_failed, CompleteDemo.sign_party.
      now rewrite Hj, Hs.
    + destruct Hrcv as (resp & Hresp & Hfs); [lia |].
      exists resp. split; [exact Hresp |]. subst fs.
      destruct (mpc.Signature resp); [reflexivity |].
      unfold len in Hz. simpl in Hz. lia.
Qed.

Lemma performMPCSigning_error_source_witness :
  (exists before i after,
     finished Scenario.stalled SiteSign 2 = before ++ i :: after
     /\ (forall j, In j before ->
           CompleteDemo.sign_party_failed Scenario.stalled
             ["server"; "kms"; "pin"]%string
             [Library.additive (Scenario.share "server" (repeat x07 32))
                ["server"; "pin"]%string;
              Library.additive (Scenario.share "server" (repeat x07 32))
                ["server"; "pin"]%string]
             Scenario.message j = false)
     /\ snd (CompleteDemo.sign_party Scenario.stalled (mocknet.NewMockNetwork 2)
               ["server"; "kms"; "pin"]%string
               [Library.additive (Scenario.share "server" (repeat x07 32))
                  ["server"; "pin"]%string;
                Library.additive (Scenario.share "server" (repeat x07 32))
                  ["server"; "pin"]%string]
               Scenario.message 0 i [])
        = Some (LibraryError TransportFailure))
  \/ (LibraryError TransportFailure
      = Errorf "MPC signing did not produce a signature"
      /\ (forall i, (i < 2)%nat ->
            CompleteDemo.sign_party_failed Scenario.stalled
              ["server"; "kms"; "pin"]%string
              [Library.additive (Scenario.share "server" (repeat x07 32))
                 ["server"; "pin"]%string;
               Library.additive (Scenario.share "server" (repeat x07 32))
                 ["server"; "pin"]%string]
              Scenario.message i = false)
      /\ exists resp,
           CompleteDemo.answered Scenario.stalled ["server"; "kms"; "pin"]%string
             [Library.additive (Scenario.share "server" (repeat x07 32))
                ["server"; "pin"]%string;
              Library.additive (Scenario.share "server" (repeat x07 32))
                ["server"; "pin"]%string]
             Scenario.message 0 0 resp
           /\ mpc.Signature resp = []).
Proof.
  exact (performMPCSigning_error_source Scenario.stalled Scenario.message _ _
           stalled_demo_fails stalled_quorum_shares).
Defined.

(** ** The complete demo: who signs, and what [main] attaches *)

Lemma quorum_shares_parts env parties :
  CompleteDemo.quorum_shares env = Ok parties ->
  exists s1Key s3Key cv s1Add s3Add,
    key_UnmarshalBinary env (fst (base64_DecodeString env CompleteDemo.s1ShareData))
    = Ok s1Key
    /\ key_UnmarshalBinary env (fst (base64_DecodeString env CompleteDemo.s3ShareData))
       = Ok s3Key
    /\ curve_NewEd25519 env = Ok cv
    /\ key_ToAdditiveShare env s1Key
         (CompleteDemo.createThresholdAccessStructure
            ["server"; "kms"; "pin"]%string 2 cv)
         ["server"; "pin"]%string = Ok s1Add
    /\ key_ToAdditiveShare env s3Key
         (CompleteDemo.createThresholdAccessStructure
            ["server"; "kms"; "pin"]%string 2 cv)
         ["server"; "pin"]%string = Ok s3Add
    /\ parties = [s1Add; s3Add].
Proof.
  unfold CompleteDemo.quorum_shares.
  destruct (key_UnmarshalBinary env (fst (base64_DecodeString env CompleteDemo.s1ShareData)))
    as [s1Key | e]; [| discriminate]. simpl.
  destruct (key_UnmarshalBinary env (fst (base64_DecodeString env CompleteDemo.s3ShareData)))
    as [s3Key | e]; [| discriminate]. simpl.
  destruct (curve_NewEd25519 env) as [cv | e]; [| discriminate]. simpl.
  destruct (key_ToAdditiveShare env s1Key _ _) as [s1Add | e] eqn:H1; [| discriminate].
  simpl.
  destruct (key_ToAdditiveShare env s3Key _ _) as [s3Add | e] eqn:H3; [| discriminate].
  simpl.
  intros H. inversion H.
  exists s1Key, s3Key, cv, s1Add, s3Add. now repeat split.
Qed.

(** X3. Behind every signature [performMPCSigning] of the
    complete demo returns there are two signers: index 0 with the additive
    share converted from S1 and index 1 with the one converted from S3,
    both converted for the quorum server and pin under the 2-of-3 policy.
    Their jobs carry the three names server, kms, pin, so the holder of
    the PIN share signs in the slot named kms. *)
Theorem demo_signers_and_their_shares (env : Env) (message sig : bytes) :
  CompleteDemo.performMPCSigning env message = Ok sig ->
  exists s1Key s3Key cv s1Add s3Add job0 job1 resp0 resp1,
    key_UnmarshalBinary env (fst (base64_DecodeString env CompleteDemo.s1ShareData))
    = Ok s1Key
    /\ key_UnmarshalBinary env (fst (base64_DecodeString env CompleteDemo.s3ShareData))
       = Ok s3Key
    /\ curve_NewEd25519 env = Ok cv
    /\ key_ToAdditiveShare env s1Key
         (CompleteDemo.createThresholdAccessStructure
            ["server"; "kms"; "pin"]%string 2 cv)
         ["server"; "pin"]%string = Ok s1Add
    /\ key_ToAdditiveShare env s3Key
         (CompleteDemo.createThresholdAccessStructure
            ["server"; "kms"; "pin"]%string 2 cv)
         ["server"; "pin"]%string = Ok s3Add
    /\ mpc_NewJobMP env SiteSign
         (nth 0 (mocknet.NewMockNetwork 2) mocknet.zero_Messenger)
         3 0 ["server"; "kms"; "pin"]%string = Ok job0
    /\ mpc_EDDSAMPCSign env job0
         {| mpc.KeyShare := s1Add; mpc.Message := message;
            mpc.SignatureReceiver := 0 |} = Ok resp0
    /\ mpc_NewJobMP env SiteSign
         (nth 1 (mocknet.NewMockNetwork 2) mocknet.zero_Messenger)
         3 1 ["server"; "kms"; "pin"]%string = Ok job1
    /\ mpc_EDDSAMPCSign env job1
         {| mpc.KeyShare := s3Add; mpc.Message := message;
            mpc.SignatureReceiver := 0 |} = Ok resp1
    /\ sig = mpc.Signature resp0.
Proof.
  intros H. apply performMPCSigning_iff in H.
  destruct H as (parties & resp & Hq & Hall & Hresp & Hsig & _).
  destruct (quorum_shares_parts env parties Hq)
    as (s1Key & s3Key & cv & s1Add & s3Add & U1 & U3 & Hcv & T1 & T3 & ->).
  destruct Hresp as (job0 & Hj0 & Hs0).
  destruct (Hall 1%nat ltac:(lia)) as (resp1 & job1 & Hj1 & Hs1).
  exists s1Key, s3Key, cv, s1Add, s3Add, job0, job1, resp, resp1.
  now repeat split.
Qed.

Lemma demo_signers_and_their_shares_witness :
  exists s1Key s3Key cv s1Add s3Add job0 job1 resp0 resp1,
    key_UnmarshalBinary Scenario.calm
      (fst (base64_DecodeString Scenario.calm CompleteDemo.s1ShareData))
    = Ok s1Key
    /\ key_UnmarshalBinary Scenario.calm
         (fst (base64_DecodeString Scenario.calm CompleteDemo.s3ShareData))
       = Ok s3Key
    /\ curve_NewEd25519 Scenario.calm = Ok cv
    /\ key_ToAdditiveShare Scenario.calm s1Key
         (CompleteDemo.createThresholdAccessStructure
            ["server"; "kms"; "pin"]%string 2 cv)
         ["server"; "pin"]%string = Ok s1Add
    /\ key_ToAdditiveShare Scenario.calm s3Key
         (CompleteDemo.createThresholdAccessStructure
            ["server"; "kms"; "pin"]%string 2 cv)
         ["server"; "pin"]%string = Ok s3Add
    /\ mpc_NewJobMP Scenario.calm SiteSign
         (nth 0 (mocknet.NewMockNetwork 2) mocknet.zero_Messenger)
         3 0 ["server"; "kms"; "pin"]%string = Ok job0
    /\ mpc_EDDSAMPCSign Scenario.calm job0
         {| mpc.KeyShare := s1Add; mpc.Message := Scenario.message;
            mpc.SignatureReceiver := 0 |} = Ok resp0
    /\ mpc_NewJobMP Scenario.calm SiteSign
         (nth 1 (mocknet.NewMockNetwork 2) mocknet.zero_Messenger)
         3 1 ["server"; "kms"; "pin"]%string = Ok job1
    /\ mpc_EDDSAMPCSign Scenario.calm job1
         {| mpc.KeyShare := s3Add; mpc.Message := Scenario.message;
            mpc.SignatureReceiver := 0 |} = Ok resp1
    /\ Scenario.sig64 = mpc.Signature resp0.
Proof.
  exact (demo_signers_and_their_shares Scenario.calm Scenario.message
           Scenario.sig64 calm_demo_signs).
Defined.

Lemma skipn_repeat_x00 (n m : nat) :
  skipn n (repeat x00 m) = repeat x00 (m - n).
Proof.
  revert m. induction n as [| n IH]; intros m.
  - now rewrite Nat.sub_0_r.
  - destruct m as [| m]; [reflexivity |]. simpl. apply IH.
Qed.

Lemma signature_of_length (b : bytes) :
  List.length (CompleteDemoMain.signature_of b) = 64%nat.
Proof.
  unfold CompleteDemoMain.signature_of, CompleteDemoMain.copy.
  rewrite length_app, length_firstn, length_skipn, !repeat_length. lia.
Qed.

Lemma signature_of_short (b : bytes) :
  (List.length b <= 64)%nat ->
  CompleteDemoMain.signature_of b = b ++ repeat x00 (64 - List.length b).
Proof.
  intros H. unfold CompleteDemoMain.signature_of, CompleteDemoMain.copy.
  rewrite repeat_length, firstn_all2 by exact H.
  now rewrite skipn_repeat_x00.
Qed.

Lemma signature_of_long (b : bytes) :
  (64 <= List.length b)%nat ->
  CompleteDemoMain.signature_of b = firstn 64 b.
Proof.
  intros H. unfold CompleteDemoMain.signature_of, CompleteDemoMain.copy.
  rewrite repeat_length, skipn_all2 by (rewrite repeat_length; exact H).
  apply app_nil_r.
Qed.

(** X4. [main] of the complete demo attaches exactly one
    signature of 64 bytes to the transaction and leaves the message as it
    is, whatever [performMPCSigning] returned: shorter bytes are followed
    by zero bytes, longer ones are cut after 64, and what is attached is
    what was returned only when that is 64 bytes long. *)
Theorem main_attaches_padded_or_cut_signature
    (tx : solana.Transaction) (signatureBytes : bytes) :
  exists attached,
    CompleteDemoMain.sign_transaction tx signatureBytes
    = {| solana.tx_Message := solana.tx_Message tx;
         solana.tx_Signatures := [attached] |}
    /\ len attached = 64
    /\ (len signatureBytes <= 64 ->
        attached
        = signatureBytes ++ repeat x00 (64 - List.length signatureBytes))
    /\ (64 <= len signatureBytes -> attached = firstn 64 signatureBytes)
    /\ (attached = signatureBytes <-> len signatureBytes = 64).
Proof.
  exists (CompleteDemoMain.signature_of signatureBytes).
  split; [reflexivity |].
  pose proof (signature_of_length signatureBytes) as Hlen.
  split; [unfold len; rewrite Hlen; reflexivity |].
  split; [intros H; apply signature_of_short; unfold len in H; lia |].
  split; [intros H; apply signature_of_long; unfold len in H; lia |].
  split.
  - intros H. rewrite H in Hlen. unfold len. rewrite Hlen. reflexivity.
  - intros H. rewrite signature_of_long by (unfold len in H; lia).
    apply firstn_all2. unfold len in H. lia.
Qed.

(** ** The wallet generator: what it prints *)

Section GeneratorAnswers.

Variables (env : Env) (cv : curve.Curve).

Let partyNames := ["server"; "kms"; "pin"]%string.
Let party :=
  Generator.dkg_party env (mocknet.NewMockNetwork 3) 3 partyNames cv
    (Generator.createThresholdAccessStructure partyNames 2 cv).

Lemma dkg_party_answered (i : nat) (resp : mpc.EDDSAMPCThresholdDKGResponse)
    (ks : list mpc.EDDSAMPCKey) :
  Generator.answered env cv i resp ->
  party i ks = (set_at ks i (mpc.dkg_KeyShare resp), None).
Proof.
  intros (job & Hj & Hs). unfold party, Generator.dkg_party.
  fold partyNames in Hj, Hs. now rewrite Hj, Hs.
Qed.

Lemma wait_dkg_all_answered (order : list nat) (ks0 : list mpc.EDDSAMPCKey) :
  (forall i, In i order -> exists resp, Generator.answered env cv i resp) ->
  snd (errgroup_Wait (map party order) ks0) = None.
Proof.
  revert ks0. induction order as [| i rest IH]; intros ks0 Hall; [reflexivity |].
  simpl. destruct (Hall i (or_introl eq_refl)) as (resp & Hresp).
  rewrite (dkg_party_answered i resp ks0 Hresp).
  specialize (IH (set_at ks0 i (mpc.dkg_KeyShare resp))
                 (fun j Hj => Hall j (or_intror Hj))).
  destruct (errgroup_Wait (map party rest) _) as [st2 e2]. simpl in *. exact IH.
Qed.

Lemma run_dkg_length (keyShares : list mpc.EDDSAMPCKey) :
  Generator.run_dkg env cv = (keyShares, None) -> List.length keyShares = 3%nat.
Proof.
  unfold Generator.run_dkg. intros H. apply wait_dkg_ok in H.
  - destruct H as (Hlen & _). rewrite Hlen. reflexivity.
  - intros j Hj. apply finished_In in Hj. simpl in *. lia.
Qed.

Lemma run_dkg_shares (keyShares : list mpc.EDDSAMPCKey) :
  Generator.run_dkg env cv = (keyShares, None) ->
  exists r0 r1 r2,
    Generator.answered env cv 0 r0 /\ Generator.answered env cv 1 r1
    /\ Generator.answered env cv 2 r2
    /\ keyShares = [mpc.dkg_KeyShare r0; mpc.dkg_KeyShare r1; mpc.dkg_KeyShare r2].
Proof.
  intros H. pose proof (run_dkg_length _ H) as Hlen.
  destruct (run_dkg_ok env cv _ H 0%nat) as (r0 & H0 & E0); [lia |].
  destruct (run_dkg_ok env cv _ H 1%nat) as (r1 & H1 & E1); [lia |].
  destruct (run_dkg_ok env cv _ H 2%nat) as (r2 & H2 & E2); [lia |].
  exists r0, r1, r2. repeat (split; [assumption |]).
  destruct keyShares as [| a [| b [| c [| d l]]]]; try discriminate.
  simpl in E0, E1, E2. now subst.
Qed.

Lemma run_dkg_all_answered (r0 r1 r2 : mpc.EDDSAMPCThresholdDKGResponse) :
  Generator.answered env cv 0 r0 -> Generator.answered env cv 1 r1 ->
  Generator.answered env cv 2 r2 ->
  Generator.run_dkg env cv
  = ([mpc.dkg_KeyShare r0; mpc.dkg_KeyShare r1; mpc.dkg_KeyShare r2], None).
Proof.
  intros H0 H1 H2.
  assert (Hnone : snd (Generator.run_dkg env cv) = None).
  { unfold Generator.run_dkg. apply wait_dkg_all_answered.
    intros i Hi. apply finished_In in Hi. simpl in Hi.
    destruct i as [| [| [| i]]]; [now exists r0 | now exists r1 | now exists r2 | lia]. }
  destruct (Generator.run_dkg env cv) as [ks e] eqn:Hr. simpl in Hnone. subst e.
  destruct (run_dkg_shares ks Hr) as (s0 & s1 & s2 & A0 & A1 & A2 & ->).
  rewrite (answered_functional env cv _ _ _ A0 H0),
          (answered_functional env cv _ _ _ A1 H1),
          (answered_functional env cv _ _ _ A2 H2).
  reflexivity.
Qed.

End GeneratorAnswers.

Lemma generator_main_iff env out :
  Generator.main env = Returned out <->
  exists cv r0 r1 r2 P d0 d1 d2,
    curve_NewEd25519 env = Ok cv
    /\ Generator.answered env cv 0 r0
    /\ Generator.answered env cv 1 r1
    /\ Generator.answered env cv 2 r2
    /\ key_Q env (mpc.dkg_KeyShare r0) = Ok P
    /\ len (point_GetX env P) = 32
    /\ key_MarshalBinary env (mpc.dkg_KeyShare r0) = Ok d0
    /\ key_MarshalBinary env (mpc.dkg_KeyShare r1) = Ok d1
    /\ key_MarshalBinary env (mpc.dkg_KeyShare r2) = Ok d2
    /\ out = {| Generator.solanaAddress := point_GetX env P;
                Generator.publicKeyBytes := point_GetX env P;
                Generator.s1Base64 := base64_EncodeToString env d0;
                Generator.s2Base64 := base64_EncodeToString env d1;
                Generator.s3Base64 := base64_EncodeToString env d2 |}.
Proof.
  split.
  - unfold Generator.main.
    destruct (curve_NewEd25519 env) as [cv | e]; [| discriminate].
    destruct (Generator.run_dkg env cv) as [ks [e |]] eqn:Hrun; [discriminate |].
    destruct (run_dkg_shares env cv ks Hrun) as (r0 & r1 & r2 & A0 & A1 & A2 & ->).
    cbn [nth].
    destruct (key_Q env (mpc.dkg_KeyShare r0)) as [P | e] eqn:HQ; [| discriminate].
    destruct (Z.eqb_spec (len (point_GetX env P)) 32) as [H32 | H32]; [| discriminate].
    cbn [negb].
    destruct (key_MarshalBinary env (mpc.dkg_KeyShare r0)) as [d0 |] eqn:M0;
      [| discriminate].
    destruct (key_MarshalBinary env (mpc.dkg_KeyShare r1)) as [d1 |] eqn:M1;
      [| discriminate].
    destruct (key_MarshalBinary env (mpc.dkg_KeyShare r2)) as [d2 |] eqn:M2;
      [| discriminate].
    intros H. inversion H; subst out.
    exists cv, r0, r1, r2, P, d0, d1, d2. repeat (split; [assumption || reflexivity |]).
    reflexivity.
  - intros (cv & r0 & r1 & r2 & P & d0 & d1 & d2 & Hcv & A0 & A1 & A2 & HQ & H32
            & M0 & M1 & M2 & ->).
    unfold Generator.main. rewrite Hcv.
    rewrite (run_dkg_all_answered env cv r0 r1 r2 A0 A1 A2). cbn [nth].
    rewrite HQ, H32, M0, M1, M2. reflexivity.
Qed.

(** X5. When the wallet generator runs to its end, the three
    shares it prints are, in order, the base64 text of the marshalled
    share that the key generation handed to party 0 (S1), party 1 (S2) and
    party 2 (S3). *)
Theorem generator_prints_each_party_share (env : Env) (out : Generator.Printed) :
  Generator.main env = Returned out ->
  exists cv r0 r1 r2 d0 d1 d2,
    curve_NewEd25519 env = Ok cv
    /\ Generator.answered env cv 0 r0
    /\ Generator.answered env cv 1 r1
    /\ Generator.answered env cv 2 r2
    /\ key_MarshalBinary env (mpc.dkg_KeyShare r0) = Ok d0
    /\ key_MarshalBinary env (mpc.dkg_KeyShare r1) = Ok d1
    /\ key_MarshalBinary env (mpc.dkg_KeyShare r2) = Ok d2
    /\ Generator.s1Base64 out = base64_EncodeToString env d0
    /\ Generator.s2Base64 out = base64_EncodeToString env d1
    /\ Generator.s3Base64 out = base64_EncodeToString env d2.
Proof.
  intros H. apply generator_main_iff in H.
  destruct H as (cv & r0 & r1 & r2 & P & d0 & d1 & d2 & Hcv & A0 & A1 & A2 & _ & _
                 & M0 & M1 & M2 & ->).
  exists cv, r0, r1, r2, d0, d1, d2. cbn.
  repeat (split; [assumption || reflexivity |]). reflexivity.
Qed.

Lemma generator_prints_each_party_share_witness :
  exists out,
    Generator.main Scenario.calm = Returned out
    /\ exists cv r0 r1 r2 d0 d1 d2,
         curve_NewEd25519 Scenario.calm = Ok cv
         /\ Generator.answered Scenario.calm cv 0 r0
         /\ Generator.answered Scenario.calm cv 1 r1
         /\ Generator.answered Scenario.calm cv 2 r2
         /\ key_MarshalBinary Scenario.calm (mpc.dkg_KeyShare r0) = Ok d0
         /\ key_MarshalBinary Scenario.calm (mpc.dkg_KeyShare r1) = Ok d1
         /\ key_MarshalBinary Scenario.calm (mpc.dkg_KeyShare r2) = Ok d2
         /\ Generator.s1Base64 out = base64_EncodeToString Scenario.calm d0
         /\ Generator.s2Base64 out = base64_EncodeToString Scenario.calm d1
         /\ Generator.s3Base64 out = base64_EncodeToString Scenario.calm d2.
Proof.
  destruct calm_generator_returns as (s1 & s2 & s3 & Hmain).
  eexists. split; [exact Hmain |].
  exact (generator_prints_each_party_share Scenario.calm _ Hmain).
Defined.

(** X6. What the wallet generator prints does not depend on the
    order in which the key generation goroutines finish. *)
Theorem generator_any_schedule
    (env : Env) (clock : Site -> nat -> nat) (out : Generator.Printed) :
  Generator.main (reschedule env clock) = Returned out
  <-> Generator.main env = Returned out.
Proof.
  rewrite !generator_main_iff. reflexivity.
Qed.

(** ** The wallet generator: when the key generation is reported failed *)

Lemma run_dkg_error_source env cv keyShares e :
  Generator.run_dkg env cv = (keyShares, Some e) ->
  exists i, (i < 3)%nat /\ Generator.dkg_party_failed env cv i = true.
Proof.
  unfold Generator.run_dkg. intros H.
  apply errgroup_Wait_first_error in H.
  destruct H as (tb & t & ta & st0 & Heq & _ & _ & Ht).
  apply map_eq_app in Heq. destruct Heq as (before & rest & Hord & _ & Hrest).
  apply map_eq_cons in Hrest. destruct Hrest as (i & after & -> & Hi & _).
  exists i. split.
  - assert (Hin : In i (finished env SiteDKG 3)).
    { rewrite Hord. apply in_or_app. right. now left. }
    apply finished_In in Hin. simpl in Hin. lia.
  - unfold Generator.dkg_party_failed. subst t.
    rewrite (dkg_party_error_stateless env cv i [] st0), Ht. reflexivity.
Qed.

(** X7. Once the curve is created, the wallet generator stops
    with "DKG protocol failed" exactly when the task of at least one of
    the three parties returns an error. *)
Theorem generator_dkg_failure_iff (env : Env) (cv : curve.Curve) :
  curve_NewEd25519 env = Ok cv ->
  ((exists cause,
      Generator.main env = Fatal "DKG protocol failed: %v" (Some cause))
   <-> exists i, (i < 3)%nat /\ Generator.dkg_party_failed env cv i = true).
Proof.
  intros Hcv. split.
  - intros (cause & H). unfold Generator.main in H. rewrite Hcv in H.
    destruct (Generator.run_dkg env cv) as [ks [e |]] eqn:Hrun.
    + exact (run_dkg_error_source env cv ks e Hrun).
    + exfalso.
      destruct (key_Q env _) as [P | e]; [| discriminate].
      destruct (negb _); [discriminate |].
      destruct (key_MarshalBinary env (nth 0 ks _)); [| discriminate].
      destruct (key_MarshalBinary env (nth 1 ks _)); [| discriminate].
      destruct (key_MarshalBinary env (nth 2 ks _)); discriminate.
  - intros (i & Hi & Hfail). exact (main_failed env cv i Hcv Hi Hfail).
Qed.

Lemma generator_dkg_failure_iff_witness :
  exists cause,
    Generator.main Scenario.stalled
    = Fatal "DKG protocol failed: %v" (Some cause).
Proof.
  exact (proj2 (generator_dkg_failure_iff Scenario.stalled curve.Ed25519 eq_refl)
           (ex_intro _ 1%nat
              (conj (ltac:(lia) : (1 < 3)%nat) stalled_generator_party))).
Defined.

(** ** The real-transfer program: key generation inside [signWithMPC] *)

Section TransferKeygen.

Variables (env : Env) (cv : curve.Curve).

Let partyNames := ["server"; "pin-device"; "offline-kms"]%string.
Let party :=
  RealTransfer.keygen_party env (mocknet.NewMockNetwork 3) 3 partyNames cv.
Let answered := RealTransferSteps.keygen_answered env cv.

Lemma keygen_party_idx (i : nat) : RealTransfer.kg_idx (party i) = i.
Proof.
  unfold party, RealTransfer.keygen_party.
  destruct (mpc_NewJobMP env SiteKeyGen _ 3 i partyNames) as [job | e]; [| reflexivity].
  destruct (mpc_EDDSAMPCKeyGen env job _); reflexivity.
Qed.

Lemma keygen_party_ok (i : nat) :
  RealTransfer.kg_err (party i) = None ->
  exists resp, answered i resp
    /\ RealTransfer.kg_keyShare (party i) = mpc.keygen_KeyShare resp.
Proof.
  unfold party, RealTransfer.keygen_party, answered,
    RealTransferSteps.keygen_answered. fold partyNames.
  destruct (mpc_NewJobMP env SiteKeyGen _ 3 i partyNames) as [job | e] eqn:Hj;
    [| discriminate].
  destruct (mpc_EDDSAMPCKeyGen env job _) as [resp | e] eqn:Hs; [| discriminate].
  intros _. exists resp. split; [| reflexivity].
  exists job. split; [reflexivity | exact Hs].
Qed.

Lemma keygen_party_answered (i : nat) (resp : mpc.EDDSAMPCKeyGenResponse) :
  answered i resp ->
  party i = {| RealTransfer.kg_idx := i;
               RealTransfer.kg_keyShare := mpc.keygen_KeyShare resp;
               RealTransfer.kg_err := None |}.
Proof.
  intros (job & Hj & Hs). unfold party, RealTransfer.keygen_party.
  fold partyNames in Hj. now rewrite Hj, Hs.
Qed.

Lemma keygen_answered_functional (i : nat) (r1 r2 : mpc.EDDSAMPCKeyGenResponse) :
  answered i r1 -> answered i r2 -> r1 = r2.
Proof.
  intros (j1 & Hj1 & Hr1) (j2 & Hj2 & Hr2). congruence.
Qed.

Lemma collect_keyShares_ok (order : list nat) (ks0 ks : list mpc.EDDSAMPCKey) :
  (forall i, In i order -> (i < List.length ks0)%nat) ->
  RealTransfer.collect_keyShares (map party order) ks0 = Ok ks ->
  List.length ks = List.length ks0
  /\ (forall i, In i order ->
        exists resp, answered i resp
          /\ nth i ks mpc.zero_EDDSAMPCKey = mpc.keygen_KeyShare resp)
  /\ (forall i, ~ In i order ->
        nth i ks mpc.zero_EDDSAMPCKey = nth i ks0 mpc.zero_EDDSAMPCKey).
Proof.
  revert ks0. induction order as [| i rest IH]; intros ks0 Hb H.
  - simpl in H. inversion H; subst. repeat split; intros; try contradiction; auto.
  - simpl in H. destruct (RealTransfer.kg_err (party i)) as [e |] eqn:He;
      [discriminate |].
    destruct (keygen_party_ok i He) as (resp & Hresp & Hshare).
    rewrite keygen_party_idx, Hshare in H.
    assert (Hi : (i < List.length ks0)%nat) by (apply Hb; now left).
    destruct (IH (set_at ks0 i (mpc.keygen_KeyShare resp))) as (Hlen & Hin & Hout);
      auto.
    { intros j Hj. rewrite set_at_length. apply Hb. now right. }
    rewrite set_at_length in Hlen.
    split; [exact Hlen | split].
    + intros j Hj.
      destruct (in_dec Nat.eq_dec j rest) as [Hrest | Hrest]; [now apply Hin |].
      destruct Hj as [<- | Hj]; [| contradiction].
      exists resp. split; [exact Hresp |].
      rewrite (Hout _ Hrest), nth_set_at by exact Hi.
      now rewrite Nat.eqb_refl.
    + intros j Hj. rewrite Hout by (intros Hx; apply Hj; now right).
      rewrite nth_set_at by exact Hi.
      destruct (Nat.eqb_spec j i) as [-> | Hne]; [| reflexivity].
      elim Hj. now left.
Qed.

Lemma collect_keyShares_all_answered (order : list nat) (ks0 : list mpc.EDDSAMPCKey) :
  (forall i, In i order -> exists resp, answered i resp) ->
  exists ks, RealTransfer.collect_keyShares (map party order) ks0 = Ok ks.
Proof.
  revert ks0. induction order as [| i rest IH]; intros ks0 Hall.
  - now exists ks0.
  - destruct (Hall i (or_introl eq_refl)) as (resp & Hresp).
    simpl. rewrite (keygen_party_answered i resp Hresp). cbn.
    apply IH. intros j Hj. apply Hall. now right.
Qed.

Lemma collect_keyShares_failed (order : list nat) (ks0 : list mpc.EDDSAMPCKey)
    (i : nat) :
  In i order -> RealTransfer.kg_err (party i) <> None ->
  exists cause,
    RealTransfer.collect_keyShares (map party order) ks0
    = Err (ErrorfWrap "keygen failed for party %d: %v" cause).
Proof.
  revert ks0. induction order as [| j rest IH]; intros ks0 Hin Hfail;
    [contradiction |].
  simpl. destruct (RealTransfer.kg_err (party j)) as [e |] eqn:He.
  - now exists e.
  - destruct Hin as [-> | Hin]; [now elim Hfail |].
    now apply IH.
Qed.

Lemma keygen_shares_iff (ks : list mpc.EDDSAMPCKey) :
  RealTransfer.keygen_shares env cv = Ok ks <->
  exists r0 r1 r2,
    answered 0 r0 /\ answered 1 r1 /\ answered 2 r2
    /\ ks = [mpc.keygen_KeyShare r0; mpc.keygen_KeyShare r1; mpc.keygen_KeyShare r2].
Proof.
  unfold RealTransfer.keygen_shares. split.
  - intros H. apply collect_keyShares_ok in H.
    + destruct H as (Hlen & Hin & _).
      destruct (Hin 0%nat) as (r0 & A0 & E0); [apply finished_In; simpl; lia |].
      destruct (Hin 1%nat) as (r1 & A1 & E1); [apply finished_In; simpl; lia |].
      destruct (Hin 2%nat) as (r2 & A2 & E2); [apply finished_In; simpl; lia |].
      exists r0, r1, r2. repeat (split; [assumption |]).
      simpl in Hlen.
      destruct ks as [| a [| b [| c [| d l]]]]; try discriminate.
      simpl in E0, E1, E2. now subst.
    + intros j Hj. apply finished_In in Hj. simpl in *. lia.
  - intros (r0 & r1 & r2 & A0 & A1 & A2 & ->).
    destruct (collect_keyShares_all_answered (finished env SiteKeyGen 3)
                (repeat mpc.zero_EDDSAMPCKey (Z.to_nat 3))) as (ks & Hks).
    { intros i Hi. apply finished_In in Hi. simpl in Hi.
      destruct i as [| [| [| i]]];
        [now exists r0 | now exists r1 | now exists r2 | lia]. }
    fold partyNames. fold party. rewrite Hks. f_equal.
    apply collect_keyShares_ok in Hks.
    + destruct Hks as (Hlen & Hin & _).
      destruct (Hin 0%nat) as (s0 & B0 & E0); [apply finished_In; simpl; lia |].
      destruct (Hin 1%nat) as (s1 & B1 & E1); [apply finished_In; simpl; lia |].
      destruct (Hin 2%nat) as (s2 & B2 & E2); [apply finished_In; simpl; lia |].
      rewrite (keygen_answered_functional _ _ _ B0 A0) in E0.
      rewrite (keygen_answered_functional _ _ _ B1 A1) in E1.
      rewrite (keygen_answered_functional _ _ _ B2 A2) in E2.
      simpl in Hlen.
      destruct ks as [| a [| b [| c [| d l]]]]; try discriminate.
      simpl in E0, E1, E2. now subst.
    + intros j Hj. apply finished_In in Hj. simpl in *. lia.
Qed.

End TransferKeygen.

(** ** The real-transfer program: the signing run inside [signWithMPC] *)

Lemma set_MPCSignature_twice (t : RealTransfer.SolanaTransfer) (s1 s2 : bytes) :
  RealTransfer.set_MPCSignature (RealTransfer.set_MPCSignature t s1) s2
  = RealTransfer.set_MPCSignature t s2.
Proof. reflexivity. Qed.

Section TransferSigning.

Variables (env : Env) (keyShares : list mpc.EDDSAMPCKey).
Variables (messageToSign : bytes) (receiver : nat).

Let party :=
  RealTransfer.sign_party env (mocknet.NewMockNetwork 3) 3
    ["server"; "pin-device"; "offline-kms"]%string keyShares messageToSign
    receiver.
Let answered := RealTransfer.answered env keyShares messageToSign receiver.

Lemma transfer_sign_party_answered (i : nat) (resp : mpc.EDDSAMPCSignResponse) :
  answered i resp ->
  party i = {| RealTransfer.sr_idx := i;
               RealTransfer.sr_signature := mpc.Signature resp;
               RealTransfer.sr_err := None |}.
Proof.
  unfold party, answered.
  intros (job & Hj & Hs). unfold RealTransfer.sign_party.
  now rewrite Hj, Hs.
Qed.

(** The transfer the collecting loop leaves when no party failed. *)
Lemma collect_signature_transfer (order : list nat)
    (transfer transfer' : RealTransfer.SolanaTransfer) :
  RealTransfer.collect_signature (map party order) receiver transfer
  = (transfer', None) ->
  (In receiver order ->
     exists resp, answered receiver resp
       /\ transfer' = if 0 <? len (mpc.Signature resp)
                      then RealTransfer.set_MPCSignature transfer (mpc.Signature resp)
                      else transfer)
  /\ (~ In receiver order -> transfer' = transfer).
Proof.
  unfold party, answered.
  revert transfer. induction order as [| i rest IH]; intros transfer H.
  - simpl in H. inversion H; subst. split; intros; [contradiction | reflexivity].
  - simpl in H.
    destruct (RealTransfer.sr_err (RealTransfer.sign_party _ _ _ _ _ _ _ i))
      as [e |] eqn:He; [discriminate |].
    destruct (transfer_sign_party_ok env keyShares messageToSign receiver i He)
      as (resp & Hresp & Hsig).
    rewrite transfer_sign_party_idx, Hsig in H.
    destruct (IH _ H) as (Hin & Hout).
    split.
    + intros Hrcv.
      destruct (in_dec Nat.eq_dec receiver rest) as [Hrest | Hrest].
      * destruct (Hin Hrest) as (resp' & Hresp' & Ht').
        exists resp'. split; [exact Hresp' |]. rewrite Ht'.
        destruct (Nat.eqb_spec i receiver) as [-> | Hne]; [| reflexivity].
        rewrite (transfer_answered_functional env keyShares messageToSign receiver
                   _ _ _ Hresp Hresp').
        destruct (0 <? len (mpc.Signature resp')); reflexivity.
      * destruct Hrcv as [-> | Hrcv]; [| contradiction].
        exists resp. split; [exact Hresp |].
        rewrite (Hout Hrest), Nat.eqb_refl. reflexivity.
    + intros Hn. rewrite Hout by (intros Hx; apply Hn; now right).
      destruct (Nat.eqb_spec i receiver) as [-> | Hne]; [| reflexivity].
      elim Hn. now left.
Qed.

Lemma collect_signature_all_answered (order : list nat)
    (transfer : RealTransfer.SolanaTransfer) :
  (forall i, In i order -> exists resp, answered i resp) ->
  snd (RealTransfer.collect_signature (map party order) receiver transfer) = None.
Proof.
  unfold answered.
  revert transfer. induction order as [| i rest IH]; intros transfer Hall.
  - reflexivity.
  - destruct (Hall i (or_introl eq_refl)) as (resp & Hresp).
    simpl. rewrite (transfer_sign_party_answered i resp Hresp). cbn.
    apply IH. intros j Hj. apply Hall. now right.
Qed.

Lemma collect_signature_failed (order : list nat)
    (transfer : RealTransfer.SolanaTransfer) (i : nat) :
  In i order -> RealTransfer.sr_err (party i) <> None ->
  exists cause,
    snd (RealTransfer.collect_signature (map party order) receiver transfer)
    = Some (ErrorfWrap "signing failed for party %d: %v" cause).
Proof.
  revert transfer. induction order as [| j rest IH]; intros transfer Hin Hfail;
    [contradiction |].
  simpl. destruct (RealTransfer.sr_err (party j)) as [e |] eqn:He.
  - now exists e.
  - destruct Hin as [-> | Hin]; [now elim Hfail |].
    now apply IH.
Qed.

End TransferSigning.

(** The collecting loop writes no field of the transfer but
    [MPCSignature], whatever arrives and however it ends. *)
Lemma collect_signature_frame (arrived : list RealTransfer.signResult)
    (receiver : nat) (transfer : RealTransfer.SolanaTransfer) :
  let transfer' := fst (RealTransfer.collect_signature arrived receiver transfer) in
  RealTransfer.FromAddress transfer' = RealTransfer.FromAddress transfer
  /\ RealTransfer.ToAddress transfer' = RealTransfer.ToAddress transfer
  /\ RealTransfer.Amount transfer' = RealTransfer.Amount transfer
  /\ RealTransfer.Transaction transfer' = RealTransfer.Transaction transfer.
Proof.
  revert transfer. induction arrived as [| r rest IH]; intros transfer.
  - now repeat split.
  - simpl. destruct (RealTransfer.sr_err r); [now repeat split |].
    specialize (IH (if (RealTransfer.sr_idx r =? receiver)%nat
                       && (0 <? len (RealTransfer.sr_signature r))
                    then RealTransfer.set_MPCSignature transfer
                           (RealTransfer.sr_signature r)
                    else transfer)).
    cbv zeta in IH. destruct IH as (H1 & H2 & H3 & H4).
    rewrite H1, H2, H3, H4.
    destruct ((RealTransfer.sr_idx r =? receiver)%nat
              && (0 <? len (RealTransfer.sr_signature r))); now repeat split.
Qed.

(** When [signWithMPC] returns [nil]: every party of both runs was
    answered, and the transfer is the one passed in with the receiver's
    signature stored, or untouched if that signature is empty. *)
Lemma signWithMPC_iff env transfer transfer' :
  RealTransfer.signWithMPC env transfer = (transfer', None) <->
  exists messageToSign cv k0 k1 k2 resp,
    tx_Message_MarshalBinary env (RealTransfer.Transaction transfer) = Ok messageToSign
    /\ curve_NewEd25519 env = Ok cv
    /\ RealTransferSteps.keygen_answered env cv 0 k0
    /\ RealTransferSteps.keygen_answered env cv 1 k1
    /\ RealTransferSteps.keygen_answered env cv 2 k2
    /\ (forall i, (i < 3)%nat ->
          exists r, RealTransfer.answered env
                      [mpc.keygen_KeyShare k0; mpc.keygen_KeyShare k1;
                       mpc.keygen_KeyShare k2] messageToSign 0 i r)
    /\ RealTransfer.answered env
         [mpc.keygen_KeyShare k0; mpc.keygen_KeyShare k1; mpc.keygen_KeyShare k2]
         messageToSign 0 0 resp
    /\ transfer' = (if 0 <? len (mpc.Signature resp)
                    then RealTransfer.set_MPCSignature transfer (mpc.Signature resp)
                    else transfer)
    /\ len (RealTransfer.MPCSignature transfer') = 64.
Proof.
  unfold RealTransfer.signWithMPC. split.
  - destruct (tx_Message_MarshalBinary env _) as [msg | e]; [| discriminate].
    destruct (curve_NewEd25519 env) as [cv | e]; [| discriminate].
    fold (RealTransfer.keygen_shares env cv).
    destruct (RealTransfer.keygen_shares env cv) as [ks | e] eqn:Hks; [| discriminate].
    apply keygen_shares_iff in Hks.
    destruct Hks as (k0 & k1 & k2 & A0 & A1 & A2 & ->).
    destruct (RealTransfer.collect_signature _ 0 transfer) as [t1 [e |]] eqn:Hc;
      [discriminate |].
    destruct (Z.eqb_spec (len (RealTransfer.MPCSignature t1)) 64) as [H64 | H64];
      [| discriminate].
    simpl. intros H. inversion H; subst t1.
    pose proof (collect_signature_ok _ _ _ _ _ _ _ Hc) as (Hall & _ & _).
    apply collect_signature_transfer in Hc. destruct Hc as (Hin & _).
    destruct Hin as (resp & Hresp & Ht); [apply finished_In; simpl; lia |].
    exists msg, cv, k0, k1, k2, resp.
    do 5 (split; [assumption || reflexivity |]).
    split; [| now repeat split].
    intros i Hi. apply Hall, finished_In. simpl. lia.
  - intros (msg & cv & k0 & k1 & k2 & resp & Hm & Hcv & A0 & A1 & A2 & Hall & Hresp
            & Ht & H64).
    rewrite Hm, Hcv. fold (RealTransfer.keygen_shares env cv).
    assert (Hks : RealTransfer.keygen_shares env cv
                  = Ok [mpc.keygen_KeyShare k0; mpc.keygen_KeyShare k1;
                        mpc.keygen_KeyShare k2]).
    { apply keygen_shares_iff. exists k0, k1, k2. now repeat split. }
    rewrite Hks.
    destruct (RealTransfer.collect_signature _ 0 transfer) as [t1 err] eqn:Hc.
    assert (He : err = None).
    { change err with (snd (t1, err)). rewrite <- Hc.
      apply collect_signature_all_answered.
      intros i Hi. apply Hall. apply finished_In in Hi. simpl in Hi. lia. }
    subst err.
    apply collect_signature_transfer in Hc. destruct Hc as (Hin & _).
    destruct Hin as (resp' & Hresp' & Ht1); [apply finished_In; simpl; lia |].
    rewrite (transfer_answered_functional _ _ _ _ _ _ _ Hresp' Hresp) in Ht1.
    rewrite <- Ht in Ht1. subst t1.
    rewrite H64. reflexivity.
Qed.

(** ** Properties of [signWithMPC] *)

Example carried_signature_passes :
  RealTransfer.signWithMPC Scenario.split
    (RealTransfer.set_MPCSignature
       (RealTransfer.new_transfer [] [] 0 Scenario.transaction) Scenario.sig64)
  = (RealTransfer.set_MPCSignature
       (RealTransfer.new_transfer [] [] 0 Scenario.transaction) Scenario.sig64,
     None).
Proof. vm_compute. reflexivity. Qed.

Example stalled_keygen_party :
  RealTransferSteps.keygen_failed Scenario.stalled curve.Ed25519 1 = true.
Proof. vm_compute. reflexivity. Qed.

(** X8. When [signWithMPC] returns [nil], the transfer holds
    a signature of 64 bytes, and it is either the non-empty signature the
    protocol handed party 0, or the receiver was handed an empty one and
    the transfer comes back untouched: a transfer that came in with 64
    bytes in [MPCSignature] passes with them. *)
Theorem signWithMPC_signature_or_carried
    (env : Env) (transfer transfer' : RealTransfer.SolanaTransfer) :
  RealTransfer.signWithMPC env transfer = (transfer', None) ->
  len (RealTransfer.MPCSignature transfer') = 64
  /\ exists messageToSign cv keyShares resp,
       tx_Message_MarshalBinary env (RealTransfer.Transaction transfer)
       = Ok messageToSign
       /\ curve_NewEd25519 env = Ok cv
       /\ RealTransfer.keygen_shares env cv = Ok keyShares
       /\ RealTransfer.answered env keyShares messageToSign 0 0 resp
       /\ ((0 < len (mpc.Signature resp)
            /\ transfer'
               = RealTransfer.set_MPCSignature transfer (mpc.Signature resp))
           \/ (mpc.Signature resp = [] /\ transfer' = transfer)).
Proof.
  intros H. apply signWithMPC_iff in H.
  destruct H as (msg & cv & k0 & k1 & k2 & resp & Hm & Hcv & A0 & A1 & A2 & _
                 & Hresp & Ht & H64).
  split; [exact H64 |].
  exists msg, cv,
    [mpc.keygen_KeyShare k0; mpc.keygen_KeyShare k1; mpc.keygen_KeyShare k2], resp.
  split; [exact Hm |]. split; [exact Hcv |].
  split; [apply keygen_shares_iff; exists k0, k1, k2; now repeat split |].
  split; [exact Hresp |].
  destruct (Z.ltb_spec 0 (len (mpc.Signature resp))) as [Hpos | Hpos].
  - left. now split.
  - right. split; [| exact Ht].
    unfold len in Hpos. destruct (mpc.Signature resp); [reflexivity |].
    simpl List.length in Hpos. lia.
Qed.

Lemma signWithMPC_signature_or_carried_witness :
  len (RealTransfer.MPCSignature
         (RealTransfer.set_MPCSignature
            (RealTransfer.new_transfer [] [] 0 Scenario.transaction)
            Scenario.sig64)) = 64
  /\ exists messageToSign cv keyShares resp,
       tx_Message_MarshalBinary Scenario.split
         (RealTransfer.Transaction
            (RealTransfer.set_MPCSignature
               (RealTransfer.new_transfer [] [] 0 Scenario.transaction)
               Scenario.sig64))
       = Ok messageToSign
       /\ curve_NewEd25519 Scenario.split = Ok cv
       /\ RealTransfer.keygen_shares Scenario.split cv = Ok keyShares
       /\ RealTransfer.answered Scenario.split keyShares messageToSign 0 0 resp
       /\ ((0 < len (mpc.Signature resp)
            /\ RealTransfer.set_MPCSignature
                 (RealTransfer.new_transfer [] [] 0 Scenario.transaction)
                 Scenario.sig64
               = RealTransfer.set_MPCSignature
                   (RealTransfer.set_MPCSignature
                      (RealTransfer.new_transfer [] [] 0 Scenario.transaction)
                      Scenario.sig64)
                   (mpc.Signature resp))
           \/ (mpc.Signature resp = []
               /\ RealTransfer.set_MPCSignature
                    (RealTransfer.new_transfer [] [] 0 Scenario.transaction)
                    Scenario.sig64
                  = RealTransfer.set_MPCSignature
                      (RealTransfer.new_transfer [] [] 0 Scenario.transaction)
                      Scenario.sig64)).
Proof.
  exact (signWithMPC_signature_or_carried Scenario.split _ _
           carried_signature_passes).
Defined.

(** X9. [signWithMPC] writes no field of the transfer but
    [MPCSignature]: the addresses, the amount and the transaction are
    those passed in, whether it returns [nil] or an error. *)
Theorem signWithMPC_writes_only_the_signature
    (env : Env) (transfer : RealTransfer.SolanaTransfer) :
  RealTransfer.FromAddress (fst (RealTransfer.signWithMPC env transfer))
  = RealTransfer.FromAddress transfer
  /\ RealTransfer.ToAddress (fst (RealTransfer.signWithMPC env transfer))
     = RealTransfer.ToAddress transfer
  /\ RealTransfer.Amount (fst (RealTransfer.signWithMPC env transfer))
     = RealTransfer.Amount transfer
  /\ RealTransfer.Transaction (fst (RealTransfer.signWithMPC env transfer))
     = RealTransfer.Transaction transfer.
Proof.
  unfold RealTransfer.signWithMPC.
  destruct (tx_Message_MarshalBinary env _) as [msg | e]; [| now repeat split].
  destruct (curve_NewEd25519 env) as [cv | e]; [| now repeat split].
  destruct (RealTransfer.collect_keyShares _ _) as [ks | e]; [| now repeat split].
  match goal with
  | |- context [RealTransfer.collect_signature ?l ?r transfer] =>
      pose proof (collect_signature_frame l r transfer) as Hf;
      destruct (RealTransfer.collect_signature l r transfer) as [t1 err]
  end.
  cbv zeta in Hf. simpl fst in Hf.
  destruct err; [exact Hf |].
  destruct (negb _); exact Hf.
Qed.

(** X10. When [signWithMPC] returns [nil], each of the three
    parties was asked to sign the serialized transaction message with the
    key share that the key generation inside the same call handed to that
    party, with party 0 as receiver. *)
Theorem signWithMPC_signs_with_generated_shares
    (env : Env) (transfer transfer' : RealTransfer.SolanaTransfer) :
  RealTransfer.signWithMPC env transfer = (transfer', None) ->
  exists messageToSign cv,
    tx_Message_MarshalBinary env (RealTransfer.Transaction transfer)
    = Ok messageToSign
    /\ curve_NewEd25519 env = Ok cv
    /\ forall i, (i < 3)%nat ->
         exists generated job signed,
           RealTransferSteps.keygen_answered env cv i generated
           /\ mpc_NewJobMP env SiteSign
                (nth i (mocknet.NewMockNetwork 3) mocknet.zero_Messenger)
                3 i ["server"; "pin-device"; "offline-kms"]%string = Ok job
           /\ mpc_EDDSAMPCSign env job
                {| mpc.KeyShare := mpc.keygen_KeyShare generated;
                   mpc.Message := messageToSign;
                   mpc.SignatureReceiver := 0 |} = Ok signed.
Proof.
  intros H. apply signWithMPC_iff in H.
  destruct H as (msg & cv & k0 & k1 & k2 & resp & Hm & Hcv & A0 & A1 & A2 & Hall
                 & _).
  exists msg, cv. split; [exact Hm |]. split; [exact Hcv |].
  intros i Hi. destruct (Hall i Hi) as (r & job & Hj & Hs).
  destruct i as [| [| [| i]]]; [| | | lia].
  - now exists k0, job, r.
  - now exists k1, job, r.
  - now exists k2, job, r.
Qed.

Lemma signWithMPC_signs_with_generated_shares_witness :
  exists messageToSign cv,
    tx_Message_MarshalBinary Scenario.calm
      (RealTransfer.Transaction
         (RealTransfer.new_transfer [] [] 0 Scenario.transaction))
    = Ok messageToSign
    /\ curve_NewEd25519 Scenario.calm = Ok cv
    /\ forall i, (i < 3)%nat ->
         exists generated job signed,
           RealTransferSteps.keygen_answered Scenario.calm cv i generated
           /\ mpc_NewJobMP Scenario.calm SiteSign
                (nth i (mocknet.NewMockNetwork 3) mocknet.zero_Messenger)
                3 i ["server"; "pin-device"; "offline-kms"]%string = Ok job
           /\ mpc_EDDSAMPCSign Scenario.calm job
                {| mpc.KeyShare := mpc.keygen_KeyShare generated;
                   mpc.Message := messageToSign;
                   mpc.SignatureReceiver := 0 |} = Ok signed.
Proof.
  exact (signWithMPC_signs_with_generated_shares Scenario.calm _ _
           calm_transfer_signs).
Defined.

(** X11. Whether [signWithMPC] returns [nil], and the transfer it
    then leaves, do not depend on the order in which the key generation
    and signing goroutines report on their channels. *)
Theorem signWithMPC_any_schedule
    (env : Env) (clock : Site -> nat -> nat)
    (transfer transfer' : RealTransfer.SolanaTransfer) :
  RealTransfer.signWithMPC (reschedule env clock) transfer = (transfer', None)
  <-> RealTransfer.signWithMPC env transfer = (transfer', None).
Proof.
  rewrite !signWithMPC_iff. reflexivity.
Qed.

(** X12. If a party's key generation goroutine reports an error,
    [signWithMPC] returns "keygen failed for party" and leaves the transfer
    as it was; if the key generation went through and a party's signing
    goroutine reports an error, it returns "signing failed for party". *)
Theorem signWithMPC_failed_party
    (env : Env) (transfer : RealTransfer.SolanaTransfer)
    (messageToSign : bytes) (cv : curve.Curve) (i : nat) :
  tx_Message_MarshalBinary env (RealTransfer.Transaction transfer)
  = Ok messageToSign ->
  curve_NewEd25519 env = Ok cv ->
  (i < 3)%nat ->
  (RealTransferSteps.keygen_failed env cv i = true ->
   exists cause,
     RealTransfer.signWithMPC env transfer
     = (transfer, Some (ErrorfWrap "keygen failed for party %d: %v" cause)))
  /\ (forall keyShares,
        RealTransfer.keygen_shares env cv = Ok keyShares ->
        RealTransferSteps.sign_failed env keyShares messageToSign i = true ->
        exists cause,
          snd (RealTransfer.signWithMPC env transfer)
          = Some (ErrorfWrap "signing failed for party %d: %v" cause)).
Proof.
  intros Hm Hcv Hi. unfold RealTransfer.signWithMPC. rewrite Hm, Hcv.
  fold (RealTransfer.keygen_shares env cv). split.
  - intros Hfail. unfold RealTransfer.keygen_shares.
    destruct (collect_keyShares_failed env cv (finished env SiteKeyGen 3)
                (repeat mpc.zero_EDDSAMPCKey (Z.to_nat 3)) i) as (cause & Hc).
    + apply finished_In. simpl. lia.
    + unfold RealTransferSteps.keygen_failed in Hfail.
      destruct (RealTransfer.kg_err _); [discriminate | discriminate].
    + rewrite Hc. now exists cause.
  - intros ks Hks Hfail. rewrite Hks.
    destruct (collect_signature_failed env ks messageToSign 0
                (finished env SiteSign 3) transfer i) as (cause & Hc).
    + apply finished_In. simpl. lia.
    + unfold RealTransferSteps.sign_failed in Hfail.
      destruct (RealTransfer.sr_err _); [discriminate | discriminate].
    + destruct (RealTransfer.collect_signature _ 0 transfer) as [t1 err].
      simpl in Hc. subst err. now exists cause.
Qed.

Lemma signWithMPC_failed_party_witness :
  exists cause,
    RealTransfer.signWithMPC Scenario.stalled
      (RealTransfer.new_transfer [] [] 0 Scenario.transaction)
    = (RealTransfer.new_transfer [] [] 0 Scenario.transaction,
       Some (ErrorfWrap "keygen failed for party %d: %v" cause)).
Proof.
  exact (proj1 (signWithMPC_failed_party Scenario.stalled
                  (RealTransfer.new_transfer [] [] 0 Scenario.transaction)
                  Scenario.message curve.Ed25519 1 eq_refl eq_refl ltac:(lia))
           stalled_keygen_party).
Defined.

(** ** After signing: [applyMPCSignature] and [waitForConfirmation] *)

Lemma firstn_len (b : bytes) (n : nat) :
  len b = Z.of_nat n -> firstn n b = b.
Proof.
  unfold len. intros H. apply firstn_all2. lia.
Qed.

(** X13. After [signWithMPC] returned [nil], as in [main] of
    the real-transfer program, [applyMPCSignature] does not panic and
    returns [nil]; the transaction then carries exactly one signature, the
    64 bytes of [MPCSignature], over the message it had before signing,
    and the other fields of the transfer are unchanged. *)
Theorem applyMPCSignature_after_signing
    (env : Env) (transfer transfer' : RealTransfer.SolanaTransfer) :
  RealTransfer.signWithMPC env transfer = (transfer', None) ->
  exists applied,
    RealTransferSteps.applyMPCSignature transfer' = Some (applied, None)
    /\ solana.tx_Signatures (RealTransfer.Transaction applied)
       = [RealTransfer.MPCSignature transfer']
    /\ solana.tx_Message (RealTransfer.Transaction applied)
       = solana.tx_Message (RealTransfer.Transaction transfer)
    /\ RealTransfer.FromAddress applied = RealTransfer.FromAddress transfer
    /\ RealTransfer.ToAddress applied = RealTransfer.ToAddress transfer
    /\ RealTransfer.Amount applied = RealTransfer.Amount transfer
    /\ RealTransfer.MPCSignature applied = RealTransfer.MPCSignature transfer'.
Proof.
  intros H. apply signWithMPC_iff in H.
  destruct H as (msg & cv & k0 & k1 & k2 & resp & _ & _ & _ & _ & _ & _ & _ & Ht
                 & H64).
  unfold RealTransferSteps.applyMPCSignature, RealTransferSteps.to_Signature.
  rewrite H64. cbn [Z.ltb Z.compare Pos.compare Pos.compare_cont].
  rewrite (firstn_len _ 64) by exact H64.
  eexists. split; [reflexivity |]. cbn.
  rewrite Ht. destruct (0 <? len (mpc.Signature resp)); now repeat split.
Qed.

Lemma applyMPCSignature_after_signing_witness :
  exists applied,
    RealTransferSteps.applyMPCSignature
      (RealTransfer.set_MPCSignature
         (RealTransfer.new_transfer [] [] 0 Scenario.transaction) Scenario.sig64)
    = Some (applied, None)
    /\ solana.tx_Signatures (RealTransfer.Transaction applied)
       = [RealTransfer.MPCSignature
            (RealTransfer.set_MPCSignature
               (RealTransfer.new_transfer [] [] 0 Scenario.transaction)
               Scenario.sig64)]
    /\ solana.tx_Message (RealTransfer.Transaction applied)
       = solana.tx_Message
           (RealTransfer.Transaction
              (RealTransfer.new_transfer [] [] 0 Scenario.transaction))
    /\ RealTransfer.FromAddress applied
       = RealTransfer.FromAddress
           (RealTransfer.new_transfer [] [] 0 Scenario.transaction)
    /\ RealTransfer.ToAddress applied
       = RealTransfer.ToAddress
           (RealTransfer.new_transfer [] [] 0 Scenario.transaction)
    /\ RealTransfer.Amount applied
       = RealTransfer.Amount
           (RealTransfer.new_transfer [] [] 0 Scenario.transaction)
    /\ RealTransfer.MPCSignature applied
       = RealTransfer.MPCSignature
           (RealTransfer.set_MPCSignature
              (RealTransfer.new_transfer [] [] 0 Scenario.transaction)
              Scenario.sig64).
Proof.
  exact (applyMPCSignature_after_signing Scenario.calm _ _ calm_transfer_signs).
Defined.

Lemma waitForConfirmation_inconclusive
    (e : RealTransferSteps.Event) (rest : list RealTransferSteps.Event) :
  RealTransferSteps.inconclusive e = true ->
  RealTransferSteps.waitForConfirmation (e :: rest)
  = RealTransferSteps.waitForConfirmation rest.
Proof.
  destruct e as [| [[| [status |] l] | err]]; simpl; try discriminate; auto.
  destruct ((RealTransferSteps.ConfirmationStatus status =? "confirmed")%string
            || (RealTransferSteps.ConfirmationStatus status =? "finalized")%string);
    [discriminate |].
  destruct (RealTransferSteps.status_Err status); [discriminate | reflexivity].
Qed.

Lemma waitForConfirmation_conclusive
    (e : RealTransferSteps.Event) (rest : list RealTransferSteps.Event) :
  RealTransferSteps.inconclusive e = false ->
  exists r, RealTransferSteps.waitForConfirmation (e :: rest) = Some r
            /\ (r = None <-> RealTransferSteps.confirmed e = true).
Proof.
  destruct e as [| [[| [status |] l] | err]]; simpl; try discriminate.
  - intros _. eexists. split; [reflexivity |]. split; discriminate.
  - destruct ((RealTransferSteps.ConfirmationStatus status =? "confirmed")%string
              || (RealTransferSteps.ConfirmationStatus status =? "finalized")%string).
    + intros _. exists None. now split.
    + destruct (RealTransferSteps.status_Err status); [| discriminate].
      intros _. eexists. split; [reflexivity |]. split; discriminate.
Qed.

(** X14. [waitForConfirmation] returns [nil] exactly when a poll
    finds the first status confirmed or finalized and every event before
    it left the loop running (a failed poll, no status yet, or a status
    that is neither confirmed nor failed). It looks at the confirmation
    status before the status error, so a confirmed status with an error
    set still gives [nil]. *)
Theorem waitForConfirmation_nil_iff (events : list RealTransferSteps.Event) :
  RealTransferSteps.waitForConfirmation events = Some None <->
  exists before e after,
    events = before ++ e :: after
    /\ forallb RealTransferSteps.inconclusive before = true
    /\ RealTransferSteps.confirmed e = true.
Proof.
  induction events as [| e rest IH].
  - split; [discriminate |].
    intros (before & e & after & H & _). now destruct before.
  - destruct (RealTransferSteps.inconclusive e) eqn:Hinc.
    + rewrite (waitForConfirmation_inconclusive e rest Hinc), IH. split.
      * intros (before & e' & after & -> & Hb & Hc).
        exists (e :: before), e', after. simpl. rewrite Hinc, Hb. now repeat split.
      * intros (before & e' & after & H & Hb & Hc).
        destruct before as [| b before]; simpl in H; inversion H; subst.
        -- destruct e' as [| [[| [status |] l] | err]]; simpl in Hinc, Hc;
             try discriminate.
           rewrite Hc in Hinc. discriminate.
        -- simpl in Hb. apply andb_true_iff in Hb. destruct Hb as (_ & Hb).
           now exists before, e', after.
    + destruct (waitForConfirmation_conclusive e rest Hinc) as (r & Hr & Hnil).
      rewrite Hr. split.
      * intros H. inversion H; subst r.
        exists [], e, rest. repeat split. now apply Hnil.
      * intros (before & e' & after & H & Hb & Hc).
        destruct before as [| b before]; simpl in H; inversion H; subst.
        -- f_equal. now apply Hnil.
        -- simpl in Hb. rewrite Hinc in Hb. discriminate.
Qed.

(** X15. [waitForConfirmation] is still waiting after a
    sequence of events exactly when each of them left the loop running;
    in particular it has returned once the timeout fired. *)
Theorem waitForConfirmation_waits_iff (events : list RealTransferSteps.Event) :
  (RealTransferSteps.waitForConfirmation events = None
   <-> forallb RealTransferSteps.inconclusive events = true)
  /\ (In RealTransferSteps.Timeout events ->
      RealTransferSteps.waitForConfirmation events <> None).
Proof.
  assert (Hiff : forall l,
            RealTransferSteps.waitForConfirmation l = None
            <-> forallb RealTransferSteps.inconclusive l = true).
  { induction l as [| e rest IH]; [now split |].
    destruct (RealTransferSteps.inconclusive e) eqn:Hinc.
    - rewrite (waitForConfirmation_inconclusive e rest Hinc), IH.
      simpl. now rewrite Hinc.
    - destruct (waitForConfirmation_conclusive e rest Hinc) as (r & Hr & _).
      rewrite Hr. simpl. rewrite Hinc. split; discriminate. }
  split; [apply Hiff |].
  intros Hin Hnone. apply Hiff in Hnone.
  rewrite forallb_forall in Hnone. specialize (Hnone _ Hin). discriminate.
Qed.

(** ** The transaction signer: [performMPCSigning] *)

Section SignerKeygen.

Variables (env : Env) (cv : curve.Curve).

Let party :=
  TransactionSigner.keygen_party env (mocknet.NewMockNetwork 3) 3
    ["server"; "pin-device"; "offline-kms"]%string cv.
Let answered := RealTransferSteps.keygen_answered env cv.

Lemma signer_keygen_party_idx (i : nat) : TransactionSigner.kg_idx (party i) = i.
Proof.
  unfold party, TransactionSigner.keygen_party.
  destruct (mpc_NewJobMP env SiteKeyGen _ 3 i _) as [job | e]; [| reflexivity].
  destruct (mpc_EDDSAMPCKeyGen env job _); reflexivity.
Qed.

Lemma signer_keygen_party_cases (i : nat) :
  (exists resp, answered i resp
     /\ party i = {| TransactionSigner.kg_idx := i;
                     TransactionSigner.kg_keyShare := mpc.keygen_KeyShare resp;
                     TransactionSigner.kg_err := None |})
  \/ ((forall resp, ~ answered i resp)
      /\ TransactionSigner.kg_err (party i) <> None).
Proof.
  unfold party, answered, TransactionSigner.keygen_party,
    RealTransferSteps.keygen_answered.
  destruct (mpc_NewJobMP env SiteKeyGen _ 3 i _) as [job | e] eqn:Hj.
  - destruct (mpc_EDDSAMPCKeyGen env job _) as [resp | e] eqn:Hs.
    + left. exists resp. split; [| reflexivity]. now exists job.
    + right. split; [| discriminate].
      intros resp (job' & Hj' & Hs'). congruence.
  - right. split; [| discriminate].
    intros resp (job' & Hj' & _). congruence.
Qed.

Lemma signer_collect_keyShares_ok (order : list nat)
    (ks0 ks : list mpc.EDDSAMPCKey) :
  (forall i, In i order -> (i < List.length ks0)%nat) ->
  TransactionSigner.collect_keyShares (map party order) ks0 = Ok ks ->
  List.length ks = List.length ks0
  /\ (forall i, In i order ->
        exists resp, answered i resp
          /\ nth i ks mpc.zero_EDDSAMPCKey = mpc.keygen_KeyShare resp)
  /\ (forall i, ~ In i order ->
        nth i ks mpc.zero_EDDSAMPCKey = nth i ks0 mpc.zero_EDDSAMPCKey).
Proof.
  revert ks0. induction order as [| i rest IH]; intros ks0 Hb H.
  - simpl in H. inversion H; subst. repeat split; intros; try contradiction; auto.
  - simpl in H.
    destruct (signer_keygen_party_cases i) as [(resp & Hresp & Hp) | (_ & Hp)].
    2: { destruct (TransactionSigner.kg_err (party i)); [discriminate | now elim Hp]. }
    rewrite Hp in H. cbn in H.
    assert (Hi : (i < List.length ks0)%nat) by (apply Hb; now left).
    destruct (IH (set_at ks0 i (mpc.keygen_KeyShare resp))) as (Hlen & Hin & Hout);
      auto.
    { intros j Hj. rewrite set_at_length. apply Hb. now right. }
    rewrite set_at_length in Hlen.
    split; [exact Hlen | split].
    + intros j Hj.
      destruct (in_dec Nat.eq_dec j rest) as [Hrest | Hrest]; [now apply Hin |].
      destruct Hj as [<- | Hj]; [| contradiction].
      exists resp. split; [exact Hresp |].
      rewrite (Hout _ Hrest), nth_set_at by exact Hi.
      now rewrite Nat.eqb_refl.
    + intros j Hj. rewrite Hout by (intros Hx; apply Hj; now right).
      rewrite nth_set_at by exact Hi.
      destruct (Nat.eqb_spec j i) as [-> | Hne]; [| reflexivity].
      elim Hj. now left.
Qed.

Lemma signer_collect_keyShares_all_answered (order : list nat)
    (ks0 : list mpc.EDDSAMPCKey) :
  (forall i, In i order -> exists resp, answered i resp) ->
  exists ks, TransactionSigner.collect_keyShares (map party order) ks0 = Ok ks.
Proof.
  revert ks0. induction order as [| i rest IH]; intros ks0 Hall.
  - now exists ks0.
  - destruct (Hall i (or_introl eq_refl)) as (resp & Hresp).
    destruct (signer_keygen_party_cases i) as [(resp' & _ & Hp) | (Hno & _)];
      [| now elim (Hno resp)].
    simpl. rewrite Hp. cbn.
    apply IH. intros j Hj. apply Hall. now right.
Qed.

Lemma signer_collect_keyShares_failed (order : list nat)
    (ks0 : list mpc.EDDSAMPCKey) (i : nat) :
  In i order -> TransactionSigner.kg_err (party i) <> None ->
  exists cause,
    TransactionSigner.collect_keyShares (map party order) ks0
    = Err (ErrorfWrap "keygen failed for party %d: %v" cause).
Proof.
  revert ks0. induction order as [| j rest IH]; intros ks0 Hin Hfail;
    [contradiction |].
  simpl. destruct (TransactionSigner.kg_err (party j)) as [e |] eqn:He.
  - now exists e.
  - destruct Hin as [-> | Hin]; [now elim Hfail |].
    now apply IH.
Qed.

Lemma signer_keygen_shares_iff (ks : list mpc.EDDSAMPCKey) :
  TransactionSignerRun.keygen_shares env cv = Ok ks <->
  exists r0 r1 r2,
    answered 0 r0 /\ answered 1 r1 /\ answered 2 r2
    /\ ks = [mpc.keygen_KeyShare r0; mpc.keygen_KeyShare r1; mpc.keygen_KeyShare r2].
Proof.
  unfold TransactionSignerRun.keygen_shares. fold party.
  assert (Hshape : forall ks,
            TransactionSigner.collect_keyShares
              (map party (finished env SiteKeyGen 3))
              (repeat mpc.zero_EDDSAMPCKey (Z.to_nat 3)) = Ok ks ->
            exists r0 r1 r2,
              answered 0 r0 /\ answered 1 r1 /\ answered 2 r2
              /\ ks = [mpc.keygen_KeyShare r0; mpc.keygen_KeyShare r1;
                       mpc.keygen_KeyShare r2]).
  { intros ks' H. apply signer_collect_keyShares_ok in H.
    - destruct H as (Hlen & Hin & _).
      destruct (Hin 0%nat) as (r0 & A0 & E0); [apply finished_In; simpl; lia |].
      destruct (Hin 1%nat) as (r1 & A1 & E1); [apply finished_In; simpl; lia |].
      destruct (Hin 2%nat) as (r2 & A2 & E2); [apply finished_In; simpl; lia |].
      exists r0, r1, r2. repeat (split; [assumption |]).
      simpl in Hlen.
      destruct ks' as [| a [| b [| c [| d l]]]]; try discriminate.
      simpl in E0, E1, E2. now subst.
    - intros j Hj. apply finished_In in Hj. simpl in *. lia. }
  split; [apply Hshape |].
  intros (r0 & r1 & r2 & A0 & A1 & A2 & ->).
  destruct (signer_collect_keyShares_all_answered (finished env SiteKeyGen 3)
              (repeat mpc.zero_EDDSAMPCKey (Z.to_nat 3))) as (ks & Hks).
  { intros i Hi. apply finished_In in Hi. simpl in Hi.
    destruct i as [| [| [| i]]];
      [now exists r0 | now exists r1 | now exists r2 | lia]. }
  rewrite Hks. f_equal.
  destruct (Hshape ks Hks) as (s0 & s1 & s2 & B0 & B1 & B2 & ->).
  now rewrite (keygen_answered_functional env cv _ _ _ B0 A0),
    (keygen_answered_functional env cv _ _ _ B1 A1),
    (keygen_answered_functional env cv _ _ _ B2 A2).
Qed.

End SignerKeygen.

Section SignerSigning.

Variables (env : Env) (keyShares : list mpc.EDDSAMPCKey).
Variables (message : bytes) (receiver : nat).

Let party :=
  TransactionSigner.sign_party env (mocknet.NewMockNetwork 3) 3
    ["server"; "pin-device"; "offline-kms"]%string keyShares message receiver.
Let answered := RealTransfer.answered env keyShares message receiver.

Lemma signer_sign_party_cases (i : nat) :
  (exists resp, answered i resp
     /\ party i = {| TransactionSigner.sr_idx := i;
                     TransactionSigner.sr_signature := mpc.Signature resp;
                     TransactionSigner.sr_err := None |})
  \/ ((forall resp, ~ answered i resp)
      /\ TransactionSigner.sr_err (party i) <> None).
Proof.
  unfold party, answered, TransactionSigner.sign_party, RealTransfer.answered.
  destruct (mpc_NewJobMP env SiteSign _ 3 i _) as [job | e] eqn:Hj.
  - destruct (mpc_EDDSAMPCSign env job _) as [resp | e] eqn:Hs.
    + left. exists resp. split; [| reflexivity]. now exists job.
    + right. split; [| discriminate].
      intros resp (job' & Hj' & Hs'). congruence.
  - right. split; [| discriminate].
    intros resp (job' & Hj' & _). congruence.
Qed.

(** The signature the collecting loop ends with when no party failed. *)
Lemma signer_collect_signature_ok (order : list nat) (fs0 fs : bytes) :
  TransactionSigner.collect_signature (map party order) receiver fs0 = Ok fs ->
  (forall i, In i order -> exists resp, answered i resp)
  /\ (In receiver order ->
      exists resp, answered receiver resp
        /\ fs = if 0 <? len (mpc.Signature resp) then mpc.Signature resp else fs0)
  /\ (~ In receiver order -> fs = fs0).
Proof.
  revert fs0. induction order as [| i rest IH]; intros fs0 H.
  - simpl in H. inversion H; subst. repeat split; intros; try contradiction; auto.
  - simpl in H.
    destruct (signer_sign_party_cases i) as [(resp & Hresp & Hp) | (_ & Hp)].
    2: { destruct (TransactionSigner.sr_err (party i)); [discriminate | now elim Hp]. }
    rewrite Hp in H. cbn [TransactionSigner.sr_err TransactionSigner.sr_idx
                          TransactionSigner.sr_signature] in H.
    destruct (IH _ H) as (Hall & Hin & Hout).
    split; [| split].
    + intros j [<- | Hj]; [now exists resp | now apply Hall].
    + intros Hrcv.
      destruct (in_dec Nat.eq_dec receiver rest) as [Hrest | Hrest].
      * destruct (Hin Hrest) as (resp' & Hresp' & Hfs).
        exists resp'. split; [exact Hresp' |]. rewrite Hfs.
        destruct (0 <? len (mpc.Signature resp')) eqn:Hpos; [reflexivity |].
        destruct (Nat.eqb_spec i receiver) as [-> | Hne]; [| reflexivity].
        rewrite (transfer_answered_functional env keyShares message receiver
                   _ _ _ Hresp Hresp'), Hpos.
        reflexivity.
      * destruct Hrcv as [-> | Hrcv]; [| contradiction].
        exists resp. split; [exact Hresp |].
        rewrite (Hout Hrest), Nat.eqb_refl. reflexivity.
    + intros Hn. rewrite Hout by (intros Hx; apply Hn; now right).
      destruct (Nat.eqb_spec i receiver) as [-> | Hne]; [| reflexivity].
      elim Hn. now left.
Qed.

Lemma signer_collect_signature_all_answered (order : list nat) (fs0 : bytes) :
  (forall i, In i order -> exists resp, answered i resp) ->
  exists fs,
    TransactionSigner.collect_signature (map party order) receiver fs0 = Ok fs.
Proof.
  revert fs0. induction order as [| i rest IH]; intros fs0 Hall.
  - now exists fs0.
  - destruct (Hall i (or_introl eq_refl)) as (resp & Hresp).
    destruct (signer_sign_party_cases i) as [(resp' & _ & Hp) | (Hno & _)];
      [| now elim (Hno resp)].
    simpl. rewrite Hp. cbn [TransactionSigner.sr_err].
    apply IH. intros j Hj. apply Hall. now right.
Qed.

Lemma signer_collect_signature_failed (order : list nat) (fs0 : bytes) (i : nat) :
  In i order -> TransactionSigner.sr_err (party i) <> None ->
  exists cause,
    TransactionSigner.collect_signature (map party order) receiver fs0
    = Err (ErrorfWrap "signing failed for party %d: %v" cause).
Proof.
  revert fs0. induction order as [| j rest IH]; intros fs0 Hin Hfail;
    [contradiction |].
  simpl. destruct (TransactionSigner.sr_err (party j)) as [e |] eqn:He.
  - now exists e.
  - destruct Hin as [-> | Hin]; [now elim Hfail |].
    now apply IH.
Qed.

End SignerSigning.

(** When the transaction signer accepts a signature: every party of both
    runs was answered and the signature is the receiver's, 64 bytes long. *)
Lemma signer_signed_iff env cv message sig :
  TransactionSigner.signed env cv message = Ok sig <->
  exists k0 k1 k2 resp,
    RealTransferSteps.keygen_answered env cv 0 k0
    /\ RealTransferSteps.keygen_answered env cv 1 k1
    /\ RealTransferSteps.keygen_answered env cv 2 k2
    /\ (forall i, (i < 3)%nat ->
          exists r, RealTransfer.answered env
                      [mpc.keygen_KeyShare k0; mpc.keygen_KeyShare k1;
                       mpc.keygen_KeyShare k2] message 0 i r)
    /\ RealTransfer.answered env
         [mpc.keygen_KeyShare k0; mpc.keygen_KeyShare k1; mpc.keygen_KeyShare k2]
         message 0 0 resp
    /\ sig = mpc.Signature resp
    /\ len sig = 64.
Proof.
  unfold TransactionSigner.signed.
  fold (TransactionSignerRun.keygen_shares env cv). split.
  - destruct (TransactionSignerRun.keygen_shares env cv) as [ks | e] eqn:Hks;
      [| discriminate].
    apply signer_keygen_shares_iff in Hks.
    destruct Hks as (k0 & k1 & k2 & A0 & A1 & A2 & ->).
    cbn [bind].
    destruct (TransactionSigner.collect_signature _ 0 []) as [fs | e] eqn:Hc;
      [| discriminate].
    cbn [bind].
    destruct (Z.eqb_spec (len fs) 0) as [H0 | H0]; [discriminate |].
    destruct (Z.eqb_spec (len fs) 64) as [H64 | H64]; [| discriminate].
    simpl. intros H. inversion H; subst fs.
    apply signer_collect_signature_ok in Hc. destruct Hc as (Hall & Hin & _).
    destruct Hin as (resp & Hresp & Hsig); [apply finished_In; simpl; lia |].
    exists k0, k1, k2, resp.
    do 3 (split; [assumption |]).
    split; [intros i Hi; apply Hall, finished_In; simpl; lia |].
    split; [exact Hresp |]. split; [| exact H64].
    destruct (0 <? len (mpc.Signature resp)); [exact Hsig |].
    subst sig. now elim H0.
  - intros (k0 & k1 & k2 & resp & A0 & A1 & A2 & Hall & Hresp & Hsig & H64).
    assert (Hks : TransactionSignerRun.keygen_shares env cv
                  = Ok [mpc.keygen_KeyShare k0; mpc.keygen_KeyShare k1;
                        mpc.keygen_KeyShare k2]).
    { apply signer_keygen_shares_iff. exists k0, k1, k2. now repeat split. }
    rewrite Hks. cbn [bind].
    destruct (signer_collect_signature_all_answered env
                [mpc.keygen_KeyShare k0; mpc.keygen_KeyShare k1;
                 mpc.keygen_KeyShare k2] message 0 (finished env SiteSign 3) [])
      as (fs & Hc).
    { intros i Hi. apply Hall. apply finished_In in Hi. simpl in Hi. lia. }
    rewrite Hc. cbn [bind].
    apply signer_collect_signature_ok in Hc. destruct Hc as (_ & Hin & _).
    destruct Hin as (resp' & Hresp' & Hfs); [apply finished_In; simpl; lia |].
    rewrite (transfer_answered_functional _ _ _ _ _ _ _ Hresp' Hresp) in Hfs.
    rewrite <- Hsig in Hfs.
    assert (Hpos : (0 <? len sig) = true) by (apply Z.ltb_lt; lia).
    rewrite Hpos in Hfs. subst fs.
    rewrite H64. reflexivity.
Qed.

(** What the transaction signer returns once every party of both runs
    was answered: only the receiver's signature decides. *)
Lemma signer_signed_answered env cv message k0 k1 k2 resp :
  RealTransferSteps.keygen_answered env cv 0 k0 ->
  RealTransferSteps.keygen_answered env cv 1 k1 ->
  RealTransferSteps.keygen_answered env cv 2 k2 ->
  (forall i, (i < 3)%nat ->
     exists r, RealTransfer.answered env
                 [mpc.keygen_KeyShare k0; mpc.keygen_KeyShare k1;
                  mpc.keygen_KeyShare k2] message 0 i r) ->
  RealTransfer.answered env
    [mpc.keygen_KeyShare k0; mpc.keygen_KeyShare k1; mpc.keygen_KeyShare k2]
    message 0 0 resp ->
  TransactionSigner.signed env cv message
  = if len (mpc.Signature resp) =? 0 then Err (Errorf "no signature received")
    else if negb (len (mpc.Signature resp) =? 64) then
      Err (Errorf "invalid Ed25519 signature length: got %d, expected 64")
    else Ok (mpc.Signature resp).
Proof.
  intros A0 A1 A2 Hall Hresp. unfold TransactionSigner.signed.
  fold (TransactionSignerRun.keygen_shares env cv).
  assert (Hks : TransactionSignerRun.keygen_shares env cv
                = Ok [mpc.keygen_KeyShare k0; mpc.keygen_KeyShare k1;
                      mpc.keygen_KeyShare k2]).
  { apply signer_keygen_shares_iff. exists k0, k1, k2. now repeat split. }
  rewrite Hks. cbn [bind].
  destruct (signer_collect_signature_all_answered env
              [mpc.keygen_KeyShare k0; mpc.keygen_KeyShare k1;
               mpc.keygen_KeyShare k2] message 0 (finished env SiteSign 3) [])
    as (fs & Hc).
  { intros i Hi. apply Hall. apply finished_In in Hi. simpl in Hi. lia. }
  rewrite Hc. cbn [bind].
  apply signer_collect_signature_ok in Hc. destruct Hc as (_ & Hin & _).
  destruct Hin as (resp' & Hresp' & Hfs); [apply finished_In; simpl; lia |].
  rewrite (transfer_answered_functional _ _ _ _ _ _ _ Hresp' Hresp) in Hfs.
  assert (Hsame : fs = mpc.Signature resp).
  { rewrite Hfs. destruct (Z.ltb_spec 0 (len (mpc.Signature resp))) as [Hp | Hp];
      [reflexivity |].
    unfold len in Hp. destruct (mpc.Signature resp); [reflexivity |].
    simpl List.length in Hp. lia. }
  rewrite Hsame. reflexivity.
Qed.

Example calm_signer_accepts :
  TransactionSigner.performMPCSigning Scenario.calm curve.Ed25519 Scenario.message
  = None.
Proof. vm_compute. reflexivity. Qed.

Example stalled_signer_keygen_party :
  TransactionSignerRun.keygen_failed Scenario.stalled curve.Ed25519 1 = true.
Proof. vm_compute. reflexivity. Qed.

(** X16. When [performMPCSigning] of the transaction signer
    returns [nil], the signature it accepted is 64 bytes long and is the
    one the protocol handed party 0, which signed the message with the key
    share its own key generation produced. *)
Theorem signer_accepts_receiver_signature
    (env : Env) (cv : curve.Curve) (message : bytes) :
  TransactionSigner.performMPCSigning env cv message = None ->
  exists sig generated job resp,
    TransactionSigner.signed env cv message = Ok sig
    /\ len sig = 64
    /\ RealTransferSteps.keygen_answered env cv 0 generated
    /\ mpc_NewJobMP env SiteSign
         (nth 0 (mocknet.NewMockNetwork 3) mocknet.zero_Messenger)
         3 0 ["server"; "pin-device"; "offline-kms"]%string = Ok job
    /\ mpc_EDDSAMPCSign env job
         {| mpc.KeyShare := mpc.keygen_KeyShare generated;
            mpc.Message := message;
            mpc.SignatureReceiver := 0 |} = Ok resp
    /\ sig = mpc.Signature resp.
Proof.
  unfold TransactionSigner.performMPCSigning.
  destruct (TransactionSigner.signed env cv message) as [sig | e] eqn:Hs;
    [| discriminate].
  intros _. apply signer_signed_iff in Hs.
  destruct Hs as (k0 & k1 & k2 & resp & A0 & _ & _ & _ & (job & Hj & Hr) & Hsig
                  & H64).
  exists sig, k0, job, resp. now repeat split.
Qed.

Lemma signer_accepts_receiver_signature_witness :
  exists sig generated job resp,
    TransactionSigner.signed Scenario.calm curve.Ed25519 Scenario.message = Ok sig
    /\ len sig = 64
    /\ RealTransferSteps.keygen_answered Scenario.calm curve.Ed25519 0 generated
    /\ mpc_NewJobMP Scenario.calm SiteSign
         (nth 0 (mocknet.NewMockNetwork 3) mocknet.zero_Messenger)
         3 0 ["server"; "pin-device"; "offline-kms"]%string = Ok job
    /\ mpc_EDDSAMPCSign Scenario.calm job
         {| mpc.KeyShare := mpc.keygen_KeyShare generated;
            mpc.Message := Scenario.message;
            mpc.SignatureReceiver := 0 |} = Ok resp
    /\ sig = mpc.Signature resp.
Proof.
  exact (signer_accepts_receiver_signature Scenario.calm curve.Ed25519
           Scenario.message calm_signer_accepts).
Defined.

(** X17. In the transaction signer, a party whose key generation
    goroutine reports an error makes [performMPCSigning] return "keygen
    failed for party", and one whose signing goroutine reports an error,
    after the key generation went through, "signing failed for party". *)
Theorem signer_failed_party
    (env : Env) (cv : curve.Curve) (message : bytes) (i : nat) :
  (i < 3)%nat ->
  (TransactionSignerRun.keygen_failed env cv i = true ->
   exists cause,
     TransactionSigner.performMPCSigning env cv message
     = Some (ErrorfWrap "keygen failed for party %d: %v" cause))
  /\ (forall keyShares,
        TransactionSignerRun.keygen_shares env cv = Ok keyShares ->
        TransactionSignerRun.sign_failed env keyShares message i = true ->
        exists cause,
          TransactionSigner.performMPCSigning env cv message
          = Some (ErrorfWrap "signing failed for party %d: %v" cause)).
Proof.
  intros Hi.
  unfold TransactionSigner.performMPCSigning, TransactionSigner.signed.
  fold (TransactionSignerRun.keygen_shares env cv). split.
  - intros Hfail. unfold TransactionSignerRun.keygen_shares.
    destruct (signer_collect_keyShares_failed env cv (finished env SiteKeyGen 3)
                (repeat mpc.zero_EDDSAMPCKey (Z.to_nat 3)) i) as (cause & Hc).
    + apply finished_In. simpl. lia.
    + unfold TransactionSignerRun.keygen_failed in Hfail.
      destruct (TransactionSigner.kg_err _); [discriminate | discriminate].
    + rewrite Hc. now exists cause.
  - intros ks Hks Hfail. rewrite Hks. cbn [bind].
    destruct (signer_collect_signature_failed env ks message 0
                (finished env SiteSign 3) [] i) as (cause & Hc).
    + apply finished_In. simpl. lia.
    + unfold TransactionSignerRun.sign_failed in Hfail.
      destruct (TransactionSigner.sr_err _); [discriminate | discriminate].
    + rewrite Hc. now exists cause.
Qed.

Lemma signer_failed_party_witness :
  exists cause,
    TransactionSigner.performMPCSigning Scenario.stalled curve.Ed25519
      Scenario.message
    = Some (ErrorfWrap "keygen failed for party %d: %v" cause).
Proof.
  exact (proj1 (signer_failed_party Scenario.stalled curve.Ed25519
                  Scenario.message 1 ltac:(lia))
           stalled_signer_keygen_party).
Defined.

(** X18. The signature the transaction signer accepts, and whether
    [performMPCSigning] returns [nil], do not depend on the order in which
    the goroutines report. *)
Theorem signer_any_schedule
    (env : Env) (clock : Site -> nat -> nat) (cv : curve.Curve)
    (message sig : bytes) :
  (TransactionSigner.signed (reschedule env clock) cv message = Ok sig
   <-> TransactionSigner.signed env cv message = Ok sig)
  /\ (TransactionSigner.performMPCSigning (reschedule env clock) cv message = None
      <-> TransactionSigner.performMPCSigning env cv message = None).
Proof.
  assert (Hsig : forall s,
            TransactionSigner.signed (reschedule env clock) cv message = Ok s
            <-> TransactionSigner.signed env cv message = Ok s).
  { intros s. rewrite !signer_signed_iff. reflexivity. }
  split; [apply Hsig |].
  unfold TransactionSigner.performMPCSigning.
  destruct (TransactionSigner.signed (reschedule env clock) cv message)
    as [s1 | e1];
    destruct (TransactionSigner.signed env cv message) as [s2 | e2];
    (split; intros H; try reflexivity; try discriminate H).
  - discriminate (proj1 (Hsig s1) eq_refl).
  - discriminate (proj2 (Hsig s2) eq_refl).
Qed.

(** X19. When every party of both runs of the transaction
    signer was answered, only the signature handed to party 0 decides: an
    empty one gives "no signature received", a non-empty one of another
    length than 64 gives "invalid Ed25519 signature length", and one of 64
    bytes gives [nil]. *)
Theorem signer_rejects_bad_signature
    (env : Env) (cv : curve.Curve) (message : bytes)
    (k0 k1 k2 : mpc.EDDSAMPCKeyGenResponse) (resp : mpc.EDDSAMPCSignResponse) :
  RealTransferSteps.keygen_answered env cv 0 k0 ->
  RealTransferSteps.keygen_answered env cv 1 k1 ->
  RealTransferSteps.keygen_answered env cv 2 k2 ->
  (forall i, (i < 3)%nat ->
     exists r, RealTransfer.answered env
                 [mpc.keygen_KeyShare k0; mpc.keygen_KeyShare k1;
                  mpc.keygen_KeyShare k2] message 0 i r) ->
  RealTransfer.answered env
    [mpc.keygen_KeyShare k0; mpc.keygen_KeyShare k1; mpc.keygen_KeyShare k2]
    message 0 0 resp ->
  (mpc.Signature resp = [] ->
   TransactionSigner.performMPCSigning env cv message
   = Some (Errorf "no signature received"))
  /\ (mpc.Signature resp <> [] -> len (mpc.Signature resp) <> 64 ->
      TransactionSigner.performMPCSigning env cv message
      = Some (Errorf "invalid Ed25519 signature length: got %d, expected 64"))
  /\ (len (mpc.Signature resp) = 64 ->
      TransactionSigner.performMPCSigning env cv message = None).
Proof.
  intros A0 A1 A2 Hall Hresp. unfold TransactionSigner.performMPCSigning.
  rewrite (signer_signed_answered env cv message k0 k1 k2 resp A0 A1 A2 Hall Hresp).
  split; [| split].
  - intros ->. reflexivity.
  - intros Hne H64.
    destruct (Z.eqb_spec (len (mpc.Signature resp)) 0) as [H0 | H0].
    + unfold len in H0. destruct (mpc.Signature resp); [now elim Hne |].
      simpl List.length in H0. lia.
    + destruct (Z.eqb_spec (len (mpc.Signature resp)) 64); [contradiction |].
      reflexivity.
  - intros H64. rewrite H64. reflexivity.
Qed.

Lemma signer_rejects_bad_signature_witness :
  TransactionSigner.performMPCSigning Scenario.short curve.Ed25519 Scenario.message
  = Some (Errorf "invalid Ed25519 signature length: got %d, expected 64").
Proof.
  exact (proj1 (proj2 (signer_rejects_bad_signature Scenario.short curve.Ed25519
                         Scenario.message _ _ _ _
                         short_keygen_answered_0 short_keygen_answered_1
                         short_keygen_answered_2 short_sign_answered_all
                         short_sign_answered_0))
           sig63_not_empty sig63_not_64).
Defined.

(** ** [main] of the transaction signer *)

Lemma MockS1Share_configured :
  (TransactionSignerMain.MockS1Share =? "PASTE_S1_SHARE_HERE")%string = false.
Proof. vm_compute. reflexivity. Qed.

Lemma Returned_inj {A} (a b : A) : Returned a = Returned b -> a = b.
Proof. intros H. now inversion H. Qed.

Lemma signer_main_iff env out :
  TransactionSignerMain.main env = Returned out <->
  exists cv,
    snd (base64_DecodeString env TransactionSignerMain.MockS1Share) = None
    /\ curve_NewEd25519 env = Ok cv
    /\ TransactionSigner.performMPCSigning env cv TransactionSignerMain.TestMessage
       = None
    /\ out = {| TransactionSignerMain.s1ShareLen :=
                  len (fst (base64_DecodeString env
                              TransactionSignerMain.MockS1Share));
                TransactionSignerMain.pinKeyHex :=
                  hex.EncodeToString
                    (pbkdf2.Key (bytes_of_string TransactionSignerMain.TestPIN)
                       (bytes_of_string TransactionSignerMain.PINSalt)
                       TransactionSignerMain.PBKDFIterations 32);
                TransactionSignerMain.messageHashHex :=
                  hex.EncodeToString
                    (sha256.Sum256 TransactionSignerMain.TestMessage) |}.
Proof.
  unfold TransactionSignerMain.main. rewrite MockS1Share_configured.
  destruct (base64_DecodeString env TransactionSignerMain.MockS1Share)
    as [s1ShareBytes err].
  cbn [fst snd]. split.
  - destruct err as [err |]; [discriminate |].
    destruct (curve_NewEd25519 env) as [cv | e]; [| discriminate].
    destruct (TransactionSigner.performMPCSigning env cv _) as [e |] eqn:Hs;
      [discriminate |].
    intros H. apply Returned_inj in H. subst out. exists cv.
    split; [reflexivity |]. split; [reflexivity |].
    split; [exact Hs | reflexivity].
  - intros (cv & -> & -> & -> & ->). reflexivity.
Qed.

Example calm_signer_main_signs :
  TransactionSigner.performMPCSigning Scenario.calm curve.Ed25519
    TransactionSignerMain.TestMessage = None.
Proof. vm_compute. reflexivity. Qed.

Example calm_signer_main_returns :
  exists out, TransactionSignerMain.main Scenario.calm = Returned out.
Proof.
  eexists. apply signer_main_iff. exists curve.Ed25519.
  split; [reflexivity |]. split; [reflexivity |].
  split; [exact calm_signer_main_signs | reflexivity].
Qed.

(** X20. When [main] of the transaction signer reaches its
    end, each of the three parties was asked to sign [TestMessage] itself
    with the share the key generation inside [performMPCSigning] handed to
    it; the hash [main] printed is the SHA-256 of that message, and
    neither it, nor the decoded S1 share, nor the key derived from the PIN
    is part of a signing request. *)
Theorem signer_main_signs_raw_message
    (env : Env) (out : TransactionSignerMain.Printed) :
  TransactionSignerMain.main env = Returned out ->
  exists cv,
    curve_NewEd25519 env = Ok cv
    /\ (forall i, (i < 3)%nat ->
          exists generated job signed,
            RealTransferSteps.keygen_answered env cv i generated
            /\ mpc_NewJobMP env SiteSign
                 (nth i (mocknet.NewMockNetwork 3) mocknet.zero_Messenger)
                 3 i ["server"; "pin-device"; "offline-kms"]%string = Ok job
            /\ mpc_EDDSAMPCSign env job
                 {| mpc.KeyShare := mpc.keygen_KeyShare generated;
                    mpc.Message := TransactionSignerMain.TestMessage;
                    mpc.SignatureReceiver := 0 |} = Ok signed)
    /\ TransactionSignerMain.messageHashHex out
       = hex.EncodeToString (sha256.Sum256 TransactionSignerMain.TestMessage).
Proof.
  intros H. apply signer_main_iff in H.
  destruct H as (cv & _ & Hcv & Hsign & ->).
  exists cv. split; [exact Hcv |]. split; [| reflexivity].
  unfold TransactionSigner.performMPCSigning in Hsign.
  destruct (TransactionSigner.signed env cv _) as [sig | e] eqn:Hs;
    [| discriminate].
  apply signer_signed_iff in Hs.
  destruct Hs as (k0 & k1 & k2 & resp & A0 & A1 & A2 & Hall & _).
  intros i Hi. destruct (Hall i Hi) as (r & job & Hj & Hr).
  destruct i as [| [| [| i]]]; [| | | lia].
  - now exists k0, job, r.
  - now exists k1, job, r.
  - now exists k2, job, r.
Qed.

Lemma signer_main_signs_raw_message_witness :
  exists out,
    TransactionSignerMain.main Scenario.calm = Returned out
    /\ exists cv,
         curve_NewEd25519 Scenario.calm = Ok cv
         /\ (forall i, (i < 3)%nat ->
               exists generated job signed,
                 RealTransferSteps.keygen_answered Scenario.calm cv i generated
                 /\ mpc_NewJobMP Scenario.calm SiteSign
                      (nth i (mocknet.NewMockNetwork 3) mocknet.zero_Messenger)
                      3 i ["server"; "pin-device"; "offline-kms"]%string = Ok job
                 /\ mpc_EDDSAMPCSign Scenario.calm job
                      {| mpc.KeyShare := mpc.keygen_KeyShare generated;
                         mpc.Message := TransactionSignerMain.TestMessage;
                         mpc.SignatureReceiver := 0 |} = Ok signed)
         /\ TransactionSignerMain.messageHashHex out
            = hex.EncodeToString
                (sha256.Sum256 TransactionSignerMain.TestMessage).
Proof.
  destruct calm_signer_main_returns as (out & Hmain).
  exists out. split; [exact Hmain |].
  exact (signer_main_signs_raw_message Scenario.calm out Hmain).
Defined.

(** * The receiver's signature *)

(** What [performMPCSigning] of the complete demo returns once the shares
    were converted and every member was answered: only the receiver's
    response decides. *)
Lemma performMPCSigning_answered env message parties resp :
  CompleteDemo.quorum_shares env = Ok parties ->
  (forall i, (i < 2)%nat ->
     exists r, CompleteDemo.answered env ["server"; "kms"; "pin"]%string
                 parties message 0 i r) ->
  CompleteDemo.answered env ["server"; "kms"; "pin"]%string parties message 0 0
    resp ->
  CompleteDemo.performMPCSigning env message
  = if len (mpc.Signature resp) =? 0
    then Err (Errorf "MPC signing did not produce a signature")
    else Ok (mpc.Signature resp).
Proof.
  intros Hq Hall Hresp. unfold CompleteDemo.performMPCSigning.
  rewrite performMPCSigning_stages, Hq. cbn [bind].
  pose proof (quorum_shares_two env parties Hq) as Hlen.
  assert (Hnone : snd (CompleteDemo.run_signing env
                         ["server"; "kms"; "pin"]%string parties message) = None).
  { unfold CompleteDemo.run_signing. apply wait_sign_all_answered.
    intros i Hi. apply finished_In in Hi. apply Hall.
    unfold len in Hi. rewrite Nat2Z.id in Hi. lia. }
  destruct (CompleteDemo.run_signing env _ parties message) as [fs e] eqn:Hr.
  simpl in Hnone. subst e.
  destruct (run_signing_ok _ _ _ _ _ Hr) as (_ & Hrcv).
  destruct Hrcv as (resp' & Hresp' & Hfs); [lia |].
  rewrite (demo_answered_functional _ _ _ _ _ _ _ _ Hresp' Hresp) in Hfs.
  subst fs. reflexivity.
Qed.

(** What [signWithMPC] returns once every party of both runs was
    answered: only the receiver's response decides. *)
Lemma signWithMPC_answered env transfer messageToSign cv k0 k1 k2 resp :
  tx_Message_MarshalBinary env (RealTransfer.Transaction transfer)
  = Ok messageToSign ->
  curve_NewEd25519 env = Ok cv ->
  RealTransferSteps.keygen_answered env cv 0 k0 ->
  RealTransferSteps.keygen_answered env cv 1 k1 ->
  RealTransferSteps.keygen_answered env cv 2 k2 ->
  (forall i, (i < 3)%nat ->
     exists r, RealTransfer.answered env
                 [mpc.keygen_KeyShare k0; mpc.keygen_KeyShare k1;
                  mpc.keygen_KeyShare k2] messageToSign 0 i r) ->
  RealTransfer.answered env
    [mpc.keygen_KeyShare k0; mpc.keygen_KeyShare k1; mpc.keygen_KeyShare k2]
    messageToSign 0 0 resp ->
  RealTransfer.signWithMPC env transfer
  = if 0 <? len (mpc.Signature resp) then
      (RealTransfer.set_MPCSignature transfer (mpc.Signature resp),
       if negb (len (mpc.Signature resp) =? 64)
       then Some (Errorf "invalid signature length: got %d, expected 64")
       else None)
    else
      (transfer,
       if negb (len (RealTransfer.MPCSignature transfer) =? 64)
       then Some (Errorf "invalid signature length: got %d, expected 64")
       else None).
Proof.
  intros Hm Hcv A0 A1 A2 Hall Hresp. unfold RealTransfer.signWithMPC.
  rewrite Hm, Hcv. fold (RealTransfer.keygen_shares env cv).
  assert (Hks : RealTransfer.keygen_shares env cv
                = Ok [mpc.keygen_KeyShare k0; mpc.keygen_KeyShare k1;
                      mpc.keygen_KeyShare k2]).
  { apply keygen_shares_iff. exists k0, k1, k2. now repeat split. }
  rewrite Hks.
  destruct (RealTransfer.collect_signature _ 0 transfer) as [t1 err] eqn:Hc.
  assert (He : err = None).
  { change err with (snd (t1, err)). rewrite <- Hc.
    apply collect_signature_all_answered.
    intros i Hi. apply Hall. apply finished_In in Hi. simpl in Hi. lia. }
  subst err.
  apply collect_signature_transfer in Hc. destruct Hc as (Hin & _).
  destruct Hin as (resp' & Hresp' & Ht1); [apply finished_In; simpl; lia |].
  rewrite (transfer_answered_functional _ _ _ _ _ _ _ Hresp' Hresp) in Ht1.
  subst t1.
  destruct (0 <? len (mpc.Signature resp)); cbn [RealTransfer.MPCSignature
    RealTransfer.set_MPCSignature];
    destruct (negb _); reflexivity.
Qed.

Example crowd_quorum_shares :
  CompleteDemo.quorum_shares Crowd.env
  = Ok [Library.additive (Scenario.share "server" (repeat x07 32))
          ["server"; "pin"]%string;
        Library.additive (Scenario.share "server" (repeat x07 32))
          ["server"; "pin"]%string].
Proof. vm_compute. reflexivity. Qed.

Example crowd_demo_receiver :
  CompleteDemo.answered Crowd.env ["server"; "kms"; "pin"]%string
    [Library.additive (Scenario.share "server" (repeat x07 32))
       ["server"; "pin"]%string;
     Library.additive (Scenario.share "server" (repeat x07 32))
       ["server"; "pin"]%string]
    Scenario.message 0 0 {| mpc.Signature := Scenario.sig64 |}.
Proof. eexists. split; reflexivity. Qed.

Example crowd_demo_other :
  CompleteDemo.answered Crowd.env ["server"; "kms"; "pin"]%string
    [Library.additive (Scenario.share "server" (repeat x07 32))
       ["server"; "pin"]%string;
     Library.additive (Scenario.share "server" (repeat x07 32))
       ["server"; "pin"]%string]
    Scenario.message 0 1 {| mpc.Signature := Crowd.other64 |}.
Proof. eexists. split; reflexivity. Qed.

Example crowd_demo_answered :
  forall i, (i < 2)%nat ->
    exists r,
      CompleteDemo.answered Crowd.env ["server"; "kms"; "pin"]%string
        [Library.additive (Scenario.share "server" (repeat x07 32))
           ["server"; "pin"]%string;
         Library.additive (Scenario.share "server" (repeat x07 32))
           ["server"; "pin"]%string]
        Scenario.message 0 i r.
Proof.
  intros i Hi. destruct i as [| [| i]]; [| | lia].
  - eexists. exact crowd_demo_receiver.
  - eexists. exact crowd_demo_other.
Qed.

Example crowd_keygen_answered_0 :
  RealTransferSteps.keygen_answered Crowd.env curve.Ed25519 0
    {| mpc.keygen_KeyShare := Scenario.share "server" (repeat x07 32) |}.
Proof. eexists. split; reflexivity. Qed.

Example crowd_keygen_answered_1 :
  RealTransferSteps.keygen_answered Crowd.env curve.Ed25519 1
    {| mpc.keygen_KeyShare := Scenario.share "pin-device" (repeat x07 32) |}.
Proof. eexists. split; reflexivity. Qed.

Example crowd_keygen_answered_2 :
  RealTransferSteps.keygen_answered Crowd.env curve.Ed25519 2
    {| mpc.keygen_KeyShare := Scenario.share "offline-kms" (repeat x07 32) |}.
Proof. eexists. split; reflexivity. Qed.

Example crowd_sign_receiver :
  RealTransfer.answered Crowd.env
    [Scenario.share "server" (repeat x07 32);
     Scenario.share "pin-device" (repeat x07 32);
     Scenario.share "offline-kms" (repeat x07 32)]
    Scenario.message 0 0 {| mpc.Signature := Scenario.sig64 |}.
Proof. eexists. split; reflexivity. Qed.

Example crowd_sign_other (i : nat) :
  i = 1%nat \/ i = 2%nat ->
  RealTransfer.answered Crowd.env
    [Scenario.share "server" (repeat x07 32);
     Scenario.share "pin-device" (repeat x07 32);
     Scenario.share "offline-kms" (repeat x07 32)]
    Scenario.message 0 i {| mpc.Signature := Crowd.other64 |}.
Proof. intros [-> | ->]; eexists; split; reflexivity. Qed.

Example crowd_sign_answered :
  forall i, (i < 3)%nat ->
    exists r,
      RealTransfer.answered Crowd.env
        [Scenario.share "server" (repeat x07 32);
         Scenario.share "pin-device" (repeat x07 32);
         Scenario.share "offline-kms" (repeat x07 32)]
        Scenario.message 0 i r.
Proof.
  intros i Hi. destruct i as [| [| [| i]]]; [| | | lia].
  - eexists. exact crowd_sign_receiver.
  - eexists. apply crowd_sign_other. now left.
  - eexists. apply crowd_sign_other. now right.
Qed.

Example crowd_completion_order :
  finished Crowd.env SiteSign 3 = [1; 0; 2]%nat.
Proof. vm_compute. reflexivity. Qed.

(** C5. On both signing paths the signature handed to the caller is the
    one in the protocol response of the receiver (party 0), and nothing
    else. When [performMPCSigning] of the complete demo returns a
    signature, and when [signWithMPC] returns [nil] on a transfer built as
    [main] builds it, that signature is [resp.Signature] of the receiver's
    own response. And once every member was answered, the receiver's
    response alone decides what the caller gets, in whatever order the
    members finish and whatever the other members were handed:
    [performMPCSigning] returns the receiver's signature if it is not
    empty and the error "MPC signing did not produce a signature" if it
    is; [signWithMPC] stores the receiver's signature if it is not empty
    and returns [nil] exactly when it is 64 bytes long. *)
Theorem signature_comes_from_receiver
    (env : Env) (message fromPubkey toPubkey : bytes) (lamports : Z)
    (tx : solana.Transaction) :
  (forall sig,
     CompleteDemo.performMPCSigning env message = Ok sig ->
     exists parties resp,
       CompleteDemo.quorum_shares env = Ok parties
       /\ CompleteDemo.answered env ["server"; "kms"; "pin"]%string parties
            message 0 0 resp
       /\ sig = mpc.Signature resp)
  /\ (forall transfer',
        RealTransfer.signWithMPC env
          (RealTransfer.new_transfer fromPubkey toPubkey lamports tx)
        = (transfer', None) ->
        exists messageToSign cv keyShares resp,
          tx_Message_MarshalBinary env tx = Ok messageToSign
          /\ curve_NewEd25519 env = Ok cv
          /\ RealTransfer.keygen_shares env cv = Ok keyShares
          /\ RealTransfer.answered env keyShares messageToSign 0 0 resp
          /\ RealTransfer.MPCSignature transfer' = mpc.Signature resp)
  /\ (forall parties resp,
        CompleteDemo.quorum_shares env = Ok parties ->
        (forall i, (i < 2)%nat ->
           exists r, CompleteDemo.answered env ["server"; "kms"; "pin"]%string
                       parties message 0 i r) ->
        CompleteDemo.answered env ["server"; "kms"; "pin"]%string parties
          message 0 0 resp ->
        CompleteDemo.performMPCSigning env message
        = if len (mpc.Signature resp) =? 0
          then Err (Errorf "MPC signing did not produce a signature")
          else Ok (mpc.Signature resp))
  /\ (forall messageToSign cv k0 k1 k2 resp,
        tx_Message_MarshalBinary env tx = Ok messageToSign ->
        curve_NewEd25519 env = Ok cv ->
        RealTransferSteps.keygen_answered env cv 0 k0 ->
        RealTransferSteps.keygen_answered env cv 1 k1 ->
        RealTransferSteps.keygen_answered env cv 2 k2 ->
        (forall i, (i < 3)%nat ->
           exists r, RealTransfer.answered env
                       [mpc.keygen_KeyShare k0; mpc.keygen_KeyShare k1;
                        mpc.keygen_KeyShare k2] messageToSign 0 i r) ->
        RealTransfer.answered env
          [mpc.keygen_KeyShare k0; mpc.keygen_KeyShare k1;
           mpc.keygen_KeyShare k2] messageToSign 0 0 resp ->
        RealTransfer.signWithMPC env
          (RealTransfer.new_transfer fromPubkey toPubkey lamports tx)
        = if 0 <? len (mpc.Signature resp) then
            (RealTransfer.set_MPCSignature
               (RealTransfer.new_transfer fromPubkey toPubkey lamports tx)
               (mpc.Signature resp),
             if negb (len (mpc.Signature resp) =? 64)
             then Some (Errorf "invalid signature length: got %d, expected 64")
             else None)
          else
            (RealTransfer.new_transfer fromPubkey toPubkey lamports tx,
             Some (Errorf "invalid signature length: got %d, expected 64"))).
Proof.
  split; [| split; [| split]].
  - intros sig H. destruct (performMPCSigning_ok env message sig H)
      as (parties & resp & Hq & _ & Hresp & Hsig & _).
    now exists parties, resp.
  - intros transfer' H.
    destruct (signWithMPC_fresh env fromPubkey toPubkey lamports tx transfer' H)
      as (msg & cv & ks & resp & Hm & Hcv & Hks & Hresp & Hsig & _).
    now exists msg, cv, ks, resp.
  - intros parties resp Hq Hall Hresp.
    exact (performMPCSigning_answered env message parties resp Hq Hall Hresp).
  - intros msg cv k0 k1 k2 resp Hm Hcv A0 A1 A2 Hall Hresp.
    rewrite (signWithMPC_answered env
               (RealTransfer.new_transfer fromPubkey toPubkey lamports tx)
               msg cv k0 k1 k2 resp Hm Hcv A0 A1 A2 Hall Hresp).
    reflexivity.
Qed.

Lemma signature_comes_from_receiver_witness :
  finished Crowd.env SiteSign 3 = [1; 0; 2]%nat
  /\ CompleteDemo.answered Crowd.env ["server"; "kms"; "pin"]%string
       [Library.additive (Scenario.share "server" (repeat x07 32))
          ["server"; "pin"]%string;
        Library.additive (Scenario.share "server" (repeat x07 32))
          ["server"; "pin"]%string]
       Scenario.message 0 1 {| mpc.Signature := Crowd.other64 |}
  /\ CompleteDemo.performMPCSigning Crowd.env Scenario.message
     = Ok Scenario.sig64
  /\ RealTransfer.signWithMPC Crowd.env
       (RealTransfer.new_transfer [] [] 0 Scenario.transaction)
     = (RealTransfer.set_MPCSignature
          (RealTransfer.new_transfer [] [] 0 Scenario.transaction)
          Scenario.sig64, None)
  /\ (exists parties resp,
        CompleteDemo.quorum_shares Crowd.env = Ok parties
        /\ CompleteDemo.answered Crowd.env ["server"; "kms"; "pin"]%string
             parties Scenario.message 0 0 resp
        /\ Scenario.sig64 = mpc.Signature resp)
  /\ (exists messageToSign cv keyShares resp,
        tx_Message_MarshalBinary Crowd.env Scenario.transaction
        = Ok messageToSign
        /\ curve_NewEd25519 Crowd.env = Ok cv
        /\ RealTransfer.keygen_shares Crowd.env cv = Ok keyShares
        /\ RealTransfer.answered Crowd.env keyShares messageToSign 0 0 resp
        /\ Scenario.sig64 = mpc.Signature resp).
Proof.
  split; [exact crowd_completion_order |].
  split; [exact crowd_demo_other |].
  refine ((fun demo transfer => conj demo (conj transfer (conj _ _))) _ _).
  - exact (proj1 (signature_comes_from_receiver Crowd.env Scenario.message
                    [] [] 0 Scenario.transaction)
             Scenario.sig64 demo).
  - exact (proj1 (proj2 (signature_comes_from_receiver Crowd.env Scenario.message
                           [] [] 0 Scenario.transaction))
             _ transfer).
  - exact (proj1 (proj2 (proj2 (signature_comes_from_receiver Crowd.env
                                  Scenario.message [] [] 0 Scenario.transaction)))
             _ _ crowd_quorum_shares crowd_demo_answered crowd_demo_receiver).
  - exact (proj2 (proj2 (proj2 (signature_comes_from_receiver Crowd.env
                                  Scenario.message [] [] 0 Scenario.transaction)))
             Scenario.message curve.Ed25519 _ _ _ _
             eq_refl eq_refl
             crowd_keygen_answered_0 crowd_keygen_answered_1
             crowd_keygen_answered_2 crowd_sign_answered crowd_sign_receiver).
Defined.
